(** * ESP32 Network Blocker (version 1): Controller / Switchbox firmware

    A shallow embedding of the ESP-NOW sketch of the repository (the second
    program of [secret_settings.h], from "ESP32 Network Blocker (version 1)"
    on) and the properties of its actuation gate, its debounced emergency-stop
    input, its role negotiation and its touch-base scheduling.

    The sketch is a set of [void] procedures over global variables.  Each
    procedure is embedded as a function [World -> World]; a [World] holds the
    globals, the function-local statics, the board (millisecond clock, output
    pins, serial console) and the radio driver.  What the board reads from the
    outside (input pins, the radio) is an [Env], indexed by time. *)

From Stdlib Require Import ZArith List String Bool Lia.
From stdpp Require Import base gmap.
Import ListNotations.
Local Open Scope string_scope.
Local Open Scope Z_scope.

(** ** Enumerations and the message of the sketch *)

Inductive transmission_Type : Type :=
  | requestNetworkStatus
  | networkStatusReply
  | requestSwitchboxStatus
  | switchboxStatusReply
  | requestControllerBlockNetwork
  | requestControllerUnblockNetwork.

Inductive device_Status : Type :=
  | blocked
  | unblocked
  | unknown.

Record transmission_Structure : Type := mkTransmission {
  transmission : transmission_Type;
  status : device_Status
}.

#[global] Instance transmission_Type_eq_dec : EqDecision transmission_Type.
Proof. solve_decision. Defined.

#[global] Instance device_Status_eq_dec : EqDecision device_Status.
Proof. solve_decision. Defined.

(** [x == y] of the C++ source on the two enumerations. *)
Definition status_eqb (a b : device_Status) : bool := bool_decide (a = b).
Definition kind_eqb (a b : transmission_Type) : bool := bool_decide (a = b).

(** What [Serial.print] and [Serial.println] wrote, in order;
    [SerialPrintlnMAC] is [Serial.println(WiFi.macAddress())]. *)
Inductive SerialOut : Type :=
  | SerialPrint (text : string)
  | SerialPrintln (text : string)
  | SerialPrintlnMAC (address : option (list Z)).

(** A callback the radio task runs: the completion of a send
    ([OnDataSent], with [status == ESP_NOW_SEND_SUCCESS] or not) or the
    arrival of a packet ([OnDataRecv]). *)
Inductive RadioEvent : Type :=
  | SendCompleted (success : bool)
  | PacketArrived (incomingMessage : transmission_Structure).

(** ** User settings and constants *)

Record Settings : Type := mkSettings {
  useASwitchbox : bool;
  useOnboardLED : bool;
  useExternalLED : bool;
  useLongRange : bool
}.

Definition controllerNormallyOpenedConnectionPin : Z := 18.
Definition controllerNormallyClosedConnectionPin : Z := 19.
Definition controllerRelayConnectionPin : Z := 23.
Definition swtichboxNormallyOpenedConnectionPin : Z := 21.
Definition swichboxNormallyClosedConnectionPin : Z := 22.
Definition onboardLEDPin : Z := 2.
Definition externalLEDPin : Z := 5.

Definition FlashRateOfTheLEDWhenThereIsACommunicationsProblemBetweenTheControllerAndSwitch : Z := 333.
Definition FlashRateOfTheLEDWhenThereIsAWiringProblem : Z := 1000.
Definition FlashRateOfTheLEDWhenTheESPNOWFailedToInitialize : Z := 3000.

Definition touchBaseTimePeriodWhenAllIsGood : Z := 30000.
Definition touchBaseTimePeriodWhenThereIsAKnownProblem : Z := 5000.
Definition touchbaseOffsetsForSwitchbox : Z := 1500.

Definition controllerMACAddress : list Z := [0x40; 0x22; 0xD8; 0xEB; 0x3A; 0x00].
Definition remoteSwitchMACAddress : list Z := [0x40; 0x22; 0xD8; 0xEB; 0x3A; 0x01].

Definition HIGH : bool := true.
Definition LOW : bool := false.

(** ** The world *)

Record World : Type := mkWorld {
  (* globals of the sketch *)
  FlashRateOfTheLED : Z;
  nextTouchBaseTimeTarget : Z;
  thisIsTheController : bool;
  thisIsTheSwitchbox : bool;
  ControllerSwitchStatus : device_Status;
  SwitchBoxSwitchStatus : device_Status;
  NetworkStatus : device_Status;
  packedSentSuccesfully : bool;
  (* function-local statics *)
  lastSwitchBoxSwitchStatus : device_Status;
  lastControllerSwitchStatus : device_Status;
  LEDIsOn : bool;
  nextFlashCycle : Z;
  (* the board: milliseconds since boot (not wrapped), the level driven on
     each output pin, the serial console *)
  clock : Z;
  pin_out : gmap Z bool;
  serial : list SerialOut;
  (* the radio driver: station mode entered, the address set with
     [esp_wifi_set_mac] ([None]: the board's own), callbacks registered, and
     the packets handed to [esp_now_send] (destination, payload), oldest first *)
  wifi_sta : bool;
  sta_mac : option (list Z);
  send_cb : bool;
  recv_cb : bool;
  sent : list (list Z * transmission_Structure)
}.

(** The outside of the board.  [pin_level p t] is the level on input pin [p]
    at millisecond [t]; [send_accepted t] tells whether [esp_now_send] called
    at [t] returns [ESP_OK]; [radio_during t n] lists the callbacks the radio
    task runs while the main task sleeps for [n] ms from [t]. *)
Record Env : Type := mkEnv {
  pin_level : Z -> Z -> bool;
  send_accepted : Z -> bool;
  radio_during : Z -> Z -> list RadioEvent;
  esp_now_init_ok : bool;
  esp_now_add_peer_ok : bool
}.

Definition set_FlashRateOfTheLED (v : Z) (w : World) : World :=
  {| FlashRateOfTheLED := v; nextTouchBaseTimeTarget := nextTouchBaseTimeTarget w;
     thisIsTheController := thisIsTheController w; thisIsTheSwitchbox := thisIsTheSwitchbox w;
     ControllerSwitchStatus := ControllerSwitchStatus w;
     SwitchBoxSwitchStatus := SwitchBoxSwitchStatus w; NetworkStatus := NetworkStatus w;
     packedSentSuccesfully := packedSentSuccesfully w;
     lastSwitchBoxSwitchStatus := lastSwitchBoxSwitchStatus w;
     lastControllerSwitchStatus := lastControllerSwitchStatus w; LEDIsOn := LEDIsOn w;
     nextFlashCycle := nextFlashCycle w; clock := clock w; pin_out := pin_out w;
     serial := serial w; wifi_sta := wifi_sta w; sta_mac := sta_mac w; send_cb := send_cb w;
     recv_cb := recv_cb w; sent := sent w |}.

Definition set_nextTouchBaseTimeTarget (v : Z) (w : World) : World :=
  {| FlashRateOfTheLED := FlashRateOfTheLED w; nextTouchBaseTimeTarget := v;
     thisIsTheController := thisIsTheController w; thisIsTheSwitchbox := thisIsTheSwitchbox w;
     ControllerSwitchStatus := ControllerSwitchStatus w;
     SwitchBoxSwitchStatus := SwitchBoxSwitchStatus w; NetworkStatus := NetworkStatus w;
     packedSentSuccesfully := packedSentSuccesfully w;
     lastSwitchBoxSwitchStatus := lastSwitchBoxSwitchStatus w;
     lastControllerSwitchStatus := lastControllerSwitchStatus w; LEDIsOn := LEDIsOn w;
     nextFlashCycle := nextFlashCycle w; clock := clock w; pin_out := pin_out w;
     serial := serial w; wifi_sta := wifi_sta w; sta_mac := sta_mac w; send_cb := send_cb w;
     recv_cb := recv_cb w; sent := sent w |}.

Definition set_thisIsTheController (v : bool) (w : World) : World :=
  {| FlashRateOfTheLED := FlashRateOfTheLED w;
     nextTouchBaseTimeTarget := nextTouchBaseTimeTarget w; thisIsTheController := v;
     thisIsTheSwitchbox := thisIsTheSwitchbox w;
     ControllerSwitchStatus := ControllerSwitchStatus w;
     SwitchBoxSwitchStatus := SwitchBoxSwitchStatus w; NetworkStatus := NetworkStatus w;
     packedSentSuccesfully := packedSentSuccesfully w;
     lastSwitchBoxSwitchStatus := lastSwitchBoxSwitchStatus w;
     lastControllerSwitchStatus := lastControllerSwitchStatus w; LEDIsOn := LEDIsOn w;
     nextFlashCycle := nextFlashCycle w; clock := clock w; pin_out := pin_out w;
     serial := serial w; wifi_sta := wifi_sta w; sta_mac := sta_mac w; send_cb := send_cb w;
     recv_cb := recv_cb w; sent := sent w |}.

Definition set_thisIsTheSwitchbox (v : bool) (w : World) : World :=
  {| FlashRateOfTheLED := FlashRateOfTheLED w;
     nextTouchBaseTimeTarget := nextTouchBaseTimeTarget w;
     thisIsTheController := thisIsTheController w; thisIsTheSwitchbox := v;
     ControllerSwitchStatus := ControllerSwitchStatus w;
     SwitchBoxSwitchStatus := SwitchBoxSwitchStatus w; NetworkStatus := NetworkStatus w;
     packedSentSuccesfully := packedSentSuccesfully w;
     lastSwitchBoxSwitchStatus := lastSwitchBoxSwitchStatus w;
     lastControllerSwitchStatus := lastControllerSwitchStatus w; LEDIsOn := LEDIsOn w;
     nextFlashCycle := nextFlashCycle w; clock := clock w; pin_out := pin_out w;
     serial := serial w; wifi_sta := wifi_sta w; sta_mac := sta_mac w; send_cb := send_cb w;
     recv_cb := recv_cb w; sent := sent w |}.

Definition set_ControllerSwitchStatus (v : device_Status) (w : World) : World :=
  {| FlashRateOfTheLED := FlashRateOfTheLED w;
     nextTouchBaseTimeTarget := nextTouchBaseTimeTarget w;
     thisIsTheController := thisIsTheController w; thisIsTheSwitchbox := thisIsTheSwitchbox w;
     ControllerSwitchStatus := v; SwitchBoxSwitchStatus := SwitchBoxSwitchStatus w;
     NetworkStatus := NetworkStatus w; packedSentSuccesfully := packedSentSuccesfully w;
     lastSwitchBoxSwitchStatus := lastSwitchBoxSwitchStatus w;
     lastControllerSwitchStatus := lastControllerSwitchStatus w; LEDIsOn := LEDIsOn w;
     nextFlashCycle := nextFlashCycle w; clock := clock w; pin_out := pin_out w;
     serial := serial w; wifi_sta := wifi_sta w; sta_mac := sta_mac w; send_cb := send_cb w;
     recv_cb := recv_cb w; sent := sent w |}.

Definition set_SwitchBoxSwitchStatus (v : device_Status) (w : World) : World :=
  {| FlashRateOfTheLED := FlashRateOfTheLED w;
     nextTouchBaseTimeTarget := nextTouchBaseTimeTarget w;
     thisIsTheController := thisIsTheController w; thisIsTheSwitchbox := thisIsTheSwitchbox w;
     ControllerSwitchStatus := ControllerSwitchStatus w; SwitchBoxSwitchStatus := v;
     NetworkStatus := NetworkStatus w; packedSentSuccesfully := packedSentSuccesfully w;
     lastSwitchBoxSwitchStatus := lastSwitchBoxSwitchStatus w;
     lastControllerSwitchStatus := lastControllerSwitchStatus w; LEDIsOn := LEDIsOn w;
     nextFlashCycle := nextFlashCycle w; clock := clock w; pin_out := pin_out w;
     serial := serial w; wifi_sta := wifi_sta w; sta_mac := sta_mac w; send_cb := send_cb w;
     recv_cb := recv_cb w; sent := sent w |}.

Definition set_NetworkStatus (v : device_Status) (w : World) : World :=
  {| FlashRateOfTheLED := FlashRateOfTheLED w;
     nextTouchBaseTimeTarget := nextTouchBaseTimeTarget w;
     thisIsTheController := thisIsTheController w; thisIsTheSwitchbox := thisIsTheSwitchbox w;
     ControllerSwitchStatus := ControllerSwitchStatus w;
     SwitchBoxSwitchStatus := SwitchBoxSwitchStatus w; NetworkStatus := v;
     packedSentSuccesfully := packedSentSuccesfully w;
     lastSwitchBoxSwitchStatus := lastSwitchBoxSwitchStatus w;
     lastControllerSwitchStatus := lastControllerSwitchStatus w; LEDIsOn := LEDIsOn w;
     nextFlashCycle := nextFlashCycle w; clock := clock w; pin_out := pin_out w;
     serial := serial w; wifi_sta := wifi_sta w; sta_mac := sta_mac w; send_cb := send_cb w;
     recv_cb := recv_cb w; sent := sent w |}.

Definition set_packedSentSuccesfully (v : bool) (w : World) : World :=
  {| FlashRateOfTheLED := FlashRateOfTheLED w;
     nextTouchBaseTimeTarget := nextTouchBaseTimeTarget w;
     thisIsTheController := thisIsTheController w; thisIsTheSwitchbox := thisIsTheSwitchbox w;
     ControllerSwitchStatus := ControllerSwitchStatus w;
     SwitchBoxSwitchStatus := SwitchBoxSwitchStatus w; NetworkStatus := NetworkStatus w;
     packedSentSuccesfully := v; lastSwitchBoxSwitchStatus := lastSwitchBoxSwitchStatus w;
     lastControllerSwitchStatus := lastControllerSwitchStatus w; LEDIsOn := LEDIsOn w;
     nextFlashCycle := nextFlashCycle w; clock := clock w; pin_out := pin_out w;
     serial := serial w; wifi_sta := wifi_sta w; sta_mac := sta_mac w; send_cb := send_cb w;
     recv_cb := recv_cb w; sent := sent w |}.

Definition set_lastSwitchBoxSwitchStatus (v : device_Status) (w : World) : World :=
  {| FlashRateOfTheLED := FlashRateOfTheLED w;
     nextTouchBaseTimeTarget := nextTouchBaseTimeTarget w;
     thisIsTheController := thisIsTheController w; thisIsTheSwitchbox := thisIsTheSwitchbox w;
     ControllerSwitchStatus := ControllerSwitchStatus w;
     SwitchBoxSwitchStatus := SwitchBoxSwitchStatus w; NetworkStatus := NetworkStatus w;
     packedSentSuccesfully := packedSentSuccesfully w; lastSwitchBoxSwitchStatus := v;
     lastControllerSwitchStatus := lastControllerSwitchStatus w; LEDIsOn := LEDIsOn w;
     nextFlashCycle := nextFlashCycle w; clock := clock w; pin_out := pin_out w;
     serial := serial w; wifi_sta := wifi_sta w; sta_mac := sta_mac w; send_cb := send_cb w;
     recv_cb := recv_cb w; sent := sent w |}.

Definition set_lastControllerSwitchStatus (v : device_Status) (w : World) : World :=
  {| FlashRateOfTheLED := FlashRateOfTheLED w;
     nextTouchBaseTimeTarget := nextTouchBaseTimeTarget w;
     thisIsTheController := thisIsTheController w; thisIsTheSwitchbox := thisIsTheSwitchbox w;
     ControllerSwitchStatus := ControllerSwitchStatus w;
     SwitchBoxSwitchStatus := SwitchBoxSwitchStatus w; NetworkStatus := NetworkStatus w;
     packedSentSuccesfully := packedSentSuccesfully w;
     lastSwitchBoxSwitchStatus := lastSwitchBoxSwitchStatus w; lastControllerSwitchStatus := v;
     LEDIsOn := LEDIsOn w; nextFlashCycle := nextFlashCycle w; clock := clock w;
     pin_out := pin_out w; serial := serial w; wifi_sta := wifi_sta w; sta_mac := sta_mac w;
     send_cb := send_cb w; recv_cb := recv_cb w; sent := sent w |}.

Definition set_LEDIsOn (v : bool) (w : World) : World :=
  {| FlashRateOfTheLED := FlashRateOfTheLED w;
     nextTouchBaseTimeTarget := nextTouchBaseTimeTarget w;
     thisIsTheController := thisIsTheController w; thisIsTheSwitchbox := thisIsTheSwitchbox w;
     ControllerSwitchStatus := ControllerSwitchStatus w;
     SwitchBoxSwitchStatus := SwitchBoxSwitchStatus w; NetworkStatus := NetworkStatus w;
     packedSentSuccesfully := packedSentSuccesfully w;
     lastSwitchBoxSwitchStatus := lastSwitchBoxSwitchStatus w;
     lastControllerSwitchStatus := lastControllerSwitchStatus w; LEDIsOn := v;
     nextFlashCycle := nextFlashCycle w; clock := clock w; pin_out := pin_out w;
     serial := serial w; wifi_sta := wifi_sta w; sta_mac := sta_mac w; send_cb := send_cb w;
     recv_cb := recv_cb w; sent := sent w |}.

Definition set_nextFlashCycle (v : Z) (w : World) : World :=
  {| FlashRateOfTheLED := FlashRateOfTheLED w;
     nextTouchBaseTimeTarget := nextTouchBaseTimeTarget w;
     thisIsTheController := thisIsTheController w; thisIsTheSwitchbox := thisIsTheSwitchbox w;
     ControllerSwitchStatus := ControllerSwitchStatus w;
     SwitchBoxSwitchStatus := SwitchBoxSwitchStatus w; NetworkStatus := NetworkStatus w;
     packedSentSuccesfully := packedSentSuccesfully w;
     lastSwitchBoxSwitchStatus := lastSwitchBoxSwitchStatus w;
     lastControllerSwitchStatus := lastControllerSwitchStatus w; LEDIsOn := LEDIsOn w;
     nextFlashCycle := v; clock := clock w; pin_out := pin_out w; serial := serial w;
     wifi_sta := wifi_sta w; sta_mac := sta_mac w; send_cb := send_cb w; recv_cb := recv_cb w;
     sent := sent w |}.

Definition set_clock (v : Z) (w : World) : World :=
  {| FlashRateOfTheLED := FlashRateOfTheLED w;
     nextTouchBaseTimeTarget := nextTouchBaseTimeTarget w;
     thisIsTheController := thisIsTheController w; thisIsTheSwitchbox := thisIsTheSwitchbox w;
     ControllerSwitchStatus := ControllerSwitchStatus w;
     SwitchBoxSwitchStatus := SwitchBoxSwitchStatus w; NetworkStatus := NetworkStatus w;
     packedSentSuccesfully := packedSentSuccesfully w;
     lastSwitchBoxSwitchStatus := lastSwitchBoxSwitchStatus w;
     lastControllerSwitchStatus := lastControllerSwitchStatus w; LEDIsOn := LEDIsOn w;
     nextFlashCycle := nextFlashCycle w; clock := v; pin_out := pin_out w; serial := serial w;
     wifi_sta := wifi_sta w; sta_mac := sta_mac w; send_cb := send_cb w; recv_cb := recv_cb w;
     sent := sent w |}.

Definition set_pin_out (v : gmap Z bool) (w : World) : World :=
  {| FlashRateOfTheLED := FlashRateOfTheLED w;
     nextTouchBaseTimeTarget := nextTouchBaseTimeTarget w;
     thisIsTheController := thisIsTheController w; thisIsTheSwitchbox := thisIsTheSwitchbox w;
     ControllerSwitchStatus := ControllerSwitchStatus w;
     SwitchBoxSwitchStatus := SwitchBoxSwitchStatus w; NetworkStatus := NetworkStatus w;
     packedSentSuccesfully := packedSentSuccesfully w;
     lastSwitchBoxSwitchStatus := lastSwitchBoxSwitchStatus w;
     lastControllerSwitchStatus := lastControllerSwitchStatus w; LEDIsOn := LEDIsOn w;
     nextFlashCycle := nextFlashCycle w; clock := clock w; pin_out := v; serial := serial w;
     wifi_sta := wifi_sta w; sta_mac := sta_mac w; send_cb := send_cb w; recv_cb := recv_cb w;
     sent := sent w |}.

Definition set_serial (v : list SerialOut) (w : World) : World :=
  {| FlashRateOfTheLED := FlashRateOfTheLED w;
     nextTouchBaseTimeTarget := nextTouchBaseTimeTarget w;
     thisIsTheController := thisIsTheController w; thisIsTheSwitchbox := thisIsTheSwitchbox w;
     ControllerSwitchStatus := ControllerSwitchStatus w;
     SwitchBoxSwitchStatus := SwitchBoxSwitchStatus w; NetworkStatus := NetworkStatus w;
     packedSentSuccesfully := packedSentSuccesfully w;
     lastSwitchBoxSwitchStatus := lastSwitchBoxSwitchStatus w;
     lastControllerSwitchStatus := lastControllerSwitchStatus w; LEDIsOn := LEDIsOn w;
     nextFlashCycle := nextFlashCycle w; clock := clock w; pin_out := pin_out w; serial := v;
     wifi_sta := wifi_sta w; sta_mac := sta_mac w; send_cb := send_cb w; recv_cb := recv_cb w;
     sent := sent w |}.

Definition set_wifi_sta (v : bool) (w : World) : World :=
  {| FlashRateOfTheLED := FlashRateOfTheLED w;
     nextTouchBaseTimeTarget := nextTouchBaseTimeTarget w;
     thisIsTheController := thisIsTheController w; thisIsTheSwitchbox := thisIsTheSwitchbox w;
     ControllerSwitchStatus := ControllerSwitchStatus w;
     SwitchBoxSwitchStatus := SwitchBoxSwitchStatus w; NetworkStatus := NetworkStatus w;
     packedSentSuccesfully := packedSentSuccesfully w;
     lastSwitchBoxSwitchStatus := lastSwitchBoxSwitchStatus w;
     lastControllerSwitchStatus := lastControllerSwitchStatus w; LEDIsOn := LEDIsOn w;
     nextFlashCycle := nextFlashCycle w; clock := clock w; pin_out := pin_out w;
     serial := serial w; wifi_sta := v; sta_mac := sta_mac w; send_cb := send_cb w;
     recv_cb := recv_cb w; sent := sent w |}.

Definition set_sta_mac (v : option (list Z)) (w : World) : World :=
  {| FlashRateOfTheLED := FlashRateOfTheLED w;
     nextTouchBaseTimeTarget := nextTouchBaseTimeTarget w;
     thisIsTheController := thisIsTheController w; thisIsTheSwitchbox := thisIsTheSwitchbox w;
     ControllerSwitchStatus := ControllerSwitchStatus w;
     SwitchBoxSwitchStatus := SwitchBoxSwitchStatus w; NetworkStatus := NetworkStatus w;
     packedSentSuccesfully := packedSentSuccesfully w;
     lastSwitchBoxSwitchStatus := lastSwitchBoxSwitchStatus w;
     lastControllerSwitchStatus := lastControllerSwitchStatus w; LEDIsOn := LEDIsOn w;
     nextFlashCycle := nextFlashCycle w; clock := clock w; pin_out := pin_out w;
     serial := serial w; wifi_sta := wifi_sta w; sta_mac := v; send_cb := send_cb w;
     recv_cb := recv_cb w; sent := sent w |}.

Definition set_send_cb (v : bool) (w : World) : World :=
  {| FlashRateOfTheLED := FlashRateOfTheLED w;
     nextTouchBaseTimeTarget := nextTouchBaseTimeTarget w;
     thisIsTheController := thisIsTheController w; thisIsTheSwitchbox := thisIsTheSwitchbox w;
     ControllerSwitchStatus := ControllerSwitchStatus w;
     SwitchBoxSwitchStatus := SwitchBoxSwitchStatus w; NetworkStatus := NetworkStatus w;
     packedSentSuccesfully := packedSentSuccesfully w;
     lastSwitchBoxSwitchStatus := lastSwitchBoxSwitchStatus w;
     lastControllerSwitchStatus := lastControllerSwitchStatus w; LEDIsOn := LEDIsOn w;
     nextFlashCycle := nextFlashCycle w; clock := clock w; pin_out := pin_out w;
     serial := serial w; wifi_sta := wifi_sta w; sta_mac := sta_mac w; send_cb := v;
     recv_cb := recv_cb w; sent := sent w |}.

Definition set_recv_cb (v : bool) (w : World) : World :=
  {| FlashRateOfTheLED := FlashRateOfTheLED w;
     nextTouchBaseTimeTarget := nextTouchBaseTimeTarget w;
     thisIsTheController := thisIsTheController w; thisIsTheSwitchbox := thisIsTheSwitchbox w;
     ControllerSwitchStatus := ControllerSwitchStatus w;
     SwitchBoxSwitchStatus := SwitchBoxSwitchStatus w; NetworkStatus := NetworkStatus w;
     packedSentSuccesfully := packedSentSuccesfully w;
     lastSwitchBoxSwitchStatus := lastSwitchBoxSwitchStatus w;
     lastControllerSwitchStatus := lastControllerSwitchStatus w; LEDIsOn := LEDIsOn w;
     nextFlashCycle := nextFlashCycle w; clock := clock w; pin_out := pin_out w;
     serial := serial w; wifi_sta := wifi_sta w; sta_mac := sta_mac w; send_cb := send_cb w;
     recv_cb := v; sent := sent w |}.

Definition set_sent (v : list (list Z * transmission_Structure)) (w : World) : World :=
  {| FlashRateOfTheLED := FlashRateOfTheLED w;
     nextTouchBaseTimeTarget := nextTouchBaseTimeTarget w;
     thisIsTheController := thisIsTheController w; thisIsTheSwitchbox := thisIsTheSwitchbox w;
     ControllerSwitchStatus := ControllerSwitchStatus w;
     SwitchBoxSwitchStatus := SwitchBoxSwitchStatus w; NetworkStatus := NetworkStatus w;
     packedSentSuccesfully := packedSentSuccesfully w;
     lastSwitchBoxSwitchStatus := lastSwitchBoxSwitchStatus w;
     lastControllerSwitchStatus := lastControllerSwitchStatus w; LEDIsOn := LEDIsOn w;
     nextFlashCycle := nextFlashCycle w; clock := clock w; pin_out := pin_out w;
     serial := serial w; wifi_sta := wifi_sta w; sta_mac := sta_mac w; send_cb := send_cb w;
     recv_cb := recv_cb w; sent := v |}.

(** ** Primitives of the Arduino core *)

(** [unsigned long] and [long] are 32 bits wide on the ESP32. *)
Definition ulong (x : Z) : Z := x mod 2 ^ 32.
Definition long (x : Z) : Z := (x + 2 ^ 31) mod 2 ^ 32 - 2 ^ 31.

Definition millis (w : World) : Z := ulong (clock w).

Definition digitalRead (env : Env) (pin : Z) (w : World) : Z :=
  if pin_level env pin (clock w) then 1 else 0.

Definition digitalWrite (pin : Z) (level : bool) (w : World) : World :=
  set_pin_out (<[pin := level]> (pin_out w)) w.

Definition Serial_print (text : string) (w : World) : World :=
  set_serial (serial w ++ [SerialPrint text]) w.

Definition Serial_println (text : string) (w : World) : World :=
  set_serial (serial w ++ [SerialPrintln text]) w.

(** [esp_now_send]: the packet is handed to the driver; the flag is
    [== ESP_OK]. *)
Definition esp_now_send (env : Env) (dest : list Z) (msg : transmission_Structure)
    (w : World) : bool * World :=
  (send_accepted env (clock w), set_sent (sent w ++ [(dest, msg)]) w).

(** Time passing on the board. *)
Definition advance (n : Z) (w : World) : World := set_clock (clock w + n) w.

(** The level of the relay output. *)
Definition relay (w : World) : option bool := pin_out w !! controllerRelayConnectionPin.

(** ** The procedures of the sketch

    Every procedure is written once, over the [delay] of the task that runs
    it (see [delay_radio] and [delay_main] below). *)

Section Procedures.

Variable cfg : Settings.
Variable env : Env.
Variable delay : Z -> World -> World.

Definition commsProblem : World -> World :=
  set_FlashRateOfTheLED
    FlashRateOfTheLEDWhenThereIsACommunicationsProblemBetweenTheControllerAndSwitch.

(** [checkEmergencyStopButton], the two nested debounced tests; the pair is
    ([normallyClosedConnectionIsOpened], [normallyOpenedConnectionIsClosed]). *)
Definition readEmergencyStopButton (normallyClosedConnectionPin normallyOpenedConnectionPin : Z)
    (w : World) : bool * bool * World :=
  if negb (digitalRead env normallyClosedConnectionPin w =? 0) then
    let w := delay 10 w in
    if negb (digitalRead env normallyClosedConnectionPin w =? 0) then
      if digitalRead env normallyOpenedConnectionPin w =? 0 then
        let w := delay 10 w in
        if digitalRead env normallyOpenedConnectionPin w =? 0
        then (true, true, w)
        else (true, false, w)
      else (true, false, w)
    else (false, false, w)
  else (false, false, w).

Definition checkEmergencyStopButton (w : World) : World :=
  let normallyClosedConnectionPin :=
    if thisIsTheController w then controllerNormallyClosedConnectionPin
    else swichboxNormallyClosedConnectionPin in
  let normallyOpenedConnectionPin :=
    if thisIsTheController w then controllerNormallyOpenedConnectionPin
    else swtichboxNormallyOpenedConnectionPin in
  let '(normallyClosedConnectionIsOpened, normallyOpenedConnectionIsClosed, w) :=
    readEmergencyStopButton normallyClosedConnectionPin normallyOpenedConnectionPin w in
  if thisIsTheController w then
    if normallyClosedConnectionIsOpened && normallyOpenedConnectionIsClosed
    then set_ControllerSwitchStatus blocked w
    else set_ControllerSwitchStatus unblocked w
  else
    if normallyClosedConnectionIsOpened && normallyOpenedConnectionIsClosed
    then set_SwitchBoxSwitchStatus blocked w
    else set_SwitchBoxSwitchStatus unblocked w.

Definition provideTheControllerTheSwitchboxStatus (w : World) : World :=
  if negb (thisIsTheSwitchbox w) then
    Serial_println
      "error: provideTheControllerTheSwitchboxStatus should only be invoked by the thisIsTheSwitchbox" w
  else
    let w := checkEmergencyStopButton w in
    let outgoingTransmission := mkTransmission switchboxStatusReply (SwitchBoxSwitchStatus w) in
    let w := Serial_print "The Switchbox is providing the Controller with a switch status of " w in
    let w := if status_eqb (SwitchBoxSwitchStatus w) blocked
             then Serial_println "blocked" w
             else Serial_println "unblocked" w in
    let '(ok, w) := esp_now_send env controllerMACAddress outgoingTransmission w in
    if ok then
      let w := delay 10 w in
      if negb (packedSentSuccesfully w)
      then Serial_println "Switch status was not sent to the Controller" w
      else w
    else
      Serial_println "Switch status was not sent to the Controller" (commsProblem w).

Definition provideTheSwitchboxTheNetworkStatus (w : World) : World :=
  if negb (thisIsTheController w) then
    Serial_println
      "error: provideTheSwitchboxTheNetworkStatus should only be invoked by the Controller" w
  else
    let w := Serial_println "Providing network status to the switchbox" w in
    let outgoingTransmission := mkTransmission networkStatusReply (NetworkStatus w) in
    let w := if status_eqb (NetworkStatus w) blocked
             then Serial_println "Controller says the network is blocked" w
             else Serial_println "Controller says the network is unblocked" w in
    let '(ok, w) := esp_now_send env remoteSwitchMACAddress outgoingTransmission w in
    if ok then
      let w := delay 10 w in
      if negb (packedSentSuccesfully w)
      then Serial_println "Network status was not sent to the Switchbox" w
      else w
    else
      Serial_println "Network status was not sent to the Switchbox" (commsProblem w).

(** The wait of [requestTheSwitchboxStatus]:
    [while ((millis() < timeout) & (SwitchBoxSwitchStatus == unknown)) delay(10);]
    The timeout is at most 2000 ms ahead and every turn sleeps 10 ms, so 200
    turns are all the loop can make ([waitForTheSwitchbox_done]). *)
Definition stillWaiting (timeout : Z) (w : World) : bool :=
  (millis w <? timeout) && status_eqb (SwitchBoxSwitchStatus w) unknown.

Fixpoint waitForTheSwitchbox (turns : nat) (timeout : Z) (w : World) : World :=
  match turns with
  | O => w
  | S turns' =>
      if stillWaiting timeout w
      then waitForTheSwitchbox turns' timeout (delay 10 w)
      else w
  end.

Definition requestTheSwitchboxStatus (w : World) : World :=
  if negb (thisIsTheController w) then
    Serial_println "error: requestTheSwitchboxStatus should only be invoked by the Controller" w
  else
    let outgoingTransmission := mkTransmission requestSwitchboxStatus unknown in
    let w := set_SwitchBoxSwitchStatus unknown w in
    let '(ok, w) := esp_now_send env remoteSwitchMACAddress outgoingTransmission w in
    let w :=
      if ok then
        let w := delay 10 w in
        if packedSentSuccesfully w then
          let timeout := ulong (millis w + 2000) in
          waitForTheSwitchbox 200 timeout w
        else w
      else w in
    if status_eqb (SwitchBoxSwitchStatus w) blocked then
      Serial_println "Switchbox switch is blocked" w
    else if status_eqb (SwitchBoxSwitchStatus w) unblocked then
      Serial_println "Switchbox switch is unblock" w
    else if status_eqb (SwitchBoxSwitchStatus w) unknown then
      commsProblem
        (Serial_println "Did not receive a reply from the Switchbox as to its status" w)
    else w.

(** [BlockNetwork], in three parts: the reset and refresh of
    [SwitchBoxSwitchStatus] that precede the two veto tests of an unblock
    request, the write to the relay, and the procedure itself. *)
Definition BlockNetwork_refresh (RequestCameFromController : bool) (w : World) : World :=
  let w := set_SwitchBoxSwitchStatus unknown w in
  if RequestCameFromController then requestTheSwitchboxStatus w else w.

Definition BlockNetwork_actuate (blockNow : bool) (w : World) : World :=
  if blockNow then
    let w := digitalWrite controllerRelayConnectionPin HIGH w in
    let w := set_NetworkStatus blocked w in
    Serial_println "Network blocked" w
  else
    let w := digitalWrite controllerRelayConnectionPin LOW w in
    let w := set_NetworkStatus unblocked w in
    Serial_println "Network unblocked" w.

Definition BlockNetwork (blockNow RequestCameFromController : bool) (w : World) : World :=
  if negb (thisIsTheController w) then
    Serial_println "error: BlockNetwork should only be invoked by the Controller" w
  else
    let w := if blockNow
             then Serial_print "incoming block request" w
             else Serial_print "incoming unblock request" w in
    if blockNow && status_eqb (NetworkStatus w) blocked then
      Serial_println
        "a request to block network was ignored as the network is already blocked" w
    else if negb blockNow && status_eqb (NetworkStatus w) unblocked then
      Serial_println
        "a request to unblock network was ignored as the network is already unblocked" w
    else if useASwitchbox cfg && negb blockNow then
      let w := BlockNetwork_refresh RequestCameFromController w in
      if status_eqb (ControllerSwitchStatus w) blocked then
        Serial_println
          "a request from the Switchbox to unblock network was denied as the Controller is requesting the network be blocked" w
      else if status_eqb (SwitchBoxSwitchStatus w) blocked then
        Serial_println
          "a request from the Controller to unblock network was denied as the Switchbox is requesting the network be blocked" w
      else BlockNetwork_actuate blockNow w
    else BlockNetwork_actuate blockNow w.

(** [unsigned long] addition. *)
Definition uadd (a b : Z) : Z := ulong (a + b).

Definition touchBaseWhenAllIsGood (w : World) : World :=
  if thisIsTheController w then
    set_nextTouchBaseTimeTarget (uadd (millis w) touchBaseTimePeriodWhenAllIsGood) w
  else
    set_nextTouchBaseTimeTarget
      (uadd (uadd (millis w) touchBaseTimePeriodWhenAllIsGood) touchbaseOffsetsForSwitchbox) w.

Definition unknownRequest (w : World) : World :=
  Serial_print "Error: an unknown request was received" (commsProblem w).

Definition OnDataRecv (incomingMessage : transmission_Structure) (w : World) : World :=
  let w := set_FlashRateOfTheLED 0 w in
  let w := touchBaseWhenAllIsGood w in
  if thisIsTheController w then
    if kind_eqb (transmission incomingMessage) requestNetworkStatus then
      provideTheSwitchboxTheNetworkStatus
        (Serial_println "the Switchbox has requested the Contoller provide the network status" w)
    else if kind_eqb (transmission incomingMessage) switchboxStatusReply then
      let w := Serial_println "the Controller is receiving the status of the Switchbox's switch" w in
      let w := if status_eqb (status incomingMessage) blocked
               then Serial_println
                      "The Controller has been told the Switchbox's switch is set to blocked" w
               else Serial_println
                      "The Controller has been told the Switchbox's switch is set to unblocked" w in
      set_SwitchBoxSwitchStatus (status incomingMessage) w
    else if kind_eqb (transmission incomingMessage) requestControllerBlockNetwork then
      let w := Serial_println "the Switchbox has requested the Contoller block the network" w in
      let w := set_SwitchBoxSwitchStatus blocked w in
      let w := BlockNetwork true false w in
      provideTheSwitchboxTheNetworkStatus w
    else if kind_eqb (transmission incomingMessage) requestControllerUnblockNetwork then
      let w := Serial_println "the Switchbox has requested the Contoller unblock the network" w in
      let w := set_SwitchBoxSwitchStatus unblocked w in
      let w := BlockNetwork false false w in
      provideTheSwitchboxTheNetworkStatus w
    else unknownRequest w
  else
    if kind_eqb (transmission incomingMessage) networkStatusReply then
      let w := if status_eqb (status incomingMessage) blocked
               then Serial_println
                      "The Switchbox has been told by the Controller the network status is blocked" w
               else Serial_println
                      "The Switchbox has been told by the Controller the network status is unblocked" w in
      set_NetworkStatus (status incomingMessage) w
    else if kind_eqb (transmission incomingMessage) requestSwitchboxStatus then
      provideTheControllerTheSwitchboxStatus
        (Serial_println "The Controller is requesting the Switchbox's status" w)
    else unknownRequest w.

(** [OnDataSent]; [success] is [status == ESP_NOW_SEND_SUCCESS]. *)
Definition OnDataSent (success : bool) (w : World) : World :=
  let w := set_packedSentSuccesfully success w in
  if packedSentSuccesfully w then
    let w := set_FlashRateOfTheLED 0 w in
    touchBaseWhenAllIsGood w
  else
    let w := commsProblem w in
    let w :=
      if thisIsTheController w then
        set_nextTouchBaseTimeTarget
          (uadd (millis w) touchBaseTimePeriodWhenThereIsAKnownProblem) w
      else
        set_nextTouchBaseTimeTarget
          (uadd (uadd (millis w) touchBaseTimePeriodWhenThereIsAKnownProblem)
                touchbaseOffsetsForSwitchbox) w in
    Serial_println "OnDataSent delivery failed" w.

Definition requestToBlockOrUnblockNetwork (networkShouldBeBlocked : bool) (w : World) : World :=
  if negb (thisIsTheSwitchbox w) then
    Serial_println
      "error: requestToBlockOrUnblockNetwork should only be invoked by the Switchbox" w
  else
    let '(kind, w) :=
      if networkShouldBeBlocked then
        (requestControllerBlockNetwork,
         Serial_println "The Switchbox is asking the Controller to block the network" w)
      else
        (requestControllerUnblockNetwork,
         Serial_println "The Switchbox is asking the Controller to unblock the network" w) in
    let outgoingTransmission := mkTransmission kind unknown in
    let '(ok, w) := esp_now_send env controllerMACAddress outgoingTransmission w in
    if ok then
      let w := delay 10 w in
      if negb (packedSentSuccesfully w)
      then Serial_println "update request failed, refresh not requested" w
      else w
    else
      Serial_println "update request failed, refresh not requested" (commsProblem w).

Definition requestANetworkChangeAsNeeded (w : World) : World :=
  if negb (thisIsTheSwitchbox w) then
    Serial_println
      "error: requestANetworkChangeAsNeeded should only be invoked by the Switchbox" w
  else if negb (status_eqb (SwitchBoxSwitchStatus w) (lastSwitchBoxSwitchStatus w)) then
    let w := set_lastSwitchBoxSwitchStatus (SwitchBoxSwitchStatus w) w in
    if status_eqb (SwitchBoxSwitchStatus w) blocked
    then requestToBlockOrUnblockNetwork true w
    else requestToBlockOrUnblockNetwork false w
  else w.

Definition actionANetworkChangeAsNeeded (w : World) : World :=
  if negb (thisIsTheController w) then
    Serial_println
      "error: actionANetworkChangeAsNeeded should only be invoked by the Controller" w
  else if negb (status_eqb (ControllerSwitchStatus w) (lastControllerSwitchStatus w)) then
    let w := set_lastControllerSwitchStatus (ControllerSwitchStatus w) w in
    let w := if status_eqb (ControllerSwitchStatus w) blocked
             then BlockNetwork true true w
             else BlockNetwork false true w in
    provideTheSwitchboxTheNetworkStatus w
  else w.

(** The test of [periodicCheckToEnsureCommunicationsAreOK]:
    [millis() > nextTouchBaseTimeTarget]. *)
Definition touchBaseIsDue (w : World) : bool := millis w >? nextTouchBaseTimeTarget w.

Definition periodicCheckToEnsureCommunicationsAreOK (w : World) : World :=
  if touchBaseIsDue w then
    let w := set_nextTouchBaseTimeTarget (uadd (millis w) 2000) w in
    if thisIsTheController w
    then provideTheSwitchboxTheNetworkStatus w
    else provideTheControllerTheSwitchboxStatus w
  else w.

(** [if (useOnboardLED) digitalWrite(onboardLEDPin, l);
     if (useExternalLED) digitalWrite(externalLEDPin, l);] *)
Definition writeTheLEDs (level : bool) (w : World) : World :=
  let w := if useOnboardLED cfg then digitalWrite onboardLEDPin level w else w in
  if useExternalLED cfg then digitalWrite externalLEDPin level w else w.

(** [nextFlashCycle] is a [long]: it is compared with [millis()] as an
    [unsigned long] and stores the [unsigned long] sum as a [long]. *)
Definition LEDUpdateAsRequried (w : World) : World :=
  if FlashRateOfTheLED w >? 0 then
    if millis w >? ulong (nextFlashCycle w) then
      let w := set_nextFlashCycle (long (uadd (millis w) (ulong (FlashRateOfTheLED w)))) w in
      let w := if LEDIsOn w then writeTheLEDs LOW w else writeTheLEDs HIGH w in
      set_LEDIsOn (negb (LEDIsOn w)) w
    else w
  else
    if status_eqb (NetworkStatus w) blocked then
      if negb (LEDIsOn w) then writeTheLEDs HIGH (set_LEDIsOn true w) else w
    else
      if LEDIsOn w then writeTheLEDs LOW (set_LEDIsOn false w) else w.

Definition showTheOpeningCredits (w : World) : World :=
  let w := Serial_println "" w in
  let w := Serial_println "ESP32 Network Controller v1" w in
  let w := Serial_println "" w in
  let w := Serial_println "Copyright (c) Rob Latour, 2023" w in
  let w := Serial_println "License: MIT" w in
  let w := Serial_println "For more info please see: https://rlatour.com/esp32networkblocker" w in
  Serial_println "" w.

(** [setupTheESP32Pins]: the three [digitalWrite]s; the pins of the model
    carry no mode, so the [pinMode] calls leave no trace. *)
Definition setupTheESP32Pins (w : World) : World :=
  let w := digitalWrite controllerRelayConnectionPin LOW w in
  let w := digitalWrite onboardLEDPin LOW w in
  digitalWrite externalLEDPin LOW w.

(** One of the four tests of [setTheRoleOfThisDeviceBasedOnItsWiring]:
    [if (digitalRead(pin) == 0) { delay(10); if (digitalRead(pin) == 0) count++; }] *)
Definition countIfClosed (pin : Z) (count : Z) (w : World) : Z * World :=
  if digitalRead env pin w =? 0 then
    let w := delay 10 w in
    if digitalRead env pin w =? 0 then (count + 1, w) else (count, w)
  else (count, w).

Definition setTheRoleOfThisDeviceBasedOnItsWiring (w : World) : bool * World :=
  let w := set_thisIsTheSwitchbox false w in
  let w := set_thisIsTheController false w in
  let openSwitchboxCircuts := 0 in
  let openControllerCircuts := 0 in
  let '(openControllerCircuts, w) :=
    countIfClosed controllerNormallyClosedConnectionPin openControllerCircuts w in
  let '(openControllerCircuts, w) :=
    countIfClosed controllerNormallyOpenedConnectionPin openControllerCircuts w in
  let '(openSwitchboxCircuts, w) :=
    countIfClosed swichboxNormallyClosedConnectionPin openSwitchboxCircuts w in
  let '(openSwitchboxCircuts, w) :=
    countIfClosed swtichboxNormallyOpenedConnectionPin openSwitchboxCircuts w in
  let totalOpenCircuts := openSwitchboxCircuts + openControllerCircuts in
  let w :=
    if totalOpenCircuts =? 1 then
      if openControllerCircuts =? 1
      then Serial_println "This is the Controller" (set_thisIsTheController true w)
      else Serial_println "This is the remote Switchbox" (set_thisIsTheSwitchbox true w)
    else
      Serial_println "Wiring problem detected for the Emergency Stop button"
        (set_FlashRateOfTheLED FlashRateOfTheLEDWhenThereIsAWiringProblem w) in
  let '(totalOpenCircuts, w) :=
    if thisIsTheSwitchbox w && negb (useASwitchbox cfg) then
      let w := set_FlashRateOfTheLED FlashRateOfTheLEDWhenThereIsAWiringProblem w in
      let w := Serial_println "Wiring problem detected for the Emergency Stop button" w in
      let w := Serial_println
                 "Either it has been configured using the Switchbox pins rather than the Controller pins, or " w in
      let w := Serial_println
                 "the variable useASwitch has been set to false when it should be set to true" w in
      (0, w)
    else (totalOpenCircuts, w) in
  (totalOpenCircuts =? 1, w).

End Procedures.

(** ** The two tasks

    The callbacks [OnDataRecv] and [OnDataSent] run on the radio task, one at
    a time; the rest runs on the main task.  A [delay] on the radio task only
    lets time pass.  While the main task sleeps in a [delay], the radio task
    runs the callbacks that [radio_during] lists for that sleep (those that
    are registered); the time the callbacks spend in their own [delay]s
    overlaps the sleep of the main task, which wakes up [n] ms after it went
    to sleep. *)

Definition delay_radio (n : Z) (w : World) : World := advance n w.

Definition runCallback (cfg : Settings) (env : Env) (w : World) (ev : RadioEvent) : World :=
  match ev with
  | SendCompleted success => if send_cb w then OnDataSent success w else w
  | PacketArrived incomingMessage =>
      if recv_cb w then OnDataRecv cfg env delay_radio incomingMessage w else w
  end.

Definition delay_main (cfg : Settings) (env : Env) (n : Z) (w : World) : World :=
  let woken := advance n w in
  set_clock (clock woken)
    (fold_left (runCallback cfg env) (radio_during env (clock w) n) woken).

Inductive Task : Type := MainTask | RadioTask.

Definition delay_of (cfg : Settings) (env : Env) (task : Task) : Z -> World -> World :=
  match task with
  | MainTask => delay_main cfg env
  | RadioTask => delay_radio
  end.

(** ** Boot and the main loop *)

Section Sketch.

Variable cfg : Settings.
Variable env : Env.

Definition setMACAddresses (w : World) : World :=
  let w := Serial_println "" w in
  let w := Serial_print "ESP32's board original MAC Address:  " w in
  let w := set_serial (serial w ++ [SerialPrintlnMAC (sta_mac w)]) w in
  let w := if thisIsTheController w
           then set_sta_mac (Some controllerMACAddress) w
           else set_sta_mac (Some remoteSwitchMACAddress) w in
  let w := Serial_print "ESP32's board revised MAC Address:   " w in
  let w := set_serial (serial w ++ [SerialPrintlnMAC (sta_mac w)]) w in
  Serial_println "" w.

Definition initializeWiFi (w : World) : World :=
  let w := if useLongRange cfg
           then Serial_println "Using Long Range" (set_wifi_sta true w)
           else Serial_println "Not using Long Range" (set_wifi_sta true w) in
  setMACAddresses w.

(** [esp_now_init] and [esp_now_add_peer] answer as the environment says. *)
Definition initializeESPNOW (w : World) : bool * World :=
  let w := initializeWiFi w in
  let '(returnValue, w) :=
    if esp_now_init_ok env then
      let w := Serial_println "ESP-NOW initialize" w in
      let w := set_send_cb true w in
      if esp_now_add_peer_ok env then
        let w := Serial_println "Peer added" w in
        (true, set_recv_cb true w)
      else (false, Serial_println "Failed to add peer" w)
    else
      (false,
       Serial_println "Failed to initialize ESP-NOW"
         (set_FlashRateOfTheLED FlashRateOfTheLEDWhenTheESPNOWFailedToInitialize w)) in
  (returnValue, Serial_println "" w).

(** How [setup] ends: it returns, and [loop] takes over, or it stays in
    [while (true) LEDUpdateAsRequried();].  [setupSerial] only opens the
    serial port and leaves no trace in the world. *)
Inductive SetupEnd : Type := EntersLoop | FlashesForever.

Definition setup (w : World) : SetupEnd * World :=
  let w := showTheOpeningCredits w in
  let w := setupTheESP32Pins w in
  let '(wiringIsCorrect, w) :=
    setTheRoleOfThisDeviceBasedOnItsWiring cfg env (delay_main cfg env) w in
  if wiringIsCorrect then
    if thisIsTheController w then
      let '(halted, w) :=
        if useASwitchbox cfg then
          let '(ok, w) := initializeESPNOW w in
          if negb ok then (true, w)
          else (false, requestTheSwitchboxStatus env (delay_main cfg env) w)
        else (false, w) in
      if halted then (FlashesForever, w)
      else
        let w := checkEmergencyStopButton env (delay_main cfg env) w in
        let w := actionANetworkChangeAsNeeded cfg env (delay_main cfg env) w in
        let w := if useASwitchbox cfg
                 then provideTheSwitchboxTheNetworkStatus env (delay_main cfg env) w
                 else w in
        (EntersLoop, w)
    else
      let '(ok, w) := initializeESPNOW w in
      if negb ok then (FlashesForever, w)
      else
        let w := checkEmergencyStopButton env (delay_main cfg env) w in
        let w := requestANetworkChangeAsNeeded env (delay_main cfg env) w in
        (EntersLoop, w)
  else (FlashesForever, w).

Definition loop (w : World) : World :=
  let w := checkEmergencyStopButton env (delay_main cfg env) w in
  let w := if thisIsTheController w
           then actionANetworkChangeAsNeeded cfg env (delay_main cfg env) w
           else requestANetworkChangeAsNeeded env (delay_main cfg env) w in
  let w := if (thisIsTheController w && useASwitchbox cfg) || thisIsTheSwitchbox w
           then periodicCheckToEnsureCommunicationsAreOK env (delay_main cfg env) w
           else w in
  LEDUpdateAsRequried cfg w.

(** [while (true) LEDUpdateAsRequried();] for as many turns as [elapsed] is
    long, the [k]-th turn starting [elapsed !! k] ms after the one before. *)
Fixpoint flashForever (elapsed : list Z) (w : World) : World :=
  match elapsed with
  | [] => w
  | d :: elapsed' => flashForever elapsed' (LEDUpdateAsRequried cfg (advance d w))
  end.

End Sketch.

(** The world when [setup] starts, [t0] ms after power-on: the globals as
    their initialisers leave them, no pin driven, nothing printed, the radio
    off. *)
Definition powerOn (t0 : Z) : World :=
  {| FlashRateOfTheLED := 0;
     nextTouchBaseTimeTarget := uadd (ulong t0) touchBaseTimePeriodWhenAllIsGood;
     thisIsTheController := false;
     thisIsTheSwitchbox := false;
     ControllerSwitchStatus := unknown;
     SwitchBoxSwitchStatus := unknown;
     NetworkStatus := unblocked;
     packedSentSuccesfully := false;
     lastSwitchBoxSwitchStatus := unknown;
     lastControllerSwitchStatus := unknown;
     LEDIsOn := false;
     nextFlashCycle := 0;
     clock := t0;
     pin_out := ∅;
     serial := [];
     wifi_sta := false;
     sta_mac := None;
     send_cb := false;
     recv_cb := false;
     sent := [] |}.

(** ** Properties of the world used in the statements *)

(** A property of the world that survives the assignments to the variables
    that carry no role, switch or network status, and to the clock. *)
Record Stable (P : World -> Prop) : Prop := {
  st_serial : forall x w, P w -> P (set_serial x w);
  st_FlashRateOfTheLED : forall x w, P w -> P (set_FlashRateOfTheLED x w);
  st_nextTouchBaseTimeTarget : forall x w, P w -> P (set_nextTouchBaseTimeTarget x w);
  st_SwitchBoxSwitchStatus : forall x w, P w -> P (set_SwitchBoxSwitchStatus x w);
  st_packedSentSuccesfully : forall x w, P w -> P (set_packedSentSuccesfully x w);
  st_sent : forall x w, P w -> P (set_sent x w);
  st_lastSwitchBoxSwitchStatus : forall x w, P w -> P (set_lastSwitchBoxSwitchStatus x w);
  st_lastControllerSwitchStatus : forall x w, P w -> P (set_lastControllerSwitchStatus x w);
  st_LEDIsOn : forall x w, P w -> P (set_LEDIsOn x w);
  st_nextFlashCycle : forall x w, P w -> P (set_nextFlashCycle x w);
  st_clock : forall x w, P w -> P (set_clock x w)
}.


(** The role of the device. *)
Definition hasRole (controller switchbox : bool) (w : World) : Prop :=
  thisIsTheController w = controller /\ thisIsTheSwitchbox w = switchbox.

(** [NetworkStatus] is [blocked] exactly when the relay output is HIGH. *)
Definition relayAgrees (w : World) : Prop :=
  NetworkStatus w = blocked <-> relay w = Some HIGH.

Definition controllerInvariant (w : World) : Prop :=
  thisIsTheController w = true /\ relayAgrees w.

(** A procedure keeps the invariant of the Controller. *)
Definition keepsControllerInvariant (f : World -> World) : Prop :=
  forall w, controllerInvariant w -> controllerInvariant (f w).

(** On the Controller, the status of its own switch. *)
Definition controllerSwitchIs (x : device_Status) (w : World) : Prop :=
  thisIsTheController w = true /\ ControllerSwitchStatus w = x.

(** The world at the two veto tests of an unblock request that passed the
    guards of [BlockNetwork]. *)
Definition atTheVetoTests (env : Env) (delay : Z -> World -> World)
    (RequestCameFromController : bool) (w : World) : World :=
  BlockNetwork_refresh env delay RequestCameFromController
    (Serial_print "incoming unblock request" w).

(** The unblock was granted: the relay is LOW and [NetworkStatus] is
    [unblocked]. *)
Definition unblockGranted (w : World) : Prop :=
  relay w = Some LOW /\ NetworkStatus w = unblocked.

(** The callbacks that run during the sleeps of a task leave the output
    pins and [NetworkStatus] alone. *)
Definition sleepsKeepTheRelay (delay : Z -> World -> World) : Prop :=
  forall n w, pin_out (delay n w) = pin_out w /\ NetworkStatus (delay n w) = NetworkStatus w.

(** What [BlockNetwork] prints when it denies an unblock request. *)
Definition vetoMessage (theControllerVetoed : bool) : string :=
  if theControllerVetoed
  then "a request from the Switchbox to unblock network was denied as the Controller is requesting the network be blocked"
  else "a request from the Controller to unblock network was denied as the Switchbox is requesting the network be blocked".

(** The reading of the denial that keeps every status variable: a denied
    unblock request leaves the relay and the three status variables as they
    were before the call. *)
Definition deniedUnblockKeepsEveryStatus (cfg : Settings) (env : Env)
    (delay : Z -> World -> World) (RequestCameFromController : bool) (w : World) : Prop :=
  let c := atTheVetoTests env delay RequestCameFromController w in
  let w' := BlockNetwork cfg env delay false RequestCameFromController w in
  thisIsTheController w = true ->
  NetworkStatus w = blocked ->
  ControllerSwitchStatus c = blocked \/ SwitchBoxSwitchStatus c = blocked ->
  relay w' = relay w /\ NetworkStatus w' = NetworkStatus w /\
  ControllerSwitchStatus w' = ControllerSwitchStatus w /\
  SwitchBoxSwitchStatus w' = SwitchBoxSwitchStatus w.

(** The table at the head of [OnDataRecv]: the kinds of message the
    Controller, and the Switchbox, expects to receive. *)
Definition expectedBy (controller : bool) (kind : transmission_Type) : bool :=
  match kind with
  | requestNetworkStatus => controller
  | networkStatusReply => negb controller
  | requestSwitchboxStatus => negb controller
  | switchboxStatusReply => controller
  | requestControllerBlockNetwork => controller
  | requestControllerUnblockNetwork => controller
  end.

(** The offset the Switchbox adds to its touch-base times. *)
Definition touchbaseOffset (w : World) : Z :=
  if thisIsTheController w then 0 else touchbaseOffsetsForSwitchbox.

(** The reading of the error path that keeps the touch-base time: a message
    of an unexpected kind raises the alarm and leaves the three status
    variables, the relay and the touch-base time as they were. *)
Definition unexpectedMessageOnlyRaisesAlarm (cfg : Settings) (env : Env)
    (incomingMessage : transmission_Structure) (w : World) : Prop :=
  let w' := OnDataRecv cfg env delay_radio incomingMessage w in
  expectedBy (thisIsTheController w) (transmission incomingMessage) = false ->
  FlashRateOfTheLED w' =
    FlashRateOfTheLEDWhenThereIsACommunicationsProblemBetweenTheControllerAndSwitch /\
  ControllerSwitchStatus w' = ControllerSwitchStatus w /\
  SwitchBoxSwitchStatus w' = SwitchBoxSwitchStatus w /\
  NetworkStatus w' = NetworkStatus w /\
  relay w' = relay w /\
  nextTouchBaseTimeTarget w' = nextTouchBaseTimeTarget w.

(** The switch status a device computes for its own button, and the two
    pins of that button. *)
Definition ownSwitchStatus (w : World) : device_Status :=
  if thisIsTheController w then ControllerSwitchStatus w else SwitchBoxSwitchStatus w.

Definition ownNormallyClosedPin (w : World) : Z :=
  if thisIsTheController w then controllerNormallyClosedConnectionPin
  else swichboxNormallyClosedConnectionPin.

Definition ownNormallyOpenedPin (w : World) : Z :=
  if thisIsTheController w then controllerNormallyOpenedConnectionPin
  else swtichboxNormallyOpenedConnectionPin.

(** The two debounced sub-tests.  The inputs are pulled up: an open contact
    reads HIGH, a closed one LOW.  A contact reads open (closed) twice from
    [t] when it does at [t] and again 10 ms later. *)
Definition readsOpenTwice (env : Env) (pin t : Z) : bool :=
  pin_level env pin t && pin_level env pin (t + 10).

Definition readsClosedTwice (env : Env) (pin t : Z) : bool :=
  negb (pin_level env pin t) && negb (pin_level env pin (t + 10)).

(** Role negotiation reads the four contacts one after the other; a test
    that finds its contact closed at the first read sleeps 10 ms before the
    second, so the next test starts 10 ms later. *)
Definition afterTest (env : Env) (pin t : Z) : Z :=
  if pin_level env pin t then t else t + 10.

(** The contacts of the Controller's pins, and of the Switchbox's pins, that
    read closed twice, for a negotiation that starts at [t]. *)
Definition closedControllerContacts (env : Env) (t : Z) : Z :=
  let t1 := afterTest env controllerNormallyClosedConnectionPin t in
  Z.b2z (readsClosedTwice env controllerNormallyClosedConnectionPin t) +
  Z.b2z (readsClosedTwice env controllerNormallyOpenedConnectionPin t1).

Definition closedSwitchboxContacts (env : Env) (t : Z) : Z :=
  let t1 := afterTest env controllerNormallyClosedConnectionPin t in
  let t2 := afterTest env controllerNormallyOpenedConnectionPin t1 in
  let t3 := afterTest env swichboxNormallyClosedConnectionPin t2 in
  Z.b2z (readsClosedTwice env swichboxNormallyClosedConnectionPin t2) +
  Z.b2z (readsClosedTwice env swtichboxNormallyOpenedConnectionPin t3).

(** The role negotiation of [setup], [t0] ms after power-on: the answer of
    [setTheRoleOfThisDeviceBasedOnItsWiring] and the world it leaves. *)
Definition negotiation (cfg : Settings) (env : Env) (t0 : Z) : bool * World :=
  setTheRoleOfThisDeviceBasedOnItsWiring cfg env (delay_main cfg env)
    (setupTheESP32Pins (showTheOpeningCredits (powerOn t0))).

(** Nothing was done with the radio, and the relay and [NetworkStatus] are
    as [setupTheESP32Pins] and the start-up code left them: relay LOW,
    network unblocked. *)
Definition radioOffAndUnblocked (w : World) : Prop :=
  wifi_sta w = false /\ send_cb w = false /\ recv_cb w = false /\ sent w = [] /\
  relay w = Some LOW /\ NetworkStatus w = unblocked.

(** The reading of a failed negotiation that boots blocked: after a failed
    role negotiation the network is not unblocked. *)
Definition failedNegotiationBootsBlocked (cfg : Settings) (env : Env) (t0 : Z) : Prop :=
  fst (negotiation cfg env t0) = false ->
  NetworkStatus (snd (setup cfg env (powerOn t0))) <> unblocked.


(** ** Sample inputs *)

Definition sampleSettings : Settings :=
  {| useASwitchbox := true; useOnboardLED := false; useExternalLED := true;
     useLongRange := false |}.

(** A Controller whose button is up and whose radio is quiet: only the
    normally closed contact of the Controller's button reads closed. *)
Definition quietControllerEnv : Env :=
  {| pin_level := fun pin _ => negb (pin =? controllerNormallyClosedConnectionPin);
     send_accepted := fun _ => true;
     radio_during := fun _ _ => [];
     esp_now_init_ok := true;
     esp_now_add_peer_ok := true |}.

(** A running Controller, network unblocked. *)
Definition unblockedController : World :=
  set_pin_out (<[controllerRelayConnectionPin := LOW]> ∅)
    (set_ControllerSwitchStatus unblocked
       (set_thisIsTheController true (powerOn 0))).

(** A running Controller, network blocked by its own button. *)
Definition blockedController : World :=
  set_pin_out (<[controllerRelayConnectionPin := HIGH]> ∅)
    (set_NetworkStatus blocked
       (set_ControllerSwitchStatus blocked
          (set_thisIsTheController true (powerOn 0)))).

(** A running Controller, its own button up, the network blocked at the
    request of the Switchbox. *)
Definition blockedBySwitchbox : World :=
  set_pin_out (<[controllerRelayConnectionPin := HIGH]> ∅)
    (set_NetworkStatus blocked
       (set_SwitchBoxSwitchStatus blocked
          (set_ControllerSwitchStatus unblocked
             (set_thisIsTheController true (powerOn 0))))).

(** The button of the Controller bounces: its normally closed contact reads
    open from 3 ms to 8 ms after boot and closed at any other time, while the
    normally opened contact reads closed throughout. *)
Definition bouncingEnv : Env :=
  {| pin_level := fun pin t =>
       if pin =? controllerNormallyClosedConnectionPin then (3 <=? t) && (t <? 8)
       else negb (pin =? controllerNormallyOpenedConnectionPin);
     send_accepted := fun _ => true;
     radio_during := fun _ _ => [];
     esp_now_init_ok := true;
     esp_now_add_peer_ok := true |}.

(** The button of the Controller is down: its normally closed contact
    reads open and its normally opened contact reads closed. *)
Definition pressedEnv : Env :=
  {| pin_level := fun pin _ => negb (pin =? controllerNormallyOpenedConnectionPin);
     send_accepted := fun _ => true;
     radio_during := fun _ _ => [];
     esp_now_init_ok := true;
     esp_now_add_peer_ok := true |}.

(** No contact is wired: every input reads HIGH. *)
Definition unwiredEnv : Env :=
  {| pin_level := fun _ _ => true;
     send_accepted := fun _ => true;
     radio_during := fun _ _ => [PacketArrived (mkTransmission requestControllerBlockNetwork unknown)];
     esp_now_init_ok := true;
     esp_now_add_peer_ok := true |}.

(** ** Further properties of the world *)

(** The two kinds of message that answer a request. *)
Definition isReply (kind : transmission_Type) : bool :=
  match kind with
  | networkStatusReply | switchboxStatusReply => true
  | _ => false
  end.

(** The packets handed to the driver only grow from [w] to [w']. *)
Definition sentGrows (w w' : World) : Prop :=
  exists rest, sent w' = (sent w ++ rest)%list.

(** No callback runs while the main task sleeps. *)
Definition radioSilent (env : Env) : Prop :=
  forall t n, radio_during env t n = [].

(** A property of the world that survives the assignments every procedure
    makes on its way: to the serial console, the alarm, the touch-base time,
    the packets sent, the send flag, the status of the Switchbox's switch and
    the clock. *)
Record Kept (P : World -> Prop) : Prop := {
  kept_serial : forall x w, P w -> P (set_serial x w);
  kept_FlashRateOfTheLED : forall x w, P w -> P (set_FlashRateOfTheLED x w);
  kept_nextTouchBaseTimeTarget : forall x w, P w -> P (set_nextTouchBaseTimeTarget x w);
  kept_SwitchBoxSwitchStatus : forall x w, P w -> P (set_SwitchBoxSwitchStatus x w);
  kept_packedSentSuccesfully : forall x w, P w -> P (set_packedSentSuccesfully x w);
  kept_sent : forall x w, P w -> P (set_sent x w);
  kept_clock : forall x w, P w -> P (set_clock x w)
}.

(** On the Controller: the status of its own switch is [y], the status last
    acted upon is [z], and if the switch is [blocked] so is the network. *)
Definition buttonRules (y z : device_Status) (w : World) : Prop :=
  thisIsTheController w = true /\
  ControllerSwitchStatus w = y /\
  lastControllerSwitchStatus w = z /\
  (y = blocked -> NetworkStatus w = blocked).

(** What role negotiation leaves as the start-up code and
    [setupTheESP32Pins] set it: the radio, the statuses, the statics of the
    edge detectors and of the LED, and the output pins. *)
Definition untouchedSinceBoot (w : World) : Prop :=
  send_cb w = false /\ recv_cb w = false /\ wifi_sta w = false /\ sent w = [] /\
  packedSentSuccesfully w = false /\
  ControllerSwitchStatus w = unknown /\ SwitchBoxSwitchStatus w = unknown /\
  NetworkStatus w = unblocked /\
  lastControllerSwitchStatus w = unknown /\ lastSwitchBoxSwitchStatus w = unknown /\
  LEDIsOn w = false /\ nextFlashCycle w = 0 /\
  pin_out w = pin_out (setupTheESP32Pins (powerOn 0)).

(** The worlds a Switchbox goes through once [setup] has returned: time
    passes, [loop] runs, the radio task runs a callback, and each procedure
    runs on its own, the gate of the Controller included. *)
Inductive switchboxRuns (cfg : Settings) (env : Env) : World -> Prop :=
  | sruns_setup t0 :
      fst (setup cfg env (powerOn t0)) = EntersLoop ->
      thisIsTheController (snd (setup cfg env (powerOn t0))) = false ->
      switchboxRuns cfg env (snd (setup cfg env (powerOn t0)))
  | sruns_elapse d w :
      switchboxRuns cfg env w -> switchboxRuns cfg env (advance d w)
  | sruns_loop w :
      switchboxRuns cfg env w -> switchboxRuns cfg env (loop cfg env w)
  | sruns_OnDataRecv incomingMessage w :
      switchboxRuns cfg env w ->
      switchboxRuns cfg env (OnDataRecv cfg env delay_radio incomingMessage w)
  | sruns_OnDataSent success w :
      switchboxRuns cfg env w -> switchboxRuns cfg env (OnDataSent success w)
  | sruns_checkEmergencyStopButton task w :
      switchboxRuns cfg env w ->
      switchboxRuns cfg env (checkEmergencyStopButton env (delay_of cfg env task) w)
  | sruns_requestANetworkChangeAsNeeded w :
      switchboxRuns cfg env w ->
      switchboxRuns cfg env (requestANetworkChangeAsNeeded env (delay_main cfg env) w)
  | sruns_periodicCheckToEnsureCommunicationsAreOK w :
      switchboxRuns cfg env w ->
      switchboxRuns cfg env
        (periodicCheckToEnsureCommunicationsAreOK env (delay_main cfg env) w)
  | sruns_BlockNetwork task blockNow RequestCameFromController w :
      switchboxRuns cfg env w ->
      switchboxRuns cfg env
        (BlockNetwork cfg env (delay_of cfg env task) blockNow RequestCameFromController w)
  | sruns_LEDUpdateAsRequried w :
      switchboxRuns cfg env w -> switchboxRuns cfg env (LEDUpdateAsRequried cfg w).

(** On a device that is not the Controller the relay output is LOW. *)
Definition relayIdle (w : World) : Prop :=
  thisIsTheController w = false /\ relay w = Some LOW.

(** The device needs the radio: it is the Switchbox, or the Controller of a
    build with a Switchbox. *)
Definition needsTheRadio (cfg : Settings) (w : World) : bool :=
  negb (thisIsTheController w) || useASwitchbox cfg.

(** The LED outputs in use show [LEDIsOn]. *)
Definition ledsAgree (cfg : Settings) (w : World) : Prop :=
  (useOnboardLED cfg = true -> pin_out w !! onboardLEDPin = Some (LEDIsOn w)) /\
  (useExternalLED cfg = true -> pin_out w !! externalLEDPin = Some (LEDIsOn w)).

(** A Switchbox whose button is up: only the normally closed contact of the
    Switchbox's button reads closed, and the radio is quiet. *)
Definition quietSwitchboxEnv : Env :=
  {| pin_level := fun pin _ => negb (pin =? swichboxNormallyClosedConnectionPin);
     send_accepted := fun _ => true;
     radio_during := fun _ _ => [];
     esp_now_init_ok := true;
     esp_now_add_peer_ok := true |}.

(** As [quietControllerEnv], but the driver refuses the peer. *)
Definition noPeerEnv : Env :=
  {| pin_level := fun pin _ => negb (pin =? controllerNormallyClosedConnectionPin);
     send_accepted := fun _ => true;
     radio_during := fun _ _ => [];
     esp_now_init_ok := true;
     esp_now_add_peer_ok := false |}.

(** A running Switchbox that has not sampled its switch yet. *)
Definition runningSwitchbox : World :=
  set_pin_out (<[controllerRelayConnectionPin := LOW]> ∅)
    (set_thisIsTheSwitchbox true (powerOn 0)).


(** A device 1 s after [setupTheESP32Pins], its communications alarm set. *)
Definition alarmedDevice : World :=
  set_FlashRateOfTheLED 333 (advance 1000 (setupTheESP32Pins (powerOn 0))).

(** ** The gate statement by statement

    The two tasks share the globals without a lock, so what one task sees
    depends on where the other one is.  [BlockNetwork] is cut here where its
    write to the relay begins, and between that write and the assignment of
    [NetworkStatus]. *)

(** [BlockNetwork] up to its write to the relay (lines 374 to 413): whether
    the call goes on to the write, and the world then. *)
Definition BlockNetwork_tests (cfg : Settings) (env : Env) (delay : Z -> World -> World)
    (blockNow RequestCameFromController : bool) (w : World) : bool * World :=
  if negb (thisIsTheController w) then
    (false, Serial_println "error: BlockNetwork should only be invoked by the Controller" w)
  else
    let w := if blockNow
             then Serial_print "incoming block request" w
             else Serial_print "incoming unblock request" w in
    if blockNow && status_eqb (NetworkStatus w) blocked then
      (false,
       Serial_println
         "a request to block network was ignored as the network is already blocked" w)
    else if negb blockNow && status_eqb (NetworkStatus w) unblocked then
      (false,
       Serial_println
         "a request to unblock network was ignored as the network is already unblocked" w)
    else if useASwitchbox cfg && negb blockNow then
      let w := BlockNetwork_refresh env delay RequestCameFromController w in
      if status_eqb (ControllerSwitchStatus w) blocked then
        (false,
         Serial_println
           "a request from the Switchbox to unblock network was denied as the Controller is requesting the network be blocked" w)
      else if status_eqb (SwitchBoxSwitchStatus w) blocked then
        (false,
         Serial_println
           "a request from the Controller to unblock network was denied as the Switchbox is requesting the network be blocked" w)
      else (true, w)
    else (true, w).

(** The write to the relay (line 416 or 420). *)
Definition BlockNetwork_write (blockNow : bool) (w : World) : World :=
  if blockNow
  then digitalWrite controllerRelayConnectionPin HIGH w
  else digitalWrite controllerRelayConnectionPin LOW w.

(** The assignment of [NetworkStatus] and the line printed after it (lines
    417 and 418, or 421 and 422). *)
Definition BlockNetwork_record (blockNow : bool) (w : World) : World :=
  if blockNow
  then Serial_println "Network blocked" (set_NetworkStatus blocked w)
  else Serial_println "Network unblocked" (set_NetworkStatus unblocked w).

(** [OnDataRecv] on the Controller for a [requestControllerUnblockNetwork],
    up to the write of the gate, and from that write on. *)
Definition unblockRequest_toTheWrite (cfg : Settings) (env : Env) (w : World) : bool * World :=
  let w := set_FlashRateOfTheLED 0 w in
  let w := touchBaseWhenAllIsGood w in
  let w := Serial_println "the Switchbox has requested the Contoller unblock the network" w in
  let w := set_SwitchBoxSwitchStatus unblocked w in
  BlockNetwork_tests cfg env delay_radio false false w.

Definition unblockRequest_fromTheWrite (env : Env) (w : World) : World :=
  provideTheSwitchboxTheNetworkStatus env delay_radio
    (BlockNetwork_record false (BlockNetwork_write false w)).

(** The button of the Controller reads down to a [checkEmergencyStopButton]
    that starts at [t]. *)
Definition controllerButtonDown (env : Env) (t : Z) : bool :=
  readsOpenTwice env controllerNormallyClosedConnectionPin t
  && readsClosedTwice env controllerNormallyOpenedConnectionPin (t + 10).

(** The Controller has sampled its button down and acted on it, and yet the
    network is unblocked and the relay LOW. *)
Definition buttonOverridden (w : World) : Prop :=
  thisIsTheController w = true /\
  ControllerSwitchStatus w = blocked /\ lastControllerSwitchStatus w = blocked /\
  NetworkStatus w = unblocked /\ relay w = Some LOW.

(** The touch-base packet of a device: from the Controller a
    [networkStatusReply] for the Switchbox, from the Switchbox a
    [switchboxStatusReply] for the Controller. *)
Definition isProbe (controller : bool) (p : list Z * transmission_Structure) : bool :=
  if controller
  then bool_decide (fst p = remoteSwitchMACAddress)
       && kind_eqb (transmission (snd p)) networkStatusReply
  else bool_decide (fst p = controllerMACAddress)
       && kind_eqb (transmission (snd p)) switchboxStatusReply.

(** From [w] to [w'] the device has handed a touch-base packet to the
    driver. *)
Definition sendsAProbe (w w' : World) : Prop :=
  exists before p after,
    sent w' = (sent w ++ before ++ p :: after)%list /\
    isProbe (thisIsTheController w) p = true.

(** The procedures are unfolded by name only. *)
Arguments readEmergencyStopButton : simpl never.
Arguments checkEmergencyStopButton : simpl never.
Arguments provideTheControllerTheSwitchboxStatus : simpl never.
Arguments provideTheSwitchboxTheNetworkStatus : simpl never.
Arguments waitForTheSwitchbox : simpl nomatch.
Arguments requestTheSwitchboxStatus : simpl never.
Arguments BlockNetwork_refresh : simpl never.
Arguments BlockNetwork_actuate : simpl never.
Arguments BlockNetwork : simpl never.
Arguments touchBaseWhenAllIsGood : simpl never.
Arguments unknownRequest : simpl never.
Arguments OnDataRecv : simpl never.
Arguments OnDataSent : simpl never.
Arguments requestToBlockOrUnblockNetwork : simpl never.
Arguments requestANetworkChangeAsNeeded : simpl never.
Arguments actionANetworkChangeAsNeeded : simpl never.
Arguments periodicCheckToEnsureCommunicationsAreOK : simpl never.
Arguments writeTheLEDs : simpl never.
Arguments LEDUpdateAsRequried : simpl never.
Arguments countIfClosed : simpl never.
Arguments setTheRoleOfThisDeviceBasedOnItsWiring : simpl never.
Arguments delay_main : simpl never.
Arguments delay_radio : simpl never.
Arguments ulong : simpl never.
Arguments long : simpl never.
Arguments uadd : simpl never.
Arguments millis : simpl never.
Arguments digitalRead : simpl never.

(** ** Properties that every procedure keeps

    A property [P] of the world that survives the single assignments a
    procedure makes, and the [delay] of its task, survives the procedure.
    It is used with [P] the role of the device, the agreement of the relay
    with [NetworkStatus], and the status of the Controller's own switch. *)

Section Stability.

Variable cfg : Settings.
Variable env : Env.
Variable delay : Z -> World -> World.
Variable P : World -> Prop.

Hypothesis P_stable : Stable P.
Hypothesis P_delay : forall n w, P w -> P (delay n w).
(* the own switch of the Controller, written by the Controller only *)
Hypothesis P_ControllerSwitchStatus :
  forall x w, thisIsTheController w = true -> P w -> P (set_ControllerSwitchStatus x w).
(* the relay and [NetworkStatus], written together by the Controller, and
   [NetworkStatus] alone by the Switchbox *)
Hypothesis P_actuate : forall b w, P w -> P (BlockNetwork_actuate b w).
Hypothesis P_NetworkStatus :
  forall x w, thisIsTheController w = false -> P w -> P (set_NetworkStatus x w).
Hypothesis P_LEDs : forall l w, P w -> P (writeTheLEDs cfg l w).

Lemma stable_serial x w : P w -> P (set_serial x w).
Proof. apply (st_serial P P_stable). Qed.

Lemma stable_FlashRateOfTheLED x w : P w -> P (set_FlashRateOfTheLED x w).
Proof. apply (st_FlashRateOfTheLED P P_stable). Qed.

Lemma stable_nextTouchBaseTimeTarget x w : P w -> P (set_nextTouchBaseTimeTarget x w).
Proof. apply (st_nextTouchBaseTimeTarget P P_stable). Qed.

Lemma stable_SwitchBoxSwitchStatus x w : P w -> P (set_SwitchBoxSwitchStatus x w).
Proof. apply (st_SwitchBoxSwitchStatus P P_stable). Qed.

Lemma stable_packedSentSuccesfully x w : P w -> P (set_packedSentSuccesfully x w).
Proof. apply (st_packedSentSuccesfully P P_stable). Qed.

Lemma stable_sent x w : P w -> P (set_sent x w).
Proof. apply (st_sent P P_stable). Qed.

Lemma stable_lastSwitchBoxSwitchStatus x w : P w -> P (set_lastSwitchBoxSwitchStatus x w).
Proof. apply (st_lastSwitchBoxSwitchStatus P P_stable). Qed.

Lemma stable_lastControllerSwitchStatus x w : P w -> P (set_lastControllerSwitchStatus x w).
Proof. apply (st_lastControllerSwitchStatus P P_stable). Qed.

Lemma stable_LEDIsOn x w : P w -> P (set_LEDIsOn x w).
Proof. apply (st_LEDIsOn P P_stable). Qed.

Lemma stable_nextFlashCycle x w : P w -> P (set_nextFlashCycle x w).
Proof. apply (st_nextFlashCycle P P_stable). Qed.

Local Hint Resolve stable_serial stable_FlashRateOfTheLED stable_nextTouchBaseTimeTarget stable_SwitchBoxSwitchStatus stable_packedSentSuccesfully
  stable_sent stable_lastSwitchBoxSwitchStatus stable_lastControllerSwitchStatus stable_LEDIsOn stable_nextFlashCycle : core.

Ltac split_tests :=
  repeat match goal with
         | |- context [if ?b then _ else _] => destruct b eqn:?
         | |- context [let '(_, _) := ?x in _] => destruct x eqn:?
         end.

Lemma Serial_print_stable t w : P w -> P (Serial_print t w).
Proof. unfold Serial_print. auto. Qed.

Lemma Serial_println_stable t w : P w -> P (Serial_println t w).
Proof. unfold Serial_println. auto. Qed.

Lemma commsProblem_stable w : P w -> P (commsProblem w).
Proof. unfold commsProblem. auto. Qed.

Local Hint Resolve Serial_print_stable Serial_println_stable commsProblem_stable : core.

Lemma readEmergencyStopButton_stable nc no w :
  P w -> P (snd (readEmergencyStopButton env delay nc no w)).
Proof. intros. unfold readEmergencyStopButton. split_tests; cbn; auto. Qed.

Lemma checkEmergencyStopButton_stable w :
  P w -> P (checkEmergencyStopButton env delay w).
Proof.
  intros H. unfold checkEmergencyStopButton.
  pose proof (readEmergencyStopButton_stable
                (if thisIsTheController w then controllerNormallyClosedConnectionPin
                 else swichboxNormallyClosedConnectionPin)
                (if thisIsTheController w then controllerNormallyOpenedConnectionPin
                 else swtichboxNormallyOpenedConnectionPin) w H) as Hread.
  destruct (readEmergencyStopButton _ _ _ _ w) as [[opened closed] w1].
  cbn in Hread. split_tests; auto.
Qed.

Lemma provideTheControllerTheSwitchboxStatus_stable w :
  P w -> P (provideTheControllerTheSwitchboxStatus env delay w).
Proof.
  intros H. unfold provideTheControllerTheSwitchboxStatus.
  pose proof (checkEmergencyStopButton_stable w H).
  cbn. split_tests; auto 10.
Qed.

Lemma provideTheSwitchboxTheNetworkStatus_stable w :
  P w -> P (provideTheSwitchboxTheNetworkStatus env delay w).
Proof.
  intros H. unfold provideTheSwitchboxTheNetworkStatus. cbn. split_tests; auto 10.
Qed.

Lemma waitForTheSwitchbox_stable turns timeout w :
  P w -> P (waitForTheSwitchbox delay turns timeout w).
Proof.
  revert w. induction turns as [|turns IH]; intros w H; [exact H|].
  change (P (if stillWaiting timeout w
             then waitForTheSwitchbox delay turns timeout (delay 10 w)
             else w)).
  destruct (stillWaiting timeout w); auto.
Qed.

Lemma requestTheSwitchboxStatus_stable w :
  P w -> P (requestTheSwitchboxStatus env delay w).
Proof.
  intros H. unfold requestTheSwitchboxStatus. cbn.
  pose proof waitForTheSwitchbox_stable.
  split_tests; auto 10.
Qed.

Lemma BlockNetwork_stable blockNow rc w :
  P w -> P (BlockNetwork cfg env delay blockNow rc w).
Proof.
  intros H. unfold BlockNetwork, BlockNetwork_refresh.
  pose proof requestTheSwitchboxStatus_stable.
  split_tests; auto 10.
Qed.

Lemma touchBaseWhenAllIsGood_stable w : P w -> P (touchBaseWhenAllIsGood w).
Proof. intros H. unfold touchBaseWhenAllIsGood. split_tests; auto. Qed.

Lemma unknownRequest_stable w : P w -> P (unknownRequest w).
Proof. unfold unknownRequest. auto. Qed.

Lemma OnDataSent_stable success w : P w -> P (OnDataSent success w).
Proof.
  intros H. unfold OnDataSent. pose proof touchBaseWhenAllIsGood_stable.
  cbn. split_tests; auto 10.
Qed.

(** In [OnDataRecv] the Switchbox's half is reached with
    [thisIsTheController] false. *)
Lemma OnDataRecv_stable incomingMessage w :
  (forall w0, thisIsTheController w0 = false -> P w0 ->
              P (provideTheControllerTheSwitchboxStatus env delay w0)) ->
  P w -> P (OnDataRecv cfg env delay incomingMessage w).
Proof.
  intros Hswitchbox H. unfold OnDataRecv.
  assert (P (touchBaseWhenAllIsGood (set_FlashRateOfTheLED 0 w))) as H0
    by (apply touchBaseWhenAllIsGood_stable; auto).
  set (w0 := touchBaseWhenAllIsGood (set_FlashRateOfTheLED 0 w)) in *. clearbody w0.
  pose proof BlockNetwork_stable. pose proof provideTheSwitchboxTheNetworkStatus_stable.
  pose proof unknownRequest_stable.
  split_tests; auto 10.
Qed.

Lemma requestToBlockOrUnblockNetwork_stable b w :
  P w -> P (requestToBlockOrUnblockNetwork env delay b w).
Proof.
  intros H. unfold requestToBlockOrUnblockNetwork. cbn. split_tests; cbn; auto 10.
Qed.

Lemma requestANetworkChangeAsNeeded_stable w :
  P w -> P (requestANetworkChangeAsNeeded env delay w).
Proof.
  intros H. unfold requestANetworkChangeAsNeeded.
  pose proof requestToBlockOrUnblockNetwork_stable. split_tests; auto 10.
Qed.

Lemma actionANetworkChangeAsNeeded_stable w :
  P w -> P (actionANetworkChangeAsNeeded cfg env delay w).
Proof.
  intros H. unfold actionANetworkChangeAsNeeded.
  pose proof BlockNetwork_stable. pose proof provideTheSwitchboxTheNetworkStatus_stable.
  split_tests; auto 10.
Qed.

Lemma periodicCheckToEnsureCommunicationsAreOK_stable w :
  P w -> P (periodicCheckToEnsureCommunicationsAreOK env delay w).
Proof.
  intros H. unfold periodicCheckToEnsureCommunicationsAreOK.
  pose proof provideTheControllerTheSwitchboxStatus_stable.
  pose proof provideTheSwitchboxTheNetworkStatus_stable.
  split_tests; auto 10.
Qed.

Lemma LEDUpdateAsRequried_stable w : P w -> P (LEDUpdateAsRequried cfg w).
Proof. intros H. unfold LEDUpdateAsRequried. split_tests; auto 10. Qed.

End Stability.

(** The same on either task. *)
Section TaskStability.

Variable cfg : Settings.
Variable env : Env.
Variable P : World -> Prop.

Hypothesis P_stable : Stable P.
Hypothesis P_actuate : forall b w, P w -> P (BlockNetwork_actuate b w).
Hypothesis P_NetworkStatus :
  forall x w, thisIsTheController w = false -> P w -> P (set_NetworkStatus x w).
(* the Switchbox answering [requestSwitchboxStatus] from the radio task *)
Hypothesis P_answer :
  forall w, thisIsTheController w = false -> P w ->
            P (provideTheControllerTheSwitchboxStatus env delay_radio w).

Lemma delay_radio_stable n w : P w -> P (delay_radio n w).
Proof. unfold delay_radio, advance. apply (st_clock P P_stable). Qed.

Lemma runCallback_stable w ev : P w -> P (runCallback cfg env w ev).
Proof.
  intros H. destruct ev as [success|incomingMessage]; cbn.
  - destruct (send_cb w); [|exact H]. apply (OnDataSent_stable P P_stable); exact H.
  - destruct (recv_cb w); [|exact H].
    apply (OnDataRecv_stable cfg env delay_radio P P_stable delay_radio_stable
             P_actuate P_NetworkStatus); [exact P_answer | exact H].
Qed.

Lemma callbacks_stable events w : P w -> P (fold_left (runCallback cfg env) events w).
Proof.
  revert w. induction events as [|ev events IH]; intros w H; cbn; [exact H|].
  apply IH, runCallback_stable, H.
Qed.

Lemma delay_main_stable n w : P w -> P (delay_main cfg env n w).
Proof.
  intros H. unfold delay_main. apply (st_clock P P_stable), callbacks_stable.
  unfold advance. apply (st_clock P P_stable), H.
Qed.

Lemma delay_of_stable task n w : P w -> P (delay_of cfg env task n w).
Proof. destruct task; [apply delay_main_stable | apply delay_radio_stable]. Qed.

End TaskStability.

(** The role of the device, the agreement of the relay with [NetworkStatus]
    on the Controller, and the Controller's own switch status are such
    properties. *)

Lemma relay_writeTheLEDs cfg l w : relay (writeTheLEDs cfg l w) = relay w.
Proof.
  unfold writeTheLEDs, relay, digitalWrite.
  destruct (useOnboardLED cfg), (useExternalLED cfg); cbn;
    rewrite ?lookup_insert_ne by discriminate; reflexivity.
Qed.

Lemma relay_BlockNetwork_actuate b w : relay (BlockNetwork_actuate b w) = Some b.
Proof.
  unfold BlockNetwork_actuate, relay. destruct b; cbn; apply lookup_insert_eq.
Qed.

Lemma hasRole_stable c s : Stable (hasRole c s).
Proof. split; intros; assumption. Qed.

Lemma hasRole_actuate c s b w : hasRole c s w -> hasRole c s (BlockNetwork_actuate b w).
Proof. destruct b; intros H; exact H. Qed.

Lemma hasRole_writeTheLEDs cfg c s l w : hasRole c s w -> hasRole c s (writeTheLEDs cfg l w).
Proof.
  unfold writeTheLEDs. destruct (useOnboardLED cfg), (useExternalLED cfg); intros H; exact H.
Qed.

Lemma controllerInvariant_stable : Stable controllerInvariant.
Proof. split; intros; assumption. Qed.

Lemma controllerInvariant_actuate b w :
  controllerInvariant w -> controllerInvariant (BlockNetwork_actuate b w).
Proof.
  intros [Hrole _]. split.
  - destruct b; exact Hrole.
  - unfold relayAgrees. rewrite relay_BlockNetwork_actuate.
    destruct b; cbn; split; (reflexivity || discriminate).
Qed.

Lemma controllerInvariant_NetworkStatus x w :
  thisIsTheController w = false ->
  controllerInvariant w -> controllerInvariant (set_NetworkStatus x w).
Proof. intros Hrole [Hrole' _]. congruence. Qed.

Lemma controllerInvariant_writeTheLEDs cfg l w :
  controllerInvariant w -> controllerInvariant (writeTheLEDs cfg l w).
Proof.
  intros [Hrole Hrelay]. split.
  - unfold writeTheLEDs.
    destruct (useOnboardLED cfg), (useExternalLED cfg); exact Hrole.
  - unfold relayAgrees in *. rewrite relay_writeTheLEDs.
    replace (NetworkStatus (writeTheLEDs cfg l w)) with (NetworkStatus w); [exact Hrelay|].
    unfold writeTheLEDs. destruct (useOnboardLED cfg), (useExternalLED cfg); reflexivity.
Qed.

Lemma controllerSwitchIs_stable x : Stable (controllerSwitchIs x).
Proof. split; intros; assumption. Qed.

Lemma controllerSwitchIs_actuate x b w :
  controllerSwitchIs x w -> controllerSwitchIs x (BlockNetwork_actuate b w).
Proof. destruct b; intros H; exact H. Qed.

(** They hold across a [delay] of either task. *)

Lemma hasRole_delay cfg env task c s n w :
  hasRole c s w -> hasRole c s (delay_of cfg env task n w).
Proof.
  apply delay_of_stable.
  - apply hasRole_stable.
  - apply hasRole_actuate.
  - intros x w0 _ H. exact H.
  - intros w0 _. apply provideTheControllerTheSwitchboxStatus_stable.
    + apply hasRole_stable.
    + intros n0 w1. apply delay_radio_stable, hasRole_stable.
    + intros x w1 _ H. exact H.
Qed.

Lemma controllerInvariant_delay cfg env task n w :
  controllerInvariant w -> controllerInvariant (delay_of cfg env task n w).
Proof.
  apply delay_of_stable.
  - apply controllerInvariant_stable.
  - apply controllerInvariant_actuate.
  - apply controllerInvariant_NetworkStatus.
  - intros w0 Hrole [Hrole' _]. congruence.
Qed.

Lemma controllerSwitchIs_delay cfg env task x n w :
  controllerSwitchIs x w -> controllerSwitchIs x (delay_of cfg env task n w).
Proof.
  apply delay_of_stable.
  - apply controllerSwitchIs_stable.
  - apply controllerSwitchIs_actuate.
  - intros y w0 Hrole [Hrole' _]. congruence.
  - intros w0 Hrole [Hrole' _]. congruence.
Qed.

(** ** The actuation gate *)

Lemma status_eqb_eq a b : status_eqb a b = true <-> a = b.
Proof. unfold status_eqb. apply bool_decide_eq_true. Qed.

Lemma status_eqb_neq a b : status_eqb a b = false <-> a <> b.
Proof. unfold status_eqb. apply bool_decide_eq_false. Qed.

(** The three ways through [BlockNetwork] on the Controller. *)
Lemma BlockNetwork_block cfg env delay rc w :
  thisIsTheController w = true ->
  BlockNetwork cfg env delay true rc w =
    if status_eqb (NetworkStatus w) blocked then
      Serial_println
        "a request to block network was ignored as the network is already blocked"
        (Serial_print "incoming block request" w)
    else BlockNetwork_actuate true (Serial_print "incoming block request" w).
Proof.
  intros Hrole. unfold BlockNetwork. rewrite Hrole. cbn.
  rewrite andb_false_r. reflexivity.
Qed.

Lemma BlockNetwork_unblock_noop cfg env delay rc w :
  thisIsTheController w = true ->
  NetworkStatus w = unblocked ->
  BlockNetwork cfg env delay false rc w =
    Serial_println
      "a request to unblock network was ignored as the network is already unblocked"
      (Serial_print "incoming unblock request" w).
Proof.
  intros Hrole Hns. unfold BlockNetwork. rewrite Hrole. cbn. rewrite Hns. reflexivity.
Qed.

Lemma BlockNetwork_unblock cfg env delay rc w :
  thisIsTheController w = true ->
  NetworkStatus w <> unblocked ->
  useASwitchbox cfg = true ->
  BlockNetwork cfg env delay false rc w =
    let c := BlockNetwork_refresh env delay rc (Serial_print "incoming unblock request" w) in
    if status_eqb (ControllerSwitchStatus c) blocked then
      Serial_println
        "a request from the Switchbox to unblock network was denied as the Controller is requesting the network be blocked" c
    else if status_eqb (SwitchBoxSwitchStatus c) blocked then
      Serial_println
        "a request from the Controller to unblock network was denied as the Switchbox is requesting the network be blocked" c
    else BlockNetwork_actuate false c.
Proof.
  intros Hrole Hns Hcfg. unfold BlockNetwork. rewrite Hrole, Hcfg. cbn.
  apply status_eqb_neq in Hns. rewrite Hns. reflexivity.
Qed.

(** C4 -- A block request on the Controller: when the network is already
    blocked nothing but the serial console changes; otherwise the relay is
    driven HIGH and [NetworkStatus] becomes [blocked] whatever the two switch
    statuses are, at once (no sleep, no packet).  An unblock request when the
    network is already unblocked changes nothing but the serial console. *)
Theorem BlockNetwork_block_unconditional_and_idempotent
    (cfg : Settings) (env : Env) (delay : Z -> World -> World)
    (RequestCameFromController : bool) (w : World) :
  thisIsTheController w = true ->
  (NetworkStatus w = blocked ->
     let w' := BlockNetwork cfg env delay true RequestCameFromController w in
     w' = set_serial (serial w') w /\ relay w' = relay w /\ NetworkStatus w' = blocked) /\
  (NetworkStatus w <> blocked ->
     let w' := BlockNetwork cfg env delay true RequestCameFromController w in
     relay w' = Some HIGH /\ NetworkStatus w' = blocked /\
     pin_out w' = <[controllerRelayConnectionPin := HIGH]> (pin_out w) /\
     ControllerSwitchStatus w' = ControllerSwitchStatus w /\
     SwitchBoxSwitchStatus w' = SwitchBoxSwitchStatus w /\
     clock w' = clock w /\ sent w' = sent w) /\
  (NetworkStatus w = unblocked ->
     let w' := BlockNetwork cfg env delay false RequestCameFromController w in
     w' = set_serial (serial w') w /\ relay w' = relay w /\ NetworkStatus w' = unblocked).
Proof.
  intros Hrole. split; [|split].
  - intros Hns w'. subst w'. rewrite BlockNetwork_block by assumption.
    rewrite Hns. cbn. auto.
  - intros Hns w'. subst w'. rewrite BlockNetwork_block by assumption.
    apply status_eqb_neq in Hns. rewrite Hns.
    unfold BlockNetwork_actuate, relay. cbn. rewrite lookup_insert_eq. auto 10.
  - intros Hns w'. subst w'. rewrite BlockNetwork_unblock_noop by assumption.
    cbn. auto.
Qed.

Lemma BlockNetwork_block_unconditional_and_idempotent_witness :
  thisIsTheController unblockedController = true /\
  relay (BlockNetwork sampleSettings quietControllerEnv delay_radio true false
           unblockedController) = Some HIGH /\
  relay (BlockNetwork sampleSettings quietControllerEnv delay_radio true false
           blockedController) = relay blockedController.
Proof.
  split; [reflexivity|]. split.
  - apply (proj1 (proj2 (BlockNetwork_block_unconditional_and_idempotent sampleSettings
             quietControllerEnv delay_radio false unblockedController eq_refl))).
    discriminate.
  - apply (proj1 (BlockNetwork_block_unconditional_and_idempotent sampleSettings
             quietControllerEnv delay_radio false blockedController eq_refl)).
    reflexivity.
Defined.

Lemma requestTheSwitchboxStatus_controllerSwitch cfg env task w :
  thisIsTheController w = true ->
  ControllerSwitchStatus (requestTheSwitchboxStatus env (delay_of cfg env task) w)
  = ControllerSwitchStatus w.
Proof.
  intros Hrole.
  apply (requestTheSwitchboxStatus_stable env (delay_of cfg env task)
           (controllerSwitchIs (ControllerSwitchStatus w))).
  - apply controllerSwitchIs_stable.
  - intros n w0. apply controllerSwitchIs_delay.
  - split; [exact Hrole | reflexivity].
Qed.

Lemma atTheVetoTests_controllerSwitch cfg env task rc w :
  thisIsTheController w = true ->
  ControllerSwitchStatus (atTheVetoTests env (delay_of cfg env task) rc w)
  = ControllerSwitchStatus w.
Proof.
  intros Hrole. unfold atTheVetoTests, BlockNetwork_refresh.
  destruct rc; [|reflexivity].
  rewrite requestTheSwitchboxStatus_controllerSwitch by exact Hrole. reflexivity.
Qed.

Lemma atTheVetoTests_relay env delay rc w :
  rc = false \/ sleepsKeepTheRelay delay ->
  pin_out (atTheVetoTests env delay rc w) = pin_out w /\
  NetworkStatus (atTheVetoTests env delay rc w) = NetworkStatus w.
Proof.
  intros Hquiet. unfold atTheVetoTests, BlockNetwork_refresh.
  destruct rc; [|split; reflexivity].
  destruct Hquiet as [Hrc|Hquiet]; [discriminate|].
  apply (requestTheSwitchboxStatus_stable env delay
           (fun w' => pin_out w' = pin_out w /\ NetworkStatus w' = NetworkStatus w)).
  - split; intros; assumption.
  - intros n w0 [Hpins Hns]. destruct (Hquiet n w0) as [-> ->]. split; assumption.
  - split; reflexivity.
Qed.

(** The sleeps of the radio task, and those of the main task while the radio
    is silent, leave the relay alone. *)
Lemma sleepsKeepTheRelay_radio : sleepsKeepTheRelay delay_radio.
Proof. intros n w. split; reflexivity. Qed.

Lemma sleepsKeepTheRelay_silence cfg env :
  (forall t n, radio_during env t n = []) -> sleepsKeepTheRelay (delay_main cfg env).
Proof.
  intros Hsilent n w. unfold delay_main. rewrite Hsilent. split; reflexivity.
Qed.

(** C1 -- An unblock request to the gate of a Controller built with a
    Switchbox, the network not already unblocked.  With [c] the world at the
    two veto tests: the unblock is granted (relay LOW, [NetworkStatus]
    unblocked) if and only if neither [ControllerSwitchStatus] nor
    [SwitchBoxSwitchStatus] is [blocked] in [c], [unknown] counting as not
    blocked; when either is [blocked] the output pins and [NetworkStatus] are
    left as they are.  [c] has the [ControllerSwitchStatus] of the call, and
    its output pins and [NetworkStatus] when there is no refresh or when the
    callbacks that run during the refresh leave them alone. *)
Theorem BlockNetwork_unblock_granted_iff_no_veto
    (cfg : Settings) (env : Env) (task : Task)
    (RequestCameFromController : bool) (w : World) :
  thisIsTheController w = true ->
  useASwitchbox cfg = true ->
  NetworkStatus w <> unblocked ->
  let delay := delay_of cfg env task in
  let c := atTheVetoTests env delay RequestCameFromController w in
  let w' := BlockNetwork cfg env delay false RequestCameFromController w in
  (ControllerSwitchStatus c <> blocked /\ SwitchBoxSwitchStatus c <> blocked ->
     unblockGranted w') /\
  (ControllerSwitchStatus c = blocked \/ SwitchBoxSwitchStatus c = blocked ->
     pin_out w' = pin_out c /\ relay w' = relay c /\ NetworkStatus w' = NetworkStatus c) /\
  (NetworkStatus c <> unblocked ->
     (unblockGranted w' <->
      ControllerSwitchStatus c <> blocked /\ SwitchBoxSwitchStatus c <> blocked)) /\
  ControllerSwitchStatus c = ControllerSwitchStatus w /\
  (RequestCameFromController = false -> SwitchBoxSwitchStatus c = unknown) /\
  (RequestCameFromController = false \/ sleepsKeepTheRelay delay ->
     pin_out c = pin_out w /\ NetworkStatus c = NetworkStatus w).
Proof.
  intros Hrole Hcfg Hns delay c w'.
  assert (w' = if status_eqb (ControllerSwitchStatus c) blocked then
                 Serial_println
                   "a request from the Switchbox to unblock network was denied as the Controller is requesting the network be blocked" c
               else if status_eqb (SwitchBoxSwitchStatus c) blocked then
                 Serial_println
                   "a request from the Controller to unblock network was denied as the Switchbox is requesting the network be blocked" c
               else BlockNetwork_actuate false c) as Hw'
    by (apply BlockNetwork_unblock; assumption).
  clearbody w'.
  assert (forall t, pin_out (Serial_println t c) = pin_out c /\
                    relay (Serial_println t c) = relay c /\
                    NetworkStatus (Serial_println t c) = NetworkStatus c) as Hdenied
    by (intros t; repeat split).
  assert (unblockGranted (BlockNetwork_actuate false c)) as Hgranted
    by (split; [apply relay_BlockNetwork_actuate | reflexivity]).
  destruct (status_eqb (ControllerSwitchStatus c) blocked) eqn:Hc;
    [apply status_eqb_eq in Hc | apply status_eqb_neq in Hc];
    (destruct (status_eqb (SwitchBoxSwitchStatus c) blocked) eqn:Hs;
     [apply status_eqb_eq in Hs | apply status_eqb_neq in Hs]);
    subst w'.
  all: split; [intros [? ?]; first [exact Hgranted | contradiction]|].
  all: split; [intros [?|?]; first [apply Hdenied | contradiction]|].
  all: split;
    [intros Hnc; split;
     [intros [_ Hu]; first [split; assumption | exfalso; cbn in Hu; contradiction]
     |intros [? ?]; first [exact Hgranted | contradiction]]|].
  all: split; [apply atTheVetoTests_controllerSwitch; exact Hrole|].
  all: split; [intros ->; reflexivity | apply atTheVetoTests_relay].
Qed.

Lemma BlockNetwork_unblock_granted_iff_no_veto_witness :
  unblockGranted
    (BlockNetwork sampleSettings quietControllerEnv
       (delay_of sampleSettings quietControllerEnv MainTask) false true
       (set_SwitchBoxSwitchStatus unblocked blockedBySwitchbox)) /\
  NetworkStatus
    (BlockNetwork sampleSettings quietControllerEnv
       (delay_of sampleSettings quietControllerEnv RadioTask) false false
       blockedController) = blocked.
Proof.
  split.
  - pose proof (BlockNetwork_unblock_granted_iff_no_veto sampleSettings quietControllerEnv
                  MainTask true (set_SwitchBoxSwitchStatus unblocked blockedBySwitchbox)
                  eq_refl eq_refl ltac:(discriminate)) as H.
    cbv zeta in H. destruct H as (Hgrant & _). apply Hgrant.
    split; vm_compute; discriminate.
  - pose proof (BlockNetwork_unblock_granted_iff_no_veto sampleSettings quietControllerEnv
                  RadioTask false blockedController
                  eq_refl eq_refl ltac:(discriminate)) as H.
    cbv zeta in H. destruct H as (_ & Hdeny & _).
    destruct Hdeny as (_ & _ & Hns); [left; reflexivity|]. exact Hns.
Defined.

(** C5 (as stated) -- A denied unblock request does not keep
    [SwitchBoxSwitchStatus]: on a Controller whose own button is down, with
    the network blocked and [SwitchBoxSwitchStatus] unblocked, the request is
    denied and [SwitchBoxSwitchStatus] is left [unknown]. *)
Lemma BlockNetwork_denied_unblock_resets_SwitchBoxSwitchStatus :
  ~ deniedUnblockKeepsEveryStatus sampleSettings quietControllerEnv delay_radio false
      (set_SwitchBoxSwitchStatus unblocked blockedController).
Proof.
  intros H. unfold deniedUnblockKeepsEveryStatus in H.
  destruct H as (_ & _ & _ & Hswitchbox); [reflexivity | reflexivity | left; reflexivity|].
  vm_compute in Hswitchbox. discriminate Hswitchbox.
Qed.

(** C5 (amended) -- An unblock request to the gate of a Controller built with
    a Switchbox, the network blocked, denied because [ControllerSwitchStatus]
    or [SwitchBoxSwitchStatus] is [blocked] at the veto tests (world [c]):
    the output pins, [NetworkStatus] and both switch statuses are after the
    call as they were at the tests, [ControllerSwitchStatus] is as before the
    call, and so are the relay and [NetworkStatus] when there is no refresh
    or when the callbacks that run during the refresh leave them alone.
    [SwitchBoxSwitchStatus] is not kept: without refresh it is [unknown].
    The last line on the serial console names the side that vetoed. *)
Theorem BlockNetwork_denied_unblock_keeps_relay_and_logs_veto
    (cfg : Settings) (env : Env) (task : Task)
    (RequestCameFromController : bool) (w : World) :
  thisIsTheController w = true ->
  useASwitchbox cfg = true ->
  NetworkStatus w = blocked ->
  let delay := delay_of cfg env task in
  let c := atTheVetoTests env delay RequestCameFromController w in
  let w' := BlockNetwork cfg env delay false RequestCameFromController w in
  ControllerSwitchStatus c = blocked \/ SwitchBoxSwitchStatus c = blocked ->
  pin_out w' = pin_out c /\ NetworkStatus w' = NetworkStatus c /\
  ControllerSwitchStatus w' = ControllerSwitchStatus w /\
  SwitchBoxSwitchStatus w' = SwitchBoxSwitchStatus c /\
  (RequestCameFromController = false \/ sleepsKeepTheRelay delay ->
     relay w' = relay w /\ NetworkStatus w' = blocked) /\
  (RequestCameFromController = false -> SwitchBoxSwitchStatus w' = unknown) /\
  serial w' =
    (serial c ++
     [SerialPrintln (vetoMessage (status_eqb (ControllerSwitchStatus c) blocked))])%list.
Proof.
  intros Hrole Hcfg Hns delay c w' Hveto.
  assert (w' = Serial_println (vetoMessage (status_eqb (ControllerSwitchStatus c) blocked)) c)
    as Hw'.
  { subst w'. rewrite BlockNetwork_unblock by (assumption || congruence).
    fold delay. fold (atTheVetoTests env delay RequestCameFromController w). fold c.
    cbv zeta. destruct (status_eqb (ControllerSwitchStatus c) blocked) eqn:Hc;
      [reflexivity|].
    destruct Hveto as [Hveto|Hveto].
    - apply status_eqb_neq in Hc. contradiction.
    - apply status_eqb_eq in Hveto. rewrite Hveto. reflexivity. }
  clearbody w'. subst w'.
  pose proof (atTheVetoTests_controllerSwitch cfg env task RequestCameFromController w Hrole)
    as Hcss.
  fold delay in Hcss. fold c in Hcss.
  repeat split; try exact Hcss.
  - destruct (atTheVetoTests_relay env delay RequestCameFromController w H) as [Hpins _].
    fold c in Hpins. unfold relay. cbn. rewrite Hpins. reflexivity.
  - destruct (atTheVetoTests_relay env delay RequestCameFromController w H) as [_ Hns'].
    fold c in Hns'. cbn. rewrite Hns'. exact Hns.
  - intros ->. reflexivity.
Qed.

Lemma BlockNetwork_denied_unblock_keeps_relay_and_logs_veto_witness :
  let w := set_SwitchBoxSwitchStatus unblocked blockedController in
  let w' := BlockNetwork sampleSettings quietControllerEnv
              (delay_of sampleSettings quietControllerEnv RadioTask) false false w in
  relay w' = relay w /\ NetworkStatus w' = blocked /\ SwitchBoxSwitchStatus w' = unknown.
Proof.
  intros w w'.
  pose proof (BlockNetwork_denied_unblock_keeps_relay_and_logs_veto sampleSettings
                quietControllerEnv RadioTask false w eq_refl eq_refl eq_refl) as H.
  cbv zeta in H.
  destruct H as (_ & _ & _ & _ & Hrelay & Hswitchbox & _); [left; reflexivity|].
  destruct Hrelay as [Hrelay Hns]; [left; reflexivity|].
  split; [exact Hrelay|]. split; [exact Hns|]. apply Hswitchbox. reflexivity.
Defined.

(** ** The callbacks *)

(** Decide the tests of [OnDataRecv] on a message of a known kind. *)
Ltac decide_kinds :=
  repeat match goal with
         | |- context [kind_eqb ?a ?b] =>
             let r := eval vm_compute in (kind_eqb a b) in
             change (kind_eqb a b) with r
         end;
  cbv iota.

(** On the radio task the Controller's reply to the Switchbox only adds a
    packet, console lines and possibly the alarm. *)
Lemma provideTheSwitchboxTheNetworkStatus_radio env w :
  thisIsTheController w = true ->
  let w' := provideTheSwitchboxTheNetworkStatus env delay_radio w in
  pin_out w' = pin_out w /\ NetworkStatus w' = NetworkStatus w /\
  ControllerSwitchStatus w' = ControllerSwitchStatus w /\
  SwitchBoxSwitchStatus w' = SwitchBoxSwitchStatus w /\
  sent w' =
    (sent w ++ [(remoteSwitchMACAddress,
                 mkTransmission networkStatusReply (NetworkStatus w))])%list /\
  exists printed,
    serial w' = (serial w ++ printed)%list /\
    ~ In (SerialPrintln (vetoMessage false)) printed.
Proof.
  intros Hrole. unfold provideTheSwitchboxTheNetworkStatus, delay_radio, advance.
  rewrite Hrole. cbn.
  destruct (status_eqb (NetworkStatus w) blocked); cbn;
    destruct (send_accepted env (clock w)); cbn;
    try destruct (packedSentSuccesfully w); cbn;
    repeat (split; [reflexivity|]);
    rewrite <- ?app_assoc; eexists; (split; [reflexivity|]);
    cbn; intuition discriminate.
Qed.

(** C10 -- An unblock request from the Switchbox ([OnDataRecv] with
    [requestControllerUnblockNetwork]) on a Controller built with a Switchbox,
    the network blocked: whatever [SwitchBoxSwitchStatus] was, it is [unknown]
    at the veto tests and after the call; no [requestSwitchboxStatus] is sent
    (the one packet sent is the network status reply); the Switchbox's veto
    is not printed; and the unblock is granted if and only if
    [ControllerSwitchStatus] is not [blocked]. *)
Theorem OnDataRecv_unblock_request_never_vetoed_by_switchbox
    (cfg : Settings) (env : Env) (st : device_Status) (w : World) :
  thisIsTheController w = true ->
  useASwitchbox cfg = true ->
  NetworkStatus w = blocked ->
  let w' := OnDataRecv cfg env delay_radio
              (mkTransmission requestControllerUnblockNetwork st) w in
  (forall x, OnDataRecv cfg env delay_radio
               (mkTransmission requestControllerUnblockNetwork st)
               (set_SwitchBoxSwitchStatus x w) = w') /\
  SwitchBoxSwitchStatus w' = unknown /\
  (unblockGranted w' <-> ControllerSwitchStatus w <> blocked) /\
  (ControllerSwitchStatus w = blocked ->
     pin_out w' = pin_out w /\ NetworkStatus w' = blocked) /\
  sent w' =
    (sent w ++ [(remoteSwitchMACAddress,
                 mkTransmission networkStatusReply (NetworkStatus w'))])%list /\
  exists printed,
    serial w' = (serial w ++ printed)%list /\
    ~ In (SerialPrintln (vetoMessage false)) printed.
Proof.
  intros Hrole Hcfg Hns w'. split.
  { intros x. subst w'. unfold OnDataRecv, touchBaseWhenAllIsGood. cbn.
    rewrite Hrole. cbn. rewrite Hrole. reflexivity. }
  subst w'. unfold OnDataRecv, touchBaseWhenAllIsGood. cbn. rewrite Hrole. cbn.
  rewrite Hrole. cbn. decide_kinds.
  set (w0 := set_SwitchBoxSwitchStatus unblocked _).
  assert (thisIsTheController w0 = true) as Hrole0 by exact Hrole.
  assert (NetworkStatus w0 <> unblocked) as Hns0
    by (change (NetworkStatus w <> unblocked); congruence).
  rewrite (BlockNetwork_unblock cfg env delay_radio false w0 Hrole0 Hns0 Hcfg).
  unfold BlockNetwork_refresh. cbv zeta.
  change (ControllerSwitchStatus (set_SwitchBoxSwitchStatus unknown
            (Serial_print "incoming unblock request" w0)))
    with (ControllerSwitchStatus w).
  change (status_eqb (SwitchBoxSwitchStatus (set_SwitchBoxSwitchStatus unknown
            (Serial_print "incoming unblock request" w0))) blocked) with false.
  cbv iota.
  set (c := set_SwitchBoxSwitchStatus unknown (Serial_print "incoming unblock request" w0)).
  assert (thisIsTheController c = true) as Hrolec by exact Hrole.
  assert (exists p, serial c = (serial w ++ p)%list /\
                    ~ In (SerialPrintln (vetoMessage false)) p) as (p & Hp & Hnp).
  { subst c w0. cbn. rewrite <- !app_assoc. eexists. split; [reflexivity|].
    cbn. intuition discriminate. }
  destruct (status_eqb (ControllerSwitchStatus w) blocked) eqn:Hc;
    [apply status_eqb_eq in Hc | apply status_eqb_neq in Hc].
  - cbv iota. set (d := Serial_println _ c).
    destruct (provideTheSwitchboxTheNetworkStatus_radio env d Hrolec)
      as (Hpins & Hnet & _ & Hsb & Hsent & q & Hq & Hnq).
    cbv zeta in *. unfold unblockGranted.
    rewrite Hnet, Hsb, Hsent. unfold relay. rewrite Hpins.
    change (NetworkStatus d) with (NetworkStatus w). rewrite Hns.
    split; [reflexivity|]. split; [split; [intros [_ Hu]; discriminate Hu | contradiction]|].
    split; [intros _; split; reflexivity|]. split; [reflexivity|].
    exists (p ++ SerialPrintln (vetoMessage true) :: q)%list. split.
    + rewrite Hq.
      change (serial d) with (serial c ++ [SerialPrintln (vetoMessage true)])%list.
      rewrite Hp, <- !app_assoc. reflexivity.
    + rewrite in_app_iff. cbn. intuition discriminate.
  - cbv iota. set (d := BlockNetwork_actuate false c).
    destruct (provideTheSwitchboxTheNetworkStatus_radio env d Hrolec)
      as (Hpins & Hnet & _ & Hsb & Hsent & q & Hq & Hnq).
    cbv zeta in *. unfold unblockGranted.
    rewrite Hnet, Hsb, Hsent. unfold relay. rewrite Hpins.
    split; [reflexivity|]. split; [split; [intros _; exact Hc|intros _]|].
    { split; [apply lookup_insert_eq | reflexivity]. }
    split; [intros Hc'; contradiction|]. split; [reflexivity|].
    exists (p ++ SerialPrintln "Network unblocked" :: q)%list. split.
    + rewrite Hq.
      change (serial d) with (serial c ++ [SerialPrintln "Network unblocked"])%list.
      rewrite Hp, <- !app_assoc. reflexivity.
    + rewrite in_app_iff. cbn. intuition discriminate.
Qed.

Lemma OnDataRecv_unblock_request_never_vetoed_by_switchbox_witness :
  unblockGranted
    (OnDataRecv sampleSettings quietControllerEnv delay_radio
       (mkTransmission requestControllerUnblockNetwork unknown) blockedBySwitchbox).
Proof.
  pose proof (OnDataRecv_unblock_request_never_vetoed_by_switchbox sampleSettings
                quietControllerEnv unknown blockedBySwitchbox eq_refl eq_refl eq_refl) as H.
  cbv zeta in H. destruct H as (_ & _ & Hgranted & _).
  apply Hgranted. discriminate.
Defined.

Lemma uadd_uadd a b c : uadd (uadd a b) c = ulong (a + b + c).
Proof. unfold uadd, ulong. apply Zplus_mod_idemp_l. Qed.

(** C8 (as stated) -- An unexpected message does move the touch-base time: a
    Controller 1000 ms after boot, its next touch-base due at 30000 ms, that
    receives a [networkStatusReply] has its next touch-base due at 31000 ms. *)
Lemma OnDataRecv_unexpected_message_moves_the_touch_base_time :
  ~ unexpectedMessageOnlyRaisesAlarm sampleSettings quietControllerEnv
      (mkTransmission networkStatusReply unblocked) (advance 1000 unblockedController).
Proof.
  intros H. unfold unexpectedMessageOnlyRaisesAlarm in H.
  destruct H as (_ & _ & _ & _ & _ & Htarget); [reflexivity|].
  vm_compute in Htarget. discriminate Htarget.
Qed.

(** C8 (amended) -- A message whose kind the receiving role does not expect:
    [OnDataRecv] ends with the communications alarm (flash rate 333) and the
    next touch-base set, as for every message received, to 30 s from now
    (plus 1.5 s on the Switchbox); it prints one line and changes nothing
    else: the three status variables, the output pins, the clock (no sleep)
    and the packets sent are as before. *)
Theorem OnDataRecv_unexpected_message_raises_alarm
    (cfg : Settings) (env : Env) (incomingMessage : transmission_Structure) (w : World) :
  expectedBy (thisIsTheController w) (transmission incomingMessage) = false ->
  let w' := OnDataRecv cfg env delay_radio incomingMessage w in
  FlashRateOfTheLED w' = 333 /\
  nextTouchBaseTimeTarget w' =
    ulong (millis w + touchBaseTimePeriodWhenAllIsGood + touchbaseOffset w) /\
  ControllerSwitchStatus w' = ControllerSwitchStatus w /\
  SwitchBoxSwitchStatus w' = SwitchBoxSwitchStatus w /\
  NetworkStatus w' = NetworkStatus w /\
  pin_out w' = pin_out w /\ clock w' = clock w /\ sent w' = sent w /\
  serial w' = (serial w ++ [SerialPrint "Error: an unknown request was received"])%list /\
  w' = set_serial (serial w')
         (set_nextTouchBaseTimeTarget (nextTouchBaseTimeTarget w')
            (set_FlashRateOfTheLED 333 w)).
Proof.
  intros Hkind w'. subst w'. destruct incomingMessage as [kind st].
  unfold OnDataRecv, touchBaseWhenAllIsGood, touchbaseOffset. cbn in *.
  destruct (thisIsTheController w) eqn:Hrole; cbn; rewrite Hrole; cbn;
    destruct kind; try discriminate Hkind; decide_kinds;
    unfold unknownRequest, commsProblem; cbn;
    rewrite ?uadd_uadd; unfold uadd; rewrite ?Z.add_0_r; auto 12.
Qed.

Lemma OnDataRecv_unexpected_message_raises_alarm_witness :
  FlashRateOfTheLED
    (OnDataRecv sampleSettings quietControllerEnv delay_radio
       (mkTransmission networkStatusReply unblocked) (advance 1000 unblockedController))
  = 333.
Proof.
  apply (OnDataRecv_unexpected_message_raises_alarm sampleSettings quietControllerEnv
           (mkTransmission networkStatusReply unblocked) (advance 1000 unblockedController)).
  reflexivity.
Defined.

Lemma millis_small w : 0 <= clock w < 2 ^ 32 -> millis w = clock w.
Proof. intros H. unfold millis, ulong. apply Z.mod_small. exact H. Qed.

(** ** The debounced emergency-stop input *)

Lemma clock_delay_of cfg env task n w :
  clock (delay_of cfg env task n w) = clock w + n.
Proof. destruct task; reflexivity. Qed.

Lemma thisIsTheController_delay_of cfg env task n w :
  thisIsTheController (delay_of cfg env task n w) = thisIsTheController w.
Proof.
  apply (hasRole_delay cfg env task (thisIsTheController w) (thisIsTheSwitchbox w) n w).
  split; reflexivity.
Qed.

Lemma digitalRead_is_0 env pin w :
  (digitalRead env pin w =? 0) = negb (pin_level env pin (clock w)).
Proof. unfold digitalRead. destruct (pin_level env pin (clock w)); reflexivity. Qed.

Lemma readEmergencyStopButton_debounced cfg env task nc no w :
  let r := readEmergencyStopButton env (delay_of cfg env task) nc no w in
  fst (fst r) && snd (fst r)
  = readsOpenTwice env nc (clock w) && readsClosedTwice env no (clock w + 10) /\
  thisIsTheController (snd r) = thisIsTheController w.
Proof.
  unfold readEmergencyStopButton, readsOpenTwice, readsClosedTwice.
  rewrite !digitalRead_is_0, !clock_delay_of, negb_involutive.
  destruct (pin_level env nc (clock w)); cbn; [|split; reflexivity].
  rewrite ?digitalRead_is_0, ?clock_delay_of, ?negb_involutive.
  destruct (pin_level env nc (clock w + 10)); cbn;
    [|rewrite ?thisIsTheController_delay_of; split; reflexivity].
  destruct (pin_level env no (clock w + 10)); cbn;
    [rewrite ?thisIsTheController_delay_of; split; reflexivity|].
  rewrite ?digitalRead_is_0, ?clock_delay_of.
  destruct (pin_level env no (clock w + 10 + 10)); cbn;
    rewrite ?thisIsTheController_delay_of; split; reflexivity.
Qed.

(** C2 -- [checkEmergencyStopButton], on either task and whatever the pins
    read: the status of the device's own switch is [blocked] if and only if
    the normally closed contact reads open now and 10 ms from now, and the
    normally opened contact reads closed 10 ms and 20 ms from now; it is
    [unblocked] otherwise.  So a reading that does not last to the second
    read, as the reading of a contact that is open for less than 10 ms,
    leaves it [unblocked]. *)
Theorem checkEmergencyStopButton_blocked_iff_both_debounced_tests
    (cfg : Settings) (env : Env) (task : Task) (w : World) :
  let w' := checkEmergencyStopButton env (delay_of cfg env task) w in
  let t := clock w in
  let nc := ownNormallyClosedPin w in
  let no := ownNormallyOpenedPin w in
  (ownSwitchStatus w' = blocked <->
   readsOpenTwice env nc t = true /\ readsClosedTwice env no (t + 10) = true) /\
  (ownSwitchStatus w' <> blocked -> ownSwitchStatus w' = unblocked) /\
  (pin_level env nc t = false \/ pin_level env nc (t + 10) = false \/
   pin_level env no (t + 10) = true \/ pin_level env no (t + 20) = true ->
   ownSwitchStatus w' = unblocked) /\
  (forall g len, 0 <= len < 10 ->
     (forall u, pin_level env nc u = true -> g <= u < g + len) ->
     ownSwitchStatus w' = unblocked).
Proof.
  intros w' t nc no.
  assert (ownSwitchStatus w' =
          if readsOpenTwice env nc t && readsClosedTwice env no (t + 10)
          then blocked else unblocked) as Hown.
  { subst w' t nc no. unfold checkEmergencyStopButton.
    fold (ownNormallyClosedPin w). fold (ownNormallyOpenedPin w).
    destruct (readEmergencyStopButton_debounced cfg env task
                (ownNormallyClosedPin w) (ownNormallyOpenedPin w) w) as [Htests Hrole].
    cbv zeta in Htests, Hrole.
    destruct (readEmergencyStopButton env (delay_of cfg env task)
                (ownNormallyClosedPin w) (ownNormallyOpenedPin w) w)
      as [[opened closed] w1].
    cbn in Htests, Hrole. rewrite <- Htests. unfold ownSwitchStatus.
    rewrite Hrole. destruct (thisIsTheController w) eqn:Hc;
      destruct (opened && closed); cbn; rewrite Hrole; reflexivity. }
  rewrite Hown. clear Hown. unfold readsOpenTwice, readsClosedTwice.
  replace (t + 10 + 10) with (t + 20) by lia.
  split; [|split; [|split]].
  - rewrite <- andb_true_iff.
    destruct (pin_level env nc t && pin_level env nc (t + 10)
              && (negb (pin_level env no (t + 10)) && negb (pin_level env no (t + 20))));
      split; (reflexivity || discriminate).
  - destruct (pin_level env nc t && pin_level env nc (t + 10)
              && (negb (pin_level env no (t + 10)) && negb (pin_level env no (t + 20))));
      [intros H; contradiction H|]; reflexivity.
  - intros [H|[H|[H|H]]]; rewrite H; cbn; rewrite ?andb_false_r; reflexivity.
  - intros g len Hlen Hglitch.
    destruct (pin_level env nc t) eqn:H1; [|reflexivity].
    destruct (pin_level env nc (t + 10)) eqn:H2; [|reflexivity].
    apply Hglitch in H1, H2. lia.
Qed.

Lemma checkEmergencyStopButton_blocked_iff_both_debounced_tests_witness :
  ownSwitchStatus
    (checkEmergencyStopButton bouncingEnv (delay_of sampleSettings bouncingEnv MainTask)
       unblockedController) = unblocked /\
  ownSwitchStatus
    (checkEmergencyStopButton pressedEnv (delay_of sampleSettings pressedEnv MainTask)
       unblockedController) = blocked.
Proof.
  split.
  - pose proof (checkEmergencyStopButton_blocked_iff_both_debounced_tests sampleSettings
                  bouncingEnv MainTask unblockedController) as H.
    cbv zeta in H. destruct H as (_ & _ & _ & Hglitch).
    apply (Hglitch 3 5); [lia|].
    intros u. vm_compute (clock _). cbn.
    destruct (3 <=? u) eqn:Hlo; [|discriminate]. destruct (u <? 8) eqn:Hhi; [|discriminate].
    apply Z.leb_le in Hlo. apply Z.ltb_lt in Hhi. lia.
  - pose proof (checkEmergencyStopButton_blocked_iff_both_debounced_tests sampleSettings
                  pressedEnv MainTask unblockedController) as H.
    cbv zeta in H. destruct H as (Hiff & _). apply Hiff. split; reflexivity.
Defined.

(** ** The wait of [requestTheSwitchboxStatus] ends

    Two hundred turns are all the loop can make: after them its test is
    false, and more turns would change nothing. *)

Lemma waitForTheSwitchbox_turn delay turns timeout w :
  waitForTheSwitchbox delay (S turns) timeout w
  = if stillWaiting timeout w
    then waitForTheSwitchbox delay turns timeout (delay 10 w)
    else w.
Proof. reflexivity. Qed.

Lemma millis_delay_of cfg env task n w :
  millis (delay_of cfg env task n w) = ulong (millis w + n).
Proof.
  unfold millis, ulong. rewrite clock_delay_of. symmetry. apply Zplus_mod_idemp_l.
Qed.

Lemma millis_range w : 0 <= millis w < 2 ^ 32.
Proof. unfold millis, ulong. apply Z.mod_pos_bound. reflexivity. Qed.

Lemma waitForTheSwitchbox_counts_down cfg env task turns timeout w :
  millis w + 10 * Z.of_nat turns = timeout ->
  timeout < 2 ^ 32 ->
  stillWaiting timeout (waitForTheSwitchbox (delay_of cfg env task) turns timeout w) = false.
Proof.
  revert w. induction turns as [|turns IH]; intros w Hleft Hmax.
  - cbn [waitForTheSwitchbox]. unfold stillWaiting.
    replace (millis w <? timeout) with false; [reflexivity|].
    symmetry. apply Z.ltb_ge. lia.
  - rewrite waitForTheSwitchbox_turn.
    destruct (stillWaiting timeout w) eqn:Hwait; [|exact Hwait].
    apply IH; [|exact Hmax].
    rewrite millis_delay_of. unfold ulong.
    pose proof (millis_range w). rewrite Z.mod_small by lia. lia.
Qed.

Lemma waitForTheSwitchbox_done cfg env task w :
  let timeout := ulong (millis w + 2000) in
  stillWaiting timeout (waitForTheSwitchbox (delay_of cfg env task) 200 timeout w) = false.
Proof.
  intros timeout. pose proof (millis_range w) as Hm.
  destruct (Z_lt_ge_dec (millis w + 2000) (2 ^ 32)) as [Hsmall|Hwrap].
  - assert (timeout = millis w + 2000) as Htimeout
      by (subst timeout; unfold ulong; apply Z.mod_small; lia).
    apply waitForTheSwitchbox_counts_down; lia.
  - assert (timeout = millis w + 2000 - 2 ^ 32) as Htimeout.
    { subst timeout. unfold ulong. symmetry.
      apply (Z.mod_unique (millis w + 2000) (2 ^ 32) 1); [left|]; lia. }
    assert (stillWaiting timeout w = false) as Hwait.
    { unfold stillWaiting. replace (millis w <? timeout) with false; [reflexivity|].
      symmetry. apply Z.ltb_ge. lia. }
    rewrite waitForTheSwitchbox_turn, Hwait. exact Hwait.
Qed.

Lemma waitForTheSwitchbox_more_turns delay turns more timeout w :
  stillWaiting timeout (waitForTheSwitchbox delay turns timeout w) = false ->
  waitForTheSwitchbox delay (turns + more) timeout w
  = waitForTheSwitchbox delay turns timeout w.
Proof.
  revert w. induction turns as [|turns IH]; intros w Hdone.
  - change (stillWaiting timeout w = false) in Hdone.
    destruct more as [|more]; [reflexivity|].
    change (0 + S more)%nat with (S more).
    rewrite waitForTheSwitchbox_turn, Hdone. reflexivity.
  - change (S turns + more)%nat with (S (turns + more)).
    rewrite !waitForTheSwitchbox_turn in *.
    destruct (stillWaiting timeout w); [apply IH; exact Hdone | reflexivity].
Qed.

(** ** Role negotiation *)

Lemma countIfClosed_debounced cfg env task pin count w :
  let r := countIfClosed env (delay_of cfg env task) pin count w in
  fst r = count + Z.b2z (readsClosedTwice env pin (clock w)) /\
  clock (snd r) = afterTest env pin (clock w) /\
  forall c s, hasRole c s w -> hasRole c s (snd r).
Proof.
  unfold countIfClosed, readsClosedTwice, afterTest.
  rewrite !digitalRead_is_0, !clock_delay_of.
  destruct (pin_level env pin (clock w)); cbn.
  - split; [lia|]. split; [reflexivity|]. intros c s H; exact H.
  - rewrite ?digitalRead_is_0, ?clock_delay_of.
    destruct (pin_level env pin (clock w + 10)); cbn;
      (split; [lia|]); (split; [apply clock_delay_of|]);
      intros c s H; apply hasRole_delay; exact H.
Qed.

(** C6 -- [setTheRoleOfThisDeviceBasedOnItsWiring].  It returns [true] if and
    only if exactly one of the four contacts reads closed twice and, when
    that one is a Switchbox contact, the build uses a Switchbox.  With one
    Controller contact closed the device is the Controller; with one
    Switchbox contact closed it is the Switchbox, and without [useASwitchbox]
    the function then returns [false] with the wiring flash rate; with none
    or several closed it returns [false], no role is set and the wiring
    flash rate (1000) is. *)
Theorem setTheRole_true_iff_exactly_one_contact_closed
    (cfg : Settings) (env : Env) (task : Task) (w : World) :
  let r := setTheRoleOfThisDeviceBasedOnItsWiring cfg env (delay_of cfg env task) w in
  let nC := closedControllerContacts env (clock w) in
  let nS := closedSwitchboxContacts env (clock w) in
  (fst r = true <-> nC + nS = 1 /\ (nS = 1 -> useASwitchbox cfg = true)) /\
  (nC + nS = 1 -> nC = 1 -> fst r = true /\ hasRole true false (snd r)) /\
  (nC + nS = 1 -> nS = 1 ->
     hasRole false true (snd r) /\ fst r = useASwitchbox cfg /\
     (useASwitchbox cfg = false ->
      FlashRateOfTheLED (snd r) = FlashRateOfTheLEDWhenThereIsAWiringProblem)) /\
  (nC + nS <> 1 ->
     fst r = false /\ hasRole false false (snd r) /\
     FlashRateOfTheLED (snd r) = FlashRateOfTheLEDWhenThereIsAWiringProblem).
Proof.
  intros r nC nS. subst r nC nS.
  unfold setTheRoleOfThisDeviceBasedOnItsWiring, closedControllerContacts,
    closedSwitchboxContacts.
  set (w0 := set_thisIsTheController false (set_thisIsTheSwitchbox false w)).
  assert (hasRole false false w0) as Hrole0 by (split; reflexivity).
  change (clock w) with (clock w0). clearbody w0.
  destruct (countIfClosed_debounced cfg env task controllerNormallyClosedConnectionPin 0 w0)
    as (Hn1 & Ht1 & Hr1).
  destruct (countIfClosed env (delay_of cfg env task)
              controllerNormallyClosedConnectionPin 0 w0) as [n1 w1].
  cbn [fst snd] in Hn1, Ht1, Hr1. specialize (Hr1 _ _ Hrole0).
  destruct (countIfClosed_debounced cfg env task controllerNormallyOpenedConnectionPin n1 w1)
    as (Hn2 & Ht2 & Hr2).
  destruct (countIfClosed env (delay_of cfg env task)
              controllerNormallyOpenedConnectionPin n1 w1) as [n2 w2].
  cbn [fst snd] in Hn2, Ht2, Hr2. specialize (Hr2 _ _ Hr1).
  destruct (countIfClosed_debounced cfg env task swichboxNormallyClosedConnectionPin 0 w2)
    as (Hn3 & Ht3 & Hr3).
  destruct (countIfClosed env (delay_of cfg env task)
              swichboxNormallyClosedConnectionPin 0 w2) as [n3 w3].
  cbn [fst snd] in Hn3, Ht3, Hr3. specialize (Hr3 _ _ Hr2).
  destruct (countIfClosed_debounced cfg env task swtichboxNormallyOpenedConnectionPin n3 w3)
    as (Hn4 & Ht4 & Hr4).
  destruct (countIfClosed env (delay_of cfg env task)
              swtichboxNormallyOpenedConnectionPin n3 w3) as [n4 w4].
  cbn [fst snd] in Hn4, Ht4, Hr4. specialize (Hr4 _ _ Hr3).
  cbv zeta. rewrite <- Ht1, <- Ht2, <- Ht3.
  rewrite Hn1 in Hn2. rewrite Hn3 in Hn4. rewrite Z.add_0_l in Hn2, Hn4.
  rewrite <- Hn2, <- Hn4.
  assert (0 <= n2 <= 2 /\ 0 <= n4 <= 2) as [Hb2 Hb4].
  { rewrite Hn2, Hn4.
    destruct (readsClosedTwice env controllerNormallyClosedConnectionPin (clock w0)),
      (readsClosedTwice env controllerNormallyOpenedConnectionPin (clock w1)),
      (readsClosedTwice env swichboxNormallyClosedConnectionPin (clock w2)),
      (readsClosedTwice env swtichboxNormallyOpenedConnectionPin (clock w3));
      cbn; lia. }
  clear Hn1 Hn2 Hn3 Hn4 Ht1 Ht2 Ht3 Ht4. destruct Hr4 as [Hc4 Hs4].
  rewrite (Z.add_comm n2 n4).
  destruct (n4 + n2 =? 1) eqn:Htotal;
    [apply Z.eqb_eq in Htotal | apply Z.eqb_neq in Htotal];
    (destruct (n2 =? 1) eqn:Hcontroller;
     [apply Z.eqb_eq in Hcontroller | apply Z.eqb_neq in Hcontroller]);
    cbn; rewrite ?Hc4, ?Hs4; cbn;
    destruct (useASwitchbox cfg); cbn; unfold hasRole; cbn; rewrite ?Hc4, ?Hs4;
    rewrite ?Htotal; cbn.
  all: repeat split; intros; try reflexivity; try discriminate; try lia.
  all: try (exfalso; lia).
  all: try solve [intuition (discriminate || lia)].
Qed.

Lemma setTheRole_true_iff_exactly_one_contact_closed_witness :
  let r := setTheRoleOfThisDeviceBasedOnItsWiring sampleSettings quietControllerEnv
             (delay_of sampleSettings quietControllerEnv MainTask) (powerOn 0) in
  fst r = true /\ hasRole true false (snd r).
Proof.
  pose proof (setTheRole_true_iff_exactly_one_contact_closed sampleSettings
                quietControllerEnv MainTask (powerOn 0)) as H.
  cbv zeta in H. destruct H as (_ & Hcontroller & _).
  apply Hcontroller; reflexivity.
Defined.

(** ** Boot *)

(** Before the callbacks are registered a sleep of the main task only lets
    time pass. *)
Lemma delay_main_unregistered cfg env n w :
  send_cb w = false -> recv_cb w = false ->
  delay_main cfg env n w = advance n w.
Proof.
  intros Hsend Hrecv. unfold delay_main.
  assert (forall events w0, send_cb w0 = false -> recv_cb w0 = false ->
                            fold_left (runCallback cfg env) events w0 = w0) as Hnone.
  { induction events as [|ev events IH]; intros w0 Hs Hr; [reflexivity|].
    cbn. destruct ev; cbn; rewrite ?Hs, ?Hr; apply IH; assumption. }
  rewrite Hnone by assumption. destruct w; reflexivity.
Qed.

Lemma radioOffAndUnblocked_delay_main cfg env n w :
  radioOffAndUnblocked w -> radioOffAndUnblocked (delay_main cfg env n w).
Proof.
  intros H. rewrite delay_main_unregistered; [exact H| |]; apply H.
Qed.

Lemma radioOffAndUnblocked_countIfClosed cfg env pin count w :
  radioOffAndUnblocked w ->
  radioOffAndUnblocked (snd (countIfClosed env (delay_main cfg env) pin count w)).
Proof.
  intros H. unfold countIfClosed.
  destruct (digitalRead env pin w =? 0); [|exact H].
  destruct (digitalRead env pin (delay_main cfg env 10 w) =? 0);
    apply radioOffAndUnblocked_delay_main, H.
Qed.

Lemma radioOffAndUnblocked_negotiation cfg env t0 :
  radioOffAndUnblocked (snd (negotiation cfg env t0)).
Proof.
  unfold negotiation, setTheRoleOfThisDeviceBasedOnItsWiring.
  set (w0 := set_thisIsTheController false _).
  assert (radioOffAndUnblocked w0) as H0 by (repeat split).
  clearbody w0.
  pose proof (radioOffAndUnblocked_countIfClosed cfg env
                controllerNormallyClosedConnectionPin 0 w0 H0) as H1.
  destruct (countIfClosed env (delay_main cfg env)
              controllerNormallyClosedConnectionPin 0 w0) as [n1 w1].
  pose proof (radioOffAndUnblocked_countIfClosed cfg env
                controllerNormallyOpenedConnectionPin n1 w1 H1) as H2.
  destruct (countIfClosed env (delay_main cfg env)
              controllerNormallyOpenedConnectionPin n1 w1) as [n2 w2].
  pose proof (radioOffAndUnblocked_countIfClosed cfg env
                swichboxNormallyClosedConnectionPin 0 w2 H2) as H3.
  destruct (countIfClosed env (delay_main cfg env)
              swichboxNormallyClosedConnectionPin 0 w2) as [n3 w3].
  pose proof (radioOffAndUnblocked_countIfClosed cfg env
                swtichboxNormallyOpenedConnectionPin n3 w3 H3) as H4.
  destruct (countIfClosed env (delay_main cfg env)
              swtichboxNormallyOpenedConnectionPin n3 w3) as [n4 w4].
  cbn [snd] in *.
  destruct (n4 + n2 =? 1); [destruct (n2 =? 1)|]; cbn;
    match goal with |- context [if ?b then _ else _] => destruct b end; exact H4.
Qed.

(** A negotiation that fails leaves the wiring flash rate. *)
Lemma setTheRole_false_flashes cfg env delay w :
  let r := setTheRoleOfThisDeviceBasedOnItsWiring cfg env delay w in
  fst r = false ->
  FlashRateOfTheLED (snd r) = FlashRateOfTheLEDWhenThereIsAWiringProblem.
Proof.
  unfold setTheRoleOfThisDeviceBasedOnItsWiring.
  destruct (countIfClosed env delay controllerNormallyClosedConnectionPin 0 _) as [n1 w1].
  destruct (countIfClosed env delay controllerNormallyOpenedConnectionPin n1 w1) as [n2 w2].
  destruct (countIfClosed env delay swichboxNormallyClosedConnectionPin 0 w2) as [n3 w3].
  destruct (countIfClosed env delay swtichboxNormallyOpenedConnectionPin n3 w3) as [n4 w4].
  cbv zeta.
  destruct (n4 + n2 =? 1) eqn:Htotal; [destruct (n2 =? 1)|]; cbn;
    match goal with |- context [if ?b then _ else _] => destruct b end; cbn;
    rewrite ?Htotal; intros H; (reflexivity || discriminate H).
Qed.

Lemma radioOffAndUnblocked_LEDUpdateAsRequried cfg w :
  radioOffAndUnblocked w -> radioOffAndUnblocked (LEDUpdateAsRequried cfg w).
Proof.
  assert (forall l w0, radioOffAndUnblocked w0 -> radioOffAndUnblocked (writeTheLEDs cfg l w0))
    as Hleds.
  { intros l w0 (Hw & Hs & Hr & Hp & Hrelay & Hns).
    unfold radioOffAndUnblocked. rewrite relay_writeTheLEDs.
    unfold writeTheLEDs. destruct (useOnboardLED cfg), (useExternalLED cfg); cbn; auto 10. }
  intros H. unfold LEDUpdateAsRequried.
  repeat match goal with |- context [if ?b then _ else _] => destruct b end;
    try exact H; try (apply Hleds; exact H).
Qed.

Lemma FlashRateOfTheLED_LEDUpdateAsRequried cfg w :
  FlashRateOfTheLED (LEDUpdateAsRequried cfg w) = FlashRateOfTheLED w.
Proof.
  assert (forall l w0, FlashRateOfTheLED (writeTheLEDs cfg l w0) = FlashRateOfTheLED w0)
    as Hleds.
  { intros l w0. unfold writeTheLEDs.
    destruct (useOnboardLED cfg), (useExternalLED cfg); reflexivity. }
  unfold LEDUpdateAsRequried.
  repeat match goal with |- context [if ?b then _ else _] => destruct b end;
    cbn; rewrite ?Hleds; reflexivity.
Qed.

Lemma flashForever_keeps cfg elapsed w :
  radioOffAndUnblocked w ->
  radioOffAndUnblocked (flashForever cfg elapsed w) /\
  FlashRateOfTheLED (flashForever cfg elapsed w) = FlashRateOfTheLED w.
Proof.
  revert w. induction elapsed as [|d elapsed IH]; intros w H; [split; [exact H|reflexivity]|].
  cbn. destruct (IH (LEDUpdateAsRequried cfg (advance d w))) as [Hoff Hrate].
  - apply radioOffAndUnblocked_LEDUpdateAsRequried. exact H.
  - split; [exact Hoff|]. rewrite Hrate, FlashRateOfTheLED_LEDUpdateAsRequried.
    reflexivity.
Qed.

(** C7 (as stated) -- A failed negotiation does not boot blocked: with no
    contact wired, negotiation fails and [setup] ends with [NetworkStatus]
    unblocked. *)
Lemma failed_negotiation_boots_unblocked :
  ~ failedNegotiationBootsBlocked sampleSettings unwiredEnv 0.
Proof.
  intros H. apply H; vm_compute; reflexivity.
Qed.

(** C7 (amended) -- When role negotiation fails, [setup] never returns: it
    stays in the loop that only flashes the LED, at the wiring flash rate.
    Nothing was or is done with the radio (station mode not entered, no
    callback registered, no packet sent), the relay stays LOW (de-energized)
    and [NetworkStatus] stays [unblocked]: the device boots with the network
    unblocked. *)
Theorem failed_negotiation_flashes_forever_radio_off_relay_low
    (cfg : Settings) (env : Env) (t0 : Z) :
  fst (negotiation cfg env t0) = false ->
  let r := setup cfg env (powerOn t0) in
  fst r = FlashesForever /\
  snd r = snd (negotiation cfg env t0) /\
  forall elapsed,
    let w := flashForever cfg elapsed (snd r) in
    radioOffAndUnblocked w /\
    FlashRateOfTheLED w = FlashRateOfTheLEDWhenThereIsAWiringProblem.
Proof.
  intros Hfail r.
  assert (r = (FlashesForever, snd (negotiation cfg env t0))) as Hr.
  { subst r. unfold setup. fold (negotiation cfg env t0).
    destruct (negotiation cfg env t0) as [ok w1]. cbn in Hfail. subst ok. reflexivity. }
  rewrite Hr. cbn [fst snd]. split; [reflexivity|]. split; [reflexivity|].
  intros elapsed.
  destruct (flashForever_keeps cfg elapsed (snd (negotiation cfg env t0))) as [Hoff Hrate].
  - apply radioOffAndUnblocked_negotiation.
  - split; [exact Hoff|]. rewrite Hrate.
    apply (setTheRole_false_flashes cfg env (delay_main cfg env)). exact Hfail.
Qed.

Lemma failed_negotiation_flashes_forever_radio_off_relay_low_witness :
  radioOffAndUnblocked
    (flashForever sampleSettings [500; 600; 700] (snd (setup sampleSettings unwiredEnv (powerOn 0)))).
Proof.
  pose proof (failed_negotiation_flashes_forever_radio_off_relay_low sampleSettings
                unwiredEnv 0 eq_refl) as H.
  cbv zeta in H. destruct H as (_ & _ & Hforever).
  apply (Hforever [500; 600; 700]).
Defined.

(** ** The relay and [NetworkStatus] on the Controller *)

Section ControllerInvariant.

Variable cfg : Settings.
Variable env : Env.

Lemma controllerInvariant_ControllerSwitchStatus x w :
  thisIsTheController w = true ->
  controllerInvariant w -> controllerInvariant (set_ControllerSwitchStatus x w).
Proof. intros _ H. exact H. Qed.


Lemma checkEmergencyStopButton_keeps task :
  keepsControllerInvariant (checkEmergencyStopButton env (delay_of cfg env task)).
Proof.
  intros w. apply checkEmergencyStopButton_stable.
  - apply controllerInvariant_stable.
  - intros n w0. apply controllerInvariant_delay.
  - apply controllerInvariant_ControllerSwitchStatus.
Qed.

Lemma provideTheSwitchboxTheNetworkStatus_keeps task :
  keepsControllerInvariant (provideTheSwitchboxTheNetworkStatus env (delay_of cfg env task)).
Proof.
  intros w. apply provideTheSwitchboxTheNetworkStatus_stable.
  - apply controllerInvariant_stable.
  - intros n w0. apply controllerInvariant_delay.
Qed.

Lemma requestTheSwitchboxStatus_keeps task :
  keepsControllerInvariant (requestTheSwitchboxStatus env (delay_of cfg env task)).
Proof.
  intros w. apply requestTheSwitchboxStatus_stable.
  - apply controllerInvariant_stable.
  - intros n w0. apply controllerInvariant_delay.
Qed.


Lemma actionANetworkChangeAsNeeded_keeps task :
  keepsControllerInvariant (actionANetworkChangeAsNeeded cfg env (delay_of cfg env task)).
Proof.
  intros w. apply actionANetworkChangeAsNeeded_stable.
  - apply controllerInvariant_stable.
  - intros n w0. apply controllerInvariant_delay.
  - apply controllerInvariant_actuate.
Qed.

Lemma periodicCheckToEnsureCommunicationsAreOK_keeps task :
  keepsControllerInvariant (periodicCheckToEnsureCommunicationsAreOK env (delay_of cfg env task)).
Proof.
  intros w. apply periodicCheckToEnsureCommunicationsAreOK_stable.
  - apply controllerInvariant_stable.
  - intros n w0. apply controllerInvariant_delay.
  - apply controllerInvariant_ControllerSwitchStatus.
Qed.



Lemma LEDUpdateAsRequried_keeps : keepsControllerInvariant (LEDUpdateAsRequried cfg).
Proof.
  intros w. apply LEDUpdateAsRequried_stable.
  - apply controllerInvariant_stable.
  - apply controllerInvariant_writeTheLEDs.
Qed.

Lemma loop_keeps : keepsControllerInvariant (loop cfg env).
Proof.
  intros w H. unfold loop.
  apply LEDUpdateAsRequried_keeps.
  pose proof (checkEmergencyStopButton_keeps MainTask w H) as H1.
  change (delay_of cfg env MainTask) with (delay_main cfg env) in H1.
  set (w1 := checkEmergencyStopButton env (delay_main cfg env) w) in *.
  destruct H1 as [Hrole1 Hrelay1]. rewrite Hrole1.
  pose proof (actionANetworkChangeAsNeeded_keeps MainTask w1 (conj Hrole1 Hrelay1)) as H2.
  change (delay_of cfg env MainTask) with (delay_main cfg env) in H2.
  set (w2 := actionANetworkChangeAsNeeded cfg env (delay_main cfg env) w1) in *.
  destruct ((thisIsTheController w2 && useASwitchbox cfg) || thisIsTheSwitchbox w2);
    [apply (periodicCheckToEnsureCommunicationsAreOK_keeps MainTask)|]; exact H2.
Qed.

Lemma initializeESPNOW_keeps w :
  controllerInvariant w -> controllerInvariant (snd (initializeESPNOW cfg env w)).
Proof.
  intros [Hrole Hrelay]. unfold initializeESPNOW, initializeWiFi, setMACAddresses.
  destruct (useLongRange cfg); cbn; rewrite Hrole;
    destruct (esp_now_init_ok env), (esp_now_add_peer_ok env); cbn;
    split; assumption.
Qed.

(** After a negotiation that made the device the Controller the relay is LOW
    and the network unblocked. *)
Lemma negotiation_controllerInvariant t0 :
  thisIsTheController (snd (negotiation cfg env t0)) = true ->
  controllerInvariant (snd (negotiation cfg env t0)).
Proof.
  intros Hrole. split; [exact Hrole|].
  destruct (radioOffAndUnblocked_negotiation cfg env t0) as (_ & _ & _ & _ & Hrelay & Hns).
  unfold relayAgrees. rewrite Hrelay, Hns. split; discriminate.
Qed.



End ControllerInvariant.

Lemma BlockNetwork_by_statements cfg env delay blockNow rc w :
  BlockNetwork cfg env delay blockNow rc w =
    let atWrite := BlockNetwork_tests cfg env delay blockNow rc w in
    if fst atWrite
    then BlockNetwork_record blockNow (BlockNetwork_write blockNow (snd atWrite))
    else snd atWrite.
Proof.
  unfold BlockNetwork, BlockNetwork_tests, BlockNetwork_actuate, BlockNetwork_record,
    BlockNetwork_write.
  cbv zeta.
  repeat match goal with
         | |- context [if ?b then _ else _] => destruct b eqn:?; cbn [fst snd]
         end; try reflexivity; try discriminate.
Qed.






(** ** What the callbacks send *)

Ltac split_ifs :=
  repeat first
    [ progress cbn
    | match goal with
      | |- context [if ?b then _ else _] => destruct b eqn:?
      end ].

Lemma BlockNetwork_from_the_Switchbox_sent cfg env delay blockNow w :
  sent (BlockNetwork cfg env delay blockNow false w) = sent w.
Proof.
  unfold BlockNetwork, BlockNetwork_refresh, BlockNetwork_actuate.
  split_ifs; reflexivity.
Qed.

Lemma checkEmergencyStopButton_radio_sent env w :
  sent (checkEmergencyStopButton env delay_radio w) = sent w.
Proof.
  unfold checkEmergencyStopButton, readEmergencyStopButton, delay_radio.
  split_ifs; reflexivity.
Qed.

Lemma provideTheSwitchboxTheNetworkStatus_radio_sent env w :
  exists rest,
    sent (provideTheSwitchboxTheNetworkStatus env delay_radio w) = (sent w ++ rest)%list /\
    (length rest <= 1)%nat /\
    Forall (fun p => isReply (transmission (snd p)) = true) rest.
Proof.
  unfold provideTheSwitchboxTheNetworkStatus, delay_radio.
  destruct (negb (thisIsTheController w)).
  - exists []. cbn. rewrite app_nil_r. auto.
  - eexists [_]. split_ifs; cbn; (split; [reflexivity|]); split; auto.
Qed.

Lemma provideTheControllerTheSwitchboxStatus_radio_sent env w :
  exists rest,
    sent (provideTheControllerTheSwitchboxStatus env delay_radio w) = (sent w ++ rest)%list /\
    (length rest <= 1)%nat /\
    Forall (fun p => isReply (transmission (snd p)) = true) rest.
Proof.
  unfold provideTheControllerTheSwitchboxStatus.
  destruct (negb (thisIsTheSwitchbox w)).
  - exists []. cbn. rewrite app_nil_r. auto.
  - eexists [_]. unfold delay_radio. cbn.
    split_ifs; cbn; rewrite checkEmergencyStopButton_radio_sent;
      (split; [reflexivity|]); split; auto.
Qed.

Lemma OnDataRecv_radio_sent cfg env incomingMessage w :
  let w' := OnDataRecv cfg env delay_radio incomingMessage w in
  exists rest,
    sent w' = (sent w ++ rest)%list /\
    (length rest <= 1)%nat /\
    Forall (fun p => isReply (transmission (snd p)) = true) rest /\
    (isReply (transmission incomingMessage) = true -> rest = []).
Proof.
  intros w'. subst w'. destruct incomingMessage as [kind st].
  unfold OnDataRecv.
  set (w0 := touchBaseWhenAllIsGood (set_FlashRateOfTheLED 0 w)).
  assert (sent w0 = sent w) as Hsent0
    by (subst w0; unfold touchBaseWhenAllIsGood; destruct (thisIsTheController _); reflexivity).
  clearbody w0. rewrite <- Hsent0.
  assert (forall w1, sent w1 = sent w0 ->
            exists rest, sent w1 = (sent w0 ++ rest)%list /\ (length rest <= 1)%nat /\
              Forall (fun p => isReply (transmission (snd p)) = true) rest /\
              (isReply kind = true -> rest = [])) as Hnone.
  { intros w1 H1. exists []. rewrite app_nil_r. cbn. auto. }
  assert (forall w1, isReply kind = false ->
            (exists rest, sent w1 = (sent w0 ++ rest)%list /\ (length rest <= 1)%nat /\
               Forall (fun p => isReply (transmission (snd p)) = true) rest) ->
            exists rest, sent w1 = (sent w0 ++ rest)%list /\ (length rest <= 1)%nat /\
              Forall (fun p => isReply (transmission (snd p)) = true) rest /\
              (isReply kind = true -> rest = [])) as Hone.
  { intros w1 Hk (rest & H1 & H2 & H3). exists rest. repeat split; try assumption.
    intros Hk'. congruence. }
  cbn [transmission status].
  destruct (thisIsTheController w0); destruct kind; decide_kinds.
  all: try (apply Hnone; unfold unknownRequest, commsProblem; split_ifs; reflexivity).
  - apply Hone; [reflexivity|].
    destruct (provideTheSwitchboxTheNetworkStatus_radio_sent env
                (Serial_println "the Switchbox has requested the Contoller provide the network status" w0))
      as (rest & H1 & H2 & H3).
    exists rest. auto.
  - apply Hone; [reflexivity|].
    match goal with |- context [provideTheSwitchboxTheNetworkStatus env delay_radio ?x] =>
      destruct (provideTheSwitchboxTheNetworkStatus_radio_sent env x) as (rest & H1 & H2 & H3);
      exists rest; rewrite H1, BlockNetwork_from_the_Switchbox_sent; auto end.
  - apply Hone; [reflexivity|].
    match goal with |- context [provideTheSwitchboxTheNetworkStatus env delay_radio ?x] =>
      destruct (provideTheSwitchboxTheNetworkStatus_radio_sent env x) as (rest & H1 & H2 & H3);
      exists rest; rewrite H1, BlockNetwork_from_the_Switchbox_sent; auto end.
  - apply Hone; [reflexivity|].
    match goal with |- context [provideTheControllerTheSwitchboxStatus env delay_radio ?x] =>
      destruct (provideTheControllerTheSwitchboxStatus_radio_sent env x) as (rest & H1 & H2 & H3);
      exists rest; auto end.
Qed.

(** X1 -- A callback for a received message hands at most one packet to the
    driver, and that packet is a reply ([networkStatusReply] or
    [switchboxStatusReply]); a received reply is never answered.  So no
    message received can start an exchange of its own. *)
Theorem OnDataRecv_sends_at_most_one_reply
    (cfg : Settings) (env : Env) (incomingMessage : transmission_Structure) (w : World) :
  let w' := OnDataRecv cfg env delay_radio incomingMessage w in
  exists rest,
    sent w' = (sent w ++ rest)%list /\
    (length rest <= 1)%nat /\
    Forall (fun p => isReply (transmission (snd p)) = true) rest /\
    (isReply (transmission incomingMessage) = true -> rest = []).
Proof. apply OnDataRecv_radio_sent. Qed.

Lemma sentGrows_refl w : sentGrows w w.
Proof. exists []. symmetry. apply app_nil_r. Qed.

Lemma sentGrows_same w w' : sent w' = sent w -> sentGrows w w'.
Proof. intros H. exists []. rewrite app_nil_r. exact H. Qed.

Lemma sentGrows_trans w1 w2 w3 : sentGrows w1 w2 -> sentGrows w2 w3 -> sentGrows w1 w3.
Proof.
  intros [r1 H1] [r2 H2]. exists (r1 ++ r2)%list. rewrite H2, H1. symmetry. apply app_assoc.
Qed.

Lemma OnDataSent_sent success w : sent (OnDataSent success w) = sent w.
Proof.
  unfold OnDataSent, touchBaseWhenAllIsGood, commsProblem. split_ifs; reflexivity.
Qed.

Lemma runCallback_sentGrows cfg env w ev : sentGrows w (runCallback cfg env w ev).
Proof.
  destruct ev as [success|incomingMessage]; cbn.
  - destruct (send_cb w); [|apply sentGrows_refl]. apply sentGrows_same, OnDataSent_sent.
  - destruct (recv_cb w); [|apply sentGrows_refl].
    destruct (OnDataRecv_radio_sent cfg env incomingMessage w)
      as (rest & Hrest & _).
    exists rest. exact Hrest.
Qed.

Lemma delay_of_sentGrows cfg env task n w : sentGrows w (delay_of cfg env task n w).
Proof.
  destruct task; [|apply sentGrows_same; reflexivity].
  cbn. unfold delay_main.
  assert (forall events w0, sentGrows w0 (fold_left (runCallback cfg env) events w0)) as Hfold.
  { induction events as [|ev events IH]; intros w0; [apply sentGrows_refl|].
    cbn. eapply sentGrows_trans; [apply runCallback_sentGrows | apply IH]. }
  destruct (Hfold (radio_during env (clock w) n) (advance n w)) as [rest Hrest].
  exists rest. exact Hrest.
Qed.

(** ** The status request of the Controller *)

Lemma waitForTheSwitchbox_clock cfg env task turns timeout w :
  let w' := waitForTheSwitchbox (delay_of cfg env task) turns timeout w in
  clock w <= clock w' <= clock w + 10 * Z.of_nat turns.
Proof.
  revert w. induction turns as [|turns IH]; intros w.
  - cbn. lia.
  - cbv zeta. rewrite waitForTheSwitchbox_turn.
    destruct (stillWaiting timeout w); [|lia].
    specialize (IH (delay_of cfg env task 10 w)). cbv zeta in IH.
    rewrite clock_delay_of in IH. lia.
Qed.

Lemma waitForTheSwitchbox_sentGrows cfg env task turns timeout w :
  sentGrows w (waitForTheSwitchbox (delay_of cfg env task) turns timeout w).
Proof.
  revert w. induction turns as [|turns IH]; intros w; [apply sentGrows_refl|].
  rewrite waitForTheSwitchbox_turn.
  destruct (stillWaiting timeout w); [|apply sentGrows_refl].
  eapply sentGrows_trans; [apply delay_of_sentGrows | apply IH].
Qed.

(** X2 -- [requestTheSwitchboxStatus] on the Controller, on either task and
    whatever the radio does: the first packet it hands to the driver is the
    [requestSwitchboxStatus] for the Switchbox; it returns at most 2010 ms
    later (10 ms for the send, 2000 ms for the reply); if on return the
    status of the Switchbox is still [unknown] the communications alarm is
    set (flash rate 333); and if the driver refuses the packet it returns at
    once, with the status [unknown] and the alarm set. *)
Theorem requestTheSwitchboxStatus_returns_within_2010_ms
    (cfg : Settings) (env : Env) (task : Task) (w : World) :
  thisIsTheController w = true ->
  let w' := requestTheSwitchboxStatus env (delay_of cfg env task) w in
  (exists rest,
     sent w' = (sent w ++ (remoteSwitchMACAddress,
                           mkTransmission requestSwitchboxStatus unknown) :: rest)%list) /\
  clock w <= clock w' <= clock w + 2010 /\
  (SwitchBoxSwitchStatus w' = unknown -> FlashRateOfTheLED w' = 333) /\
  (send_accepted env (clock w) = false ->
   clock w' = clock w /\ SwitchBoxSwitchStatus w' = unknown /\ FlashRateOfTheLED w' = 333).
Proof.
  intros Hrole w'. subst w'. unfold requestTheSwitchboxStatus. rewrite Hrole.
  cbn [negb]. cbv iota. unfold esp_now_send.
  set (w1 := set_sent _ (set_SwitchBoxSwitchStatus unknown w)).
  assert (clock w1 = clock w) as Hclock1 by reflexivity.
  assert (sent w1 = (sent w ++ [(remoteSwitchMACAddress,
                                 mkTransmission requestSwitchboxStatus unknown)])%list)
    as Hsent1 by reflexivity.
  assert (SwitchBoxSwitchStatus w1 = unknown) as Hsb1 by reflexivity.
  change (clock (set_SwitchBoxSwitchStatus unknown w)) with (clock w).
  set (w2 := if send_accepted env (clock w)
             then
               let w0 := delay_of cfg env task 10 w1 in
               if packedSentSuccesfully w0
               then let timeout := ulong (millis w0 + 2000) in
                    waitForTheSwitchbox (delay_of cfg env task) 200 timeout w0
               else w0
             else w1).
  assert (sentGrows w1 w2 /\ clock w <= clock w2 <= clock w + 2010 /\
          (send_accepted env (clock w) = false -> w2 = w1)) as (Hgrow & Hclock & Hrefused).
  { subst w2. destruct (send_accepted env (clock w)).
    - cbv zeta. destruct (packedSentSuccesfully (delay_of cfg env task 10 w1)).
      + split; [|split; [|discriminate]].
        * eapply sentGrows_trans;
            [apply delay_of_sentGrows | apply waitForTheSwitchbox_sentGrows].
        * pose proof (waitForTheSwitchbox_clock cfg env task 200
                        (ulong (millis (delay_of cfg env task 10 w1) + 2000))
                        (delay_of cfg env task 10 w1)) as Hwait.
          cbv zeta in Hwait. rewrite clock_delay_of, Hclock1 in Hwait. lia.
      + split; [apply delay_of_sentGrows|]. split; [|discriminate].
        rewrite clock_delay_of, Hclock1. lia.
    - split; [apply sentGrows_refl|]. split; [lia | reflexivity]. }
  clearbody w2.
  assert (forall t, sent (Serial_println t w2) = sent w2) as Hprint by reflexivity.
  destruct Hgrow as [rest Hrest]. rewrite Hsent1, <- app_assoc in Hrest. cbn in Hrest.
  destruct (status_eqb (SwitchBoxSwitchStatus w2) blocked) eqn:Hb;
    [|destruct (status_eqb (SwitchBoxSwitchStatus w2) unblocked) eqn:Hu;
      [|destruct (status_eqb (SwitchBoxSwitchStatus w2) unknown) eqn:Hk]].
  - apply status_eqb_eq in Hb. cbn. split; [exists rest; exact Hrest|].
    split; [exact Hclock|]. split; [congruence|].
    intros Href. rewrite (Hrefused Href), Hsb1 in Hb. discriminate Hb.
  - apply status_eqb_eq in Hu. cbn. split; [exists rest; exact Hrest|].
    split; [exact Hclock|]. split; [congruence|].
    intros Href. rewrite (Hrefused Href), Hsb1 in Hu. discriminate Hu.
  - cbn. split; [exists rest; exact Hrest|]. split; [exact Hclock|].
    split; [reflexivity|]. intros Href. rewrite (Hrefused Href). auto.
  - exfalso. apply status_eqb_neq in Hb, Hu, Hk.
    destruct (SwitchBoxSwitchStatus w2); congruence.
Qed.

Lemma requestTheSwitchboxStatus_returns_within_2010_ms_witness :
  let w' := requestTheSwitchboxStatus quietControllerEnv
              (delay_of sampleSettings quietControllerEnv RadioTask) unblockedController in
  clock w' <= clock unblockedController + 2010 /\
  (SwitchBoxSwitchStatus w' = unknown -> FlashRateOfTheLED w' = 333).
Proof.
  pose proof (requestTheSwitchboxStatus_returns_within_2010_ms sampleSettings
                quietControllerEnv RadioTask unblockedController eq_refl) as H.
  cbv zeta in H. destruct H as (_ & [_ Hclock] & Hflash & _).
  split; [exact Hclock | exact Hflash].
Defined.

(** ** Requests and replies *)

Lemma checkEmergencyStopButton_own cfg env task w :
  let w' := checkEmergencyStopButton env (delay_of cfg env task) w in
  ownSwitchStatus w' =
    (if readsOpenTwice env (ownNormallyClosedPin w) (clock w)
        && readsClosedTwice env (ownNormallyOpenedPin w) (clock w + 10)
     then blocked else unblocked) /\
  thisIsTheController w' = thisIsTheController w.
Proof.
  cbv zeta. unfold checkEmergencyStopButton.
  fold (ownNormallyClosedPin w). fold (ownNormallyOpenedPin w).
  destruct (readEmergencyStopButton_debounced cfg env task
              (ownNormallyClosedPin w) (ownNormallyOpenedPin w) w) as [Htests Hrole].
  cbv zeta in Htests, Hrole.
  destruct (readEmergencyStopButton env (delay_of cfg env task)
              (ownNormallyClosedPin w) (ownNormallyOpenedPin w) w)
    as [[opened closed] w1].
  cbn in Htests, Hrole. rewrite <- Htests. unfold ownSwitchStatus.
  rewrite Hrole. destruct (thisIsTheController w) eqn:Hc;
    destruct (opened && closed); cbn; rewrite Hrole; split; reflexivity.
Qed.

Lemma checkEmergencyStopButton_radio_frame env w :
  let w' := checkEmergencyStopButton env delay_radio w in
  thisIsTheSwitchbox w' = thisIsTheSwitchbox w /\ sent w' = sent w /\
  NetworkStatus w' = NetworkStatus w /\ pin_out w' = pin_out w.
Proof.
  cbv zeta. unfold checkEmergencyStopButton, readEmergencyStopButton, delay_radio.
  split_ifs; auto.
Qed.

(** What the Switchbox does with a [requestSwitchboxStatus]. *)
Lemma OnDataRecv_requestSwitchboxStatus cfg env st s :
  thisIsTheController s = false ->
  thisIsTheSwitchbox s = true ->
  let s' := OnDataRecv cfg env delay_radio (mkTransmission requestSwitchboxStatus st) s in
  let sampled :=
    if readsOpenTwice env swichboxNormallyClosedConnectionPin (clock s)
       && readsClosedTwice env swtichboxNormallyOpenedConnectionPin (clock s + 10)
    then blocked else unblocked in
  SwitchBoxSwitchStatus s' = sampled /\
  sent s' = (sent s ++ [(controllerMACAddress,
                          mkTransmission switchboxStatusReply sampled)])%list /\
  pin_out s' = pin_out s /\ NetworkStatus s' = NetworkStatus s.
Proof.
  intros Hrole Hsb. cbv zeta. unfold OnDataRecv, touchBaseWhenAllIsGood.
  cbn. rewrite Hrole. cbn. rewrite Hrole. decide_kinds.
  set (s0 := Serial_println _ _).
  assert (thisIsTheController s0 = false) as Hrole0 by exact Hrole.
  assert (thisIsTheSwitchbox s0 = true) as Hsb0 by exact Hsb.
  change (clock s) with (clock s0). change (sent s) with (sent s0).
  change (pin_out s) with (pin_out s0). change (NetworkStatus s) with (NetworkStatus s0).
  clearbody s0. unfold provideTheControllerTheSwitchboxStatus. rewrite Hsb0. cbn [negb].
  cbv iota.
  destruct (checkEmergencyStopButton_own cfg env RadioTask s0) as [Hown Hrole1].
  destruct (checkEmergencyStopButton_radio_frame env s0) as (Hsb1 & Hsent1 & Hns1 & Hpins1).
  cbv zeta in *. change (delay_of cfg env RadioTask) with delay_radio in *.
  unfold ownSwitchStatus, ownNormallyClosedPin, ownNormallyOpenedPin in Hown.
  rewrite Hrole1, Hrole0 in Hown.
  set (s1 := checkEmergencyStopButton env delay_radio s0) in *. clearbody s1.
  unfold delay_radio. split_ifs; rewrite ?Hsent1, ?Hown, ?Hns1, ?Hpins1; auto.
Qed.

(** What the Controller does with a [switchboxStatusReply], and the Switchbox
    with a [networkStatusReply]: it records the status received. *)
Lemma OnDataRecv_switchboxStatusReply cfg env st c :
  thisIsTheController c = true ->
  let c' := OnDataRecv cfg env delay_radio (mkTransmission switchboxStatusReply st) c in
  SwitchBoxSwitchStatus c' = st /\ FlashRateOfTheLED c' = 0 /\
  pin_out c' = pin_out c /\ NetworkStatus c' = NetworkStatus c /\
  ControllerSwitchStatus c' = ControllerSwitchStatus c /\
  sent c' = sent c /\ clock c' = clock c.
Proof.
  intros Hrole. cbv zeta. unfold OnDataRecv, touchBaseWhenAllIsGood.
  cbn. rewrite Hrole. cbn. rewrite Hrole. decide_kinds.
  destruct (status_eqb st blocked); cbn; auto 10.
Qed.

Lemma OnDataRecv_networkStatusReply cfg env st s :
  thisIsTheController s = false ->
  let s' := OnDataRecv cfg env delay_radio (mkTransmission networkStatusReply st) s in
  NetworkStatus s' = st /\ FlashRateOfTheLED s' = 0 /\
  pin_out s' = pin_out s /\ SwitchBoxSwitchStatus s' = SwitchBoxSwitchStatus s /\
  sent s' = sent s /\ clock s' = clock s.
Proof.
  intros Hrole. cbv zeta. unfold OnDataRecv, touchBaseWhenAllIsGood.
  cbn. rewrite Hrole. cbn. rewrite Hrole. decide_kinds.
  destruct (status_eqb st blocked); cbn; auto 10.
Qed.

(** X3 -- The switch status round trip.  A Switchbox that receives
    [requestSwitchboxStatus] samples its button afresh and answers the
    Controller with one [switchboxStatusReply] that carries [blocked] if the
    two debounced tests pass and [unblocked] otherwise; a Controller that
    receives this reply has [SwitchBoxSwitchStatus] equal to the status the
    Switchbox sampled, its alarm cleared, and its relay, [NetworkStatus] and
    own switch status untouched. *)
Theorem switch_status_round_trip
    (cfgS cfgC : Settings) (envS envC : Env) (st : device_Status) (s c : World) :
  thisIsTheController s = false ->
  thisIsTheSwitchbox s = true ->
  thisIsTheController c = true ->
  let s' := OnDataRecv cfgS envS delay_radio (mkTransmission requestSwitchboxStatus st) s in
  exists reply,
    sent s' = (sent s ++ [(controllerMACAddress, reply)])%list /\
    transmission reply = switchboxStatusReply /\
    status reply = SwitchBoxSwitchStatus s' /\
    (status reply = blocked <->
     readsOpenTwice envS swichboxNormallyClosedConnectionPin (clock s) = true /\
     readsClosedTwice envS swtichboxNormallyOpenedConnectionPin (clock s + 10) = true) /\
    (status reply <> blocked -> status reply = unblocked) /\
    let c' := OnDataRecv cfgC envC delay_radio reply c in
    SwitchBoxSwitchStatus c' = SwitchBoxSwitchStatus s' /\
    FlashRateOfTheLED c' = 0 /\
    pin_out c' = pin_out c /\ NetworkStatus c' = NetworkStatus c /\
    ControllerSwitchStatus c' = ControllerSwitchStatus c /\ sent c' = sent c.
Proof.
  intros HroleS Hsb HroleC s'.
  destruct (OnDataRecv_requestSwitchboxStatus cfgS envS st s HroleS Hsb)
    as (Hstatus & Hsent & _).
  cbv zeta in Hstatus, Hsent. fold s' in Hstatus, Hsent.
  eexists (mkTransmission switchboxStatusReply _).
  split; [exact Hsent|]. split; [reflexivity|]. cbn [status]. rewrite Hstatus.
  split; [reflexivity|]. rewrite <- andb_true_iff.
  split; [|split].
  - destruct (_ && _); split; (reflexivity || discriminate).
  - destruct (_ && _); [intros H; contradiction H|]; reflexivity.
  - destruct (OnDataRecv_switchboxStatusReply cfgC envC
                (if readsOpenTwice envS swichboxNormallyClosedConnectionPin (clock s)
                    && readsClosedTwice envS swtichboxNormallyOpenedConnectionPin
                         (clock s + 10)
                 then blocked else unblocked) c HroleC)
      as (H1 & H2 & H3 & H4 & H5 & H6 & _).
    cbv zeta in *. auto 10.
Qed.

Lemma switch_status_round_trip_witness :
  exists reply,
    sent (OnDataRecv sampleSettings quietSwitchboxEnv delay_radio
            (mkTransmission requestSwitchboxStatus unknown) runningSwitchbox) =
      (sent runningSwitchbox ++ [(controllerMACAddress, reply)])%list /\
    transmission reply = switchboxStatusReply /\
    SwitchBoxSwitchStatus
      (OnDataRecv sampleSettings quietControllerEnv delay_radio reply unblockedController) =
    SwitchBoxSwitchStatus
      (OnDataRecv sampleSettings quietSwitchboxEnv delay_radio
         (mkTransmission requestSwitchboxStatus unknown) runningSwitchbox).
Proof.
  pose proof (switch_status_round_trip sampleSettings sampleSettings quietSwitchboxEnv
                quietControllerEnv unknown runningSwitchbox unblockedController
                eq_refl eq_refl eq_refl) as H.
  cbv zeta in H. destruct H as (reply & Hsent & Hkind & _ & _ & _ & Hsame & _).
  exists reply. split; [exact Hsent|]. split; [exact Hkind | exact Hsame].
Defined.

Lemma provideTheSwitchboxTheNetworkStatus_first_packet cfg env task c :
  thisIsTheController c = true ->
  exists rest,
    sent (provideTheSwitchboxTheNetworkStatus env (delay_of cfg env task) c) =
    (sent c ++ (remoteSwitchMACAddress,
                mkTransmission networkStatusReply (NetworkStatus c)) :: rest)%list.
Proof.
  intros Hrole. unfold provideTheSwitchboxTheNetworkStatus. rewrite Hrole.
  cbn [negb]. cbv iota. unfold esp_now_send.
  set (c1 := set_sent _ _).
  assert (sent c1 = (sent c ++ [(remoteSwitchMACAddress,
                                 mkTransmission networkStatusReply (NetworkStatus c))])%list)
    as Hsent1 by (subst c1; destruct (status_eqb _ blocked); reflexivity).
  clearbody c1.
  assert (forall w, sentGrows c1 w ->
            exists rest, sent w =
              (sent c ++ (remoteSwitchMACAddress,
                          mkTransmission networkStatusReply (NetworkStatus c)) :: rest)%list)
    as Hgrow.
  { intros w [rest Hrest]. exists rest. rewrite Hrest, Hsent1, <- app_assoc. reflexivity. }
  destruct (send_accepted env _).
  - cbv zeta. pose proof (delay_of_sentGrows cfg env task 10 c1) as Hdelay.
    destruct (negb (packedSentSuccesfully (delay_of cfg env task 10 c1)));
      apply Hgrow; [|exact Hdelay].
    destruct Hdelay as [rest Hrest]. exists rest. exact Hrest.
  - apply Hgrow. apply sentGrows_same. reflexivity.
Qed.

(** X4 -- The network status round trip.  Whenever the Controller provides
    its network status (after a change of its own switch, in answer to a
    request, or as a touch-base), on either task, the first packet it hands
    to the driver is a [networkStatusReply] for the Switchbox that carries
    its [NetworkStatus]; a Switchbox that receives a [networkStatusReply]
    records the status it carries as its own [NetworkStatus], clears its
    alarm, sends nothing and drives no pin. *)
Theorem network_status_round_trip
    (cfgC cfgS : Settings) (envC envS : Env) (task : Task) (c s : World) :
  thisIsTheController c = true ->
  thisIsTheController s = false ->
  let c' := provideTheSwitchboxTheNetworkStatus envC (delay_of cfgC envC task) c in
  exists reply rest,
    sent c' = (sent c ++ (remoteSwitchMACAddress, reply) :: rest)%list /\
    reply = mkTransmission networkStatusReply (NetworkStatus c) /\
    let s' := OnDataRecv cfgS envS delay_radio reply s in
    NetworkStatus s' = NetworkStatus c /\ FlashRateOfTheLED s' = 0 /\
    pin_out s' = pin_out s /\ sent s' = sent s /\
    SwitchBoxSwitchStatus s' = SwitchBoxSwitchStatus s.
Proof.
  intros HroleC HroleS c'.
  destruct (provideTheSwitchboxTheNetworkStatus_first_packet cfgC envC task c HroleC)
    as [rest Hrest].
  exists (mkTransmission networkStatusReply (NetworkStatus c)), rest.
  split; [exact Hrest|]. split; [reflexivity|].
  destruct (OnDataRecv_networkStatusReply cfgS envS (NetworkStatus c) s HroleS)
    as (H1 & H2 & H3 & H4 & H5 & _).
  cbv zeta in *. auto 10.
Qed.

Lemma network_status_round_trip_witness :
  exists reply rest,
    sent (provideTheSwitchboxTheNetworkStatus quietControllerEnv
            (delay_of sampleSettings quietControllerEnv MainTask) blockedController) =
      (sent blockedController ++ (remoteSwitchMACAddress, reply) :: rest)%list /\
    NetworkStatus (OnDataRecv sampleSettings quietSwitchboxEnv delay_radio reply
                     runningSwitchbox) = NetworkStatus blockedController.
Proof.
  pose proof (network_status_round_trip sampleSettings sampleSettings quietControllerEnv
                quietSwitchboxEnv MainTask blockedController runningSwitchbox
                eq_refl eq_refl) as H.
  cbv zeta in H. destruct H as (reply & rest & Hsent & _ & Hns & _).
  exists reply, rest. split; [exact Hsent | exact Hns].
Defined.


(** ** Properties kept by the procedures that only pass messages

    As [Stability], for properties that may depend on the statuses last acted
    upon and on the state of the LED, which these procedures do not write,
    and with the unblocking write of the gate taken after its veto tests. *)

Section Keeping.

Variable cfg : Settings.
Variable env : Env.
Variable delay : Z -> World -> World.
Variable P : World -> Prop.

Hypothesis P_kept : Kept P.
Hypothesis P_delay : forall n w, P w -> P (delay n w).
Hypothesis P_ControllerSwitchStatus :
  forall x w, thisIsTheController w = true -> P w -> P (set_ControllerSwitchStatus x w).
Hypothesis P_block : forall w, P w -> P (BlockNetwork_actuate true w).
Hypothesis P_unblock :
  forall w, P w ->
    (useASwitchbox cfg = true ->
     ControllerSwitchStatus w <> blocked /\ SwitchBoxSwitchStatus w <> blocked) ->
    P (BlockNetwork_actuate false w).
Hypothesis P_NetworkStatus :
  forall x w, thisIsTheController w = false -> P w -> P (set_NetworkStatus x w).

Lemma keep_serial x w : P w -> P (set_serial x w).
Proof. apply (kept_serial P P_kept). Qed.

Lemma keep_FlashRateOfTheLED x w : P w -> P (set_FlashRateOfTheLED x w).
Proof. apply (kept_FlashRateOfTheLED P P_kept). Qed.

Lemma keep_nextTouchBaseTimeTarget x w : P w -> P (set_nextTouchBaseTimeTarget x w).
Proof. apply (kept_nextTouchBaseTimeTarget P P_kept). Qed.

Lemma keep_SwitchBoxSwitchStatus x w : P w -> P (set_SwitchBoxSwitchStatus x w).
Proof. apply (kept_SwitchBoxSwitchStatus P P_kept). Qed.

Lemma keep_packedSentSuccesfully x w : P w -> P (set_packedSentSuccesfully x w).
Proof. apply (kept_packedSentSuccesfully P P_kept). Qed.

Lemma keep_sent x w : P w -> P (set_sent x w).
Proof. apply (kept_sent P P_kept). Qed.

Local Hint Resolve keep_serial keep_FlashRateOfTheLED keep_nextTouchBaseTimeTarget
  keep_SwitchBoxSwitchStatus keep_packedSentSuccesfully keep_sent : core.

Ltac split_cases :=
  repeat match goal with
         | |- context [if ?b then _ else _] => destruct b eqn:?
         | |- context [let '(_, _) := ?x in _] => destruct x eqn:?
         end.

Lemma Serial_print_kept t w : P w -> P (Serial_print t w).
Proof. unfold Serial_print. auto. Qed.

Lemma Serial_println_kept t w : P w -> P (Serial_println t w).
Proof. unfold Serial_println. auto. Qed.

Lemma commsProblem_kept w : P w -> P (commsProblem w).
Proof. unfold commsProblem. auto. Qed.

Local Hint Resolve Serial_print_kept Serial_println_kept commsProblem_kept : core.

Lemma readEmergencyStopButton_kept nc no w :
  P w -> P (snd (readEmergencyStopButton env delay nc no w)).
Proof. intros. unfold readEmergencyStopButton. split_cases; cbn; auto. Qed.

Lemma checkEmergencyStopButton_kept w :
  P w -> P (checkEmergencyStopButton env delay w).
Proof.
  intros H. unfold checkEmergencyStopButton.
  pose proof (readEmergencyStopButton_kept
                (if thisIsTheController w then controllerNormallyClosedConnectionPin
                 else swichboxNormallyClosedConnectionPin)
                (if thisIsTheController w then controllerNormallyOpenedConnectionPin
                 else swtichboxNormallyOpenedConnectionPin) w H) as Hread.
  destruct (readEmergencyStopButton _ _ _ _ w) as [[opened closed] w1].
  cbn in Hread. split_cases; auto.
Qed.

Lemma provideTheControllerTheSwitchboxStatus_kept w :
  P w -> P (provideTheControllerTheSwitchboxStatus env delay w).
Proof.
  intros H. unfold provideTheControllerTheSwitchboxStatus.
  pose proof (checkEmergencyStopButton_kept w H).
  cbn. split_cases; auto 10.
Qed.

Lemma provideTheSwitchboxTheNetworkStatus_kept w :
  P w -> P (provideTheSwitchboxTheNetworkStatus env delay w).
Proof.
  intros H. unfold provideTheSwitchboxTheNetworkStatus. cbn. split_cases; auto 10.
Qed.

Lemma waitForTheSwitchbox_kept turns timeout w :
  P w -> P (waitForTheSwitchbox delay turns timeout w).
Proof.
  revert w. induction turns as [|turns IH]; intros w H; [exact H|].
  rewrite waitForTheSwitchbox_turn. destruct (stillWaiting timeout w); auto.
Qed.

Lemma requestTheSwitchboxStatus_kept w :
  P w -> P (requestTheSwitchboxStatus env delay w).
Proof.
  intros H. unfold requestTheSwitchboxStatus. cbn.
  pose proof waitForTheSwitchbox_kept.
  split_cases; auto 10.
Qed.

Lemma BlockNetwork_kept blockNow rc w :
  P w -> P (BlockNetwork cfg env delay blockNow rc w).
Proof.
  intros H. unfold BlockNetwork.
  destruct (negb (thisIsTheController w)); [auto|].
  destruct blockNow; cbn [negb andb].
  - rewrite andb_false_r. destruct (status_eqb _ blocked); [auto|].
    apply P_block. auto.
  - destruct (status_eqb _ unblocked); [auto|].
    destruct (useASwitchbox cfg) eqn:Hcfg; cbn [andb].
    + set (c := BlockNetwork_refresh env delay rc _).
      assert (P c) as Hc.
      { subst c. unfold BlockNetwork_refresh.
        destruct rc; [apply requestTheSwitchboxStatus_kept|]; auto. }
      clearbody c.
      destruct (status_eqb (ControllerSwitchStatus c) blocked) eqn:Hcs; [auto|].
      destruct (status_eqb (SwitchBoxSwitchStatus c) blocked) eqn:Hsb; [auto|].
      apply P_unblock; [exact Hc|]. intros _.
      split; apply status_eqb_neq; assumption.
    + apply P_unblock; [auto | discriminate].
Qed.

Lemma touchBaseWhenAllIsGood_kept w : P w -> P (touchBaseWhenAllIsGood w).
Proof. intros H. unfold touchBaseWhenAllIsGood. split_cases; auto. Qed.

Lemma unknownRequest_kept w : P w -> P (unknownRequest w).
Proof. unfold unknownRequest. auto. Qed.

Lemma OnDataSent_kept success w : P w -> P (OnDataSent success w).
Proof.
  intros H. unfold OnDataSent. pose proof touchBaseWhenAllIsGood_kept.
  cbn. split_cases; auto 10.
Qed.

Lemma OnDataRecv_kept incomingMessage w :
  (forall w0, thisIsTheController w0 = false -> P w0 ->
              P (provideTheControllerTheSwitchboxStatus env delay w0)) ->
  P w -> P (OnDataRecv cfg env delay incomingMessage w).
Proof.
  intros Hswitchbox H. unfold OnDataRecv.
  assert (P (touchBaseWhenAllIsGood (set_FlashRateOfTheLED 0 w))) as H0
    by (apply touchBaseWhenAllIsGood_kept; auto).
  set (w0 := touchBaseWhenAllIsGood (set_FlashRateOfTheLED 0 w)) in *. clearbody w0.
  pose proof BlockNetwork_kept. pose proof provideTheSwitchboxTheNetworkStatus_kept.
  pose proof unknownRequest_kept.
  split_cases; auto 10.
Qed.

End Keeping.

Section TaskKeeping.

Variable cfg : Settings.
Variable env : Env.
Variable P : World -> Prop.

Hypothesis P_kept : Kept P.
Hypothesis P_block : forall w, P w -> P (BlockNetwork_actuate true w).
Hypothesis P_unblock :
  forall w, P w ->
    (useASwitchbox cfg = true ->
     ControllerSwitchStatus w <> blocked /\ SwitchBoxSwitchStatus w <> blocked) ->
    P (BlockNetwork_actuate false w).
Hypothesis P_NetworkStatus :
  forall x w, thisIsTheController w = false -> P w -> P (set_NetworkStatus x w).
Hypothesis P_answer :
  forall w, thisIsTheController w = false -> P w ->
            P (provideTheControllerTheSwitchboxStatus env delay_radio w).

Lemma delay_radio_kept n w : P w -> P (delay_radio n w).
Proof. unfold delay_radio, advance. apply (kept_clock P P_kept). Qed.

Lemma runCallback_kept w ev : P w -> P (runCallback cfg env w ev).
Proof.
  intros H. destruct ev as [success|incomingMessage]; cbn.
  - destruct (send_cb w); [|exact H]. apply (OnDataSent_kept P P_kept); exact H.
  - destruct (recv_cb w); [|exact H].
    apply (OnDataRecv_kept cfg env delay_radio P P_kept delay_radio_kept
             P_block P_unblock P_NetworkStatus); [exact P_answer | exact H].
Qed.

Lemma delay_main_kept n w : P w -> P (delay_main cfg env n w).
Proof.
  intros H. unfold delay_main. apply (kept_clock P P_kept).
  assert (forall events w0, P w0 -> P (fold_left (runCallback cfg env) events w0)) as Hfold.
  { induction events as [|ev events IH]; intros w0 H0; cbn; [exact H0|].
    apply IH, runCallback_kept, H0. }
  apply Hfold. unfold advance. apply (kept_clock P P_kept), H.
Qed.

Lemma delay_of_kept task n w : P w -> P (delay_of cfg env task n w).
Proof. destruct task; [apply delay_main_kept | apply delay_radio_kept]. Qed.

End TaskKeeping.

(** ** The edge detectors of the two switches *)

Lemma lastSwitchBoxSwitchStatus_delay_of cfg env task n w :
  lastSwitchBoxSwitchStatus (delay_of cfg env task n w) = lastSwitchBoxSwitchStatus w.
Proof.
  set (P := fun w0 : World => lastSwitchBoxSwitchStatus w0 = lastSwitchBoxSwitchStatus w).
  assert (Kept P) as Hkept by (split; intros; assumption).
  assert (forall b w0, P w0 -> P (BlockNetwork_actuate b w0)) as Hgate
    by (intros [|] w0 H0; exact H0).
  apply (delay_of_kept cfg env P Hkept).
  - apply Hgate.
  - intros w0 H0 _. apply Hgate, H0.
  - intros x w0 _ H0. exact H0.
  - intros w0 _ H0.
    apply (provideTheControllerTheSwitchboxStatus_kept env delay_radio P Hkept);
      [apply (delay_radio_kept P Hkept) | intros x w1 _ H1; exact H1 | exact H0].
  - reflexivity.
Qed.

Lemma requestToBlockOrUnblockNetwork_first_packet cfg env task b s :
  thisIsTheSwitchbox s = true ->
  let s' := requestToBlockOrUnblockNetwork env (delay_of cfg env task) b s in
  lastSwitchBoxSwitchStatus s' = lastSwitchBoxSwitchStatus s /\
  exists rest,
    sent s' =
    (sent s ++ (controllerMACAddress,
                mkTransmission (if b then requestControllerBlockNetwork
                                else requestControllerUnblockNetwork) unknown) :: rest)%list.
Proof.
  intros Hsb. cbv zeta. unfold requestToBlockOrUnblockNetwork. rewrite Hsb.
  cbn [negb]. cbv iota. unfold esp_now_send.
  set (kind := if b then requestControllerBlockNetwork else requestControllerUnblockNetwork).
  assert (exists s1, lastSwitchBoxSwitchStatus s1 = lastSwitchBoxSwitchStatus s /\
                     sent s1 = sent s /\
                     (if b
                      then (requestControllerBlockNetwork,
                            Serial_println
                              "The Switchbox is asking the Controller to block the network" s)
                      else (requestControllerUnblockNetwork,
                            Serial_println
                              "The Switchbox is asking the Controller to unblock the network" s))
                     = (kind, s1)) as (s1 & Hlast1 & Hsent1 & ->).
  { exists (Serial_println
              (if b then "The Switchbox is asking the Controller to block the network"
               else "The Switchbox is asking the Controller to unblock the network") s).
    subst kind. destruct b; repeat split; reflexivity. }
  cbv iota beta. rewrite <- Hlast1, <- Hsent1.
  set (s2 := set_sent _ s1).
  assert (lastSwitchBoxSwitchStatus s2 = lastSwitchBoxSwitchStatus s1) as Hlast2 by reflexivity.
  assert (sent s2 = (sent s1 ++ [(controllerMACAddress, mkTransmission kind unknown)])%list)
    as Hsent2 by reflexivity.
  clearbody s2.
  assert (forall w, sentGrows s2 w ->
            exists rest, sent w =
              (sent s1 ++ (controllerMACAddress, mkTransmission kind unknown) :: rest)%list)
    as Hgrow.
  { intros w [rest Hrest]. exists rest. rewrite Hrest, Hsent2, <- app_assoc. reflexivity. }
  destruct (send_accepted env _).
  - cbv zeta. pose proof (delay_of_sentGrows cfg env task 10 s2) as Hdelay.
    pose proof (lastSwitchBoxSwitchStatus_delay_of cfg env task 10 s2) as Hlast.
    destruct (negb (packedSentSuccesfully (delay_of cfg env task 10 s2))).
    + split; [cbn; congruence|]. apply Hgrow. destruct Hdelay as [rest Hrest].
      exists rest. exact Hrest.
    + split; [congruence|]. apply Hgrow, Hdelay.
  - split; [cbn; congruence|]. apply Hgrow, sentGrows_same. reflexivity.
Qed.

(** X5 -- [requestANetworkChangeAsNeeded] on the Switchbox acts on a change
    of the switch only.  If the status of the switch is the one last acted
    upon, nothing happens.  Otherwise the first packet handed to the driver
    is a request to the Controller: to block if the status is [blocked], to
    unblock for any other status ([unknown] included).  Either way the status
    is then the one last acted upon, whatever the radio does meanwhile. *)
Theorem requestANetworkChangeAsNeeded_acts_on_a_change_only
    (cfg : Settings) (env : Env) (task : Task) (s : World) :
  thisIsTheSwitchbox s = true ->
  let s' := requestANetworkChangeAsNeeded env (delay_of cfg env task) s in
  (SwitchBoxSwitchStatus s = lastSwitchBoxSwitchStatus s -> s' = s) /\
  (SwitchBoxSwitchStatus s <> lastSwitchBoxSwitchStatus s ->
   exists rest,
     sent s' =
     (sent s ++ (controllerMACAddress,
                 mkTransmission (if status_eqb (SwitchBoxSwitchStatus s) blocked
                                 then requestControllerBlockNetwork
                                 else requestControllerUnblockNetwork) unknown) :: rest)%list) /\
  lastSwitchBoxSwitchStatus s' = SwitchBoxSwitchStatus s.
Proof.
  intros Hsb. cbv zeta. unfold requestANetworkChangeAsNeeded. rewrite Hsb.
  cbn [negb]. cbv iota.
  destruct (status_eqb (SwitchBoxSwitchStatus s) (lastSwitchBoxSwitchStatus s)) eqn:Hsame;
    cbn [negb]; cbv iota.
  - apply status_eqb_eq in Hsame. split; [reflexivity|]. split; [|congruence].
    intros Hdiff. contradiction.
  - apply status_eqb_neq in Hsame. split; [intros Heq; contradiction|].
    set (s1 := set_lastSwitchBoxSwitchStatus (SwitchBoxSwitchStatus s) s).
    change (SwitchBoxSwitchStatus s1) with (SwitchBoxSwitchStatus s).
    assert (thisIsTheSwitchbox s1 = true) as Hsb1 by exact Hsb.
    destruct (status_eqb (SwitchBoxSwitchStatus s) blocked).
    + destruct (requestToBlockOrUnblockNetwork_first_packet cfg env task true s1 Hsb1)
        as [Hlast Hsent].
      split; [intros _; exact Hsent | exact Hlast].
    + destruct (requestToBlockOrUnblockNetwork_first_packet cfg env task false s1 Hsb1)
        as [Hlast Hsent].
      split; [intros _; exact Hsent | exact Hlast].
Qed.

Lemma requestANetworkChangeAsNeeded_acts_on_a_change_only_witness :
  lastSwitchBoxSwitchStatus
    (requestANetworkChangeAsNeeded quietSwitchboxEnv
       (delay_of sampleSettings quietSwitchboxEnv MainTask)
       (set_SwitchBoxSwitchStatus blocked runningSwitchbox)) = blocked.
Proof.
  pose proof (requestANetworkChangeAsNeeded_acts_on_a_change_only sampleSettings
                quietSwitchboxEnv MainTask
                (set_SwitchBoxSwitchStatus blocked runningSwitchbox) eq_refl) as H.
  cbv zeta in H. destruct H as (_ & _ & Hlast). exact Hlast.
Defined.



(** ** The button of the Controller *)

Lemma untouchedSinceBoot_negotiation cfg env t0 :
  untouchedSinceBoot (snd (negotiation cfg env t0)) /\
  (fst (negotiation cfg env t0) = true ->
   FlashRateOfTheLED (snd (negotiation cfg env t0)) = 0).
Proof.
  unfold negotiation, setTheRoleOfThisDeviceBasedOnItsWiring.
  set (w0 := set_thisIsTheController false _).
  set (Q := fun w => untouchedSinceBoot w /\ FlashRateOfTheLED w = 0).
  assert (Q w0) as H0 by (repeat split).
  assert (forall pin count w, Q w ->
            Q (snd (countIfClosed env (delay_main cfg env) pin count w))) as Hcount.
  { intros pin count w H. unfold countIfClosed.
    assert (forall n, Q (delay_main cfg env n w)) as Hdelay.
    { intros n. rewrite delay_main_unregistered; [exact H| |]; apply H. }
    destruct (digitalRead env pin w =? 0); [|exact H].
    destruct (digitalRead env pin (delay_main cfg env 10 w) =? 0); apply Hdelay. }
  clearbody w0.
  pose proof (Hcount controllerNormallyClosedConnectionPin 0 w0 H0) as H1.
  destruct (countIfClosed env (delay_main cfg env)
              controllerNormallyClosedConnectionPin 0 w0) as [n1 w1].
  pose proof (Hcount controllerNormallyOpenedConnectionPin n1 w1 H1) as H2.
  destruct (countIfClosed env (delay_main cfg env)
              controllerNormallyOpenedConnectionPin n1 w1) as [n2 w2].
  pose proof (Hcount swichboxNormallyClosedConnectionPin 0 w2 H2) as H3.
  destruct (countIfClosed env (delay_main cfg env)
              swichboxNormallyClosedConnectionPin 0 w2) as [n3 w3].
  pose proof (Hcount swtichboxNormallyOpenedConnectionPin n3 w3 H3) as H4.
  destruct (countIfClosed env (delay_main cfg env)
              swtichboxNormallyOpenedConnectionPin n3 w3) as [n4 w4].
  cbn [snd] in *. destruct H4 as [Hfresh Hflash].
  destruct (n4 + n2 =? 1) eqn:Htotal; [destruct (n2 =? 1)|]; cbn;
    match goal with |- context [if ?b then _ else _] => destruct b end; cbn;
    rewrite ?Htotal; (split; [exact Hfresh|]); intros H;
    (exact Hflash || discriminate H).
Qed.

Section ButtonRules.

Variable cfg : Settings.
Variable env : Env.
Hypothesis withSwitchbox : useASwitchbox cfg = true.

Lemma buttonRules_kept y z : Kept (buttonRules y z).
Proof. split; intros; assumption. Qed.

Lemma buttonRules_block y z w :
  buttonRules y z w -> buttonRules y z (BlockNetwork_actuate true w).
Proof. intros (Hrole & Hy & Hz & _). repeat split; assumption. Qed.

Lemma buttonRules_unblock y z w :
  buttonRules y z w ->
  (useASwitchbox cfg = true ->
   ControllerSwitchStatus w <> blocked /\ SwitchBoxSwitchStatus w <> blocked) ->
  buttonRules y z (BlockNetwork_actuate false w).
Proof.
  intros (Hrole & Hy & Hz & _) Htests. destruct (Htests withSwitchbox) as [Hup _].
  repeat split; try assumption. intros Hdown. congruence.
Qed.

Lemma buttonRules_delay task y z n w :
  buttonRules y z w -> buttonRules y z (delay_of cfg env task n w).
Proof.
  apply delay_of_kept.
  - apply buttonRules_kept.
  - apply buttonRules_block.
  - apply buttonRules_unblock.
  - intros x w0 Hrole (Hrole' & _). congruence.
  - intros w0 Hrole (Hrole' & _). congruence.
Qed.

Lemma buttonRules_BlockNetwork task y z blockNow rc w :
  buttonRules y z w ->
  buttonRules y z (BlockNetwork cfg env (delay_of cfg env task) blockNow rc w).
Proof.
  apply BlockNetwork_kept.
  - apply buttonRules_kept.
  - intros n w0. apply buttonRules_delay.
  - apply buttonRules_block.
  - apply buttonRules_unblock.
Qed.

Lemma buttonRules_provideTheSwitchboxTheNetworkStatus task y z w :
  buttonRules y z w ->
  buttonRules y z (provideTheSwitchboxTheNetworkStatus env (delay_of cfg env task) w).
Proof.
  apply provideTheSwitchboxTheNetworkStatus_kept.
  - apply buttonRules_kept.
  - intros n w0. apply buttonRules_delay.
Qed.

(** Acting on the sample. *)
Lemma buttonRules_actionANetworkChangeAsNeeded w :
  thisIsTheController w = true ->
  (lastControllerSwitchStatus w = blocked -> NetworkStatus w = blocked) ->
  let x := ControllerSwitchStatus w in
  buttonRules x x (actionANetworkChangeAsNeeded cfg env (delay_main cfg env) w).
Proof.
  intros Hrole Hlast. cbv zeta. unfold actionANetworkChangeAsNeeded.
  rewrite Hrole. cbn [negb]. cbv iota.
  destruct (status_eqb (ControllerSwitchStatus w) (lastControllerSwitchStatus w)) eqn:Hsame;
    cbn [negb]; cbv iota.
  - apply status_eqb_eq in Hsame. repeat split; try assumption.
    + symmetry. exact Hsame.
    + intros Hdown. apply Hlast. congruence.
  - set (w2 := set_lastControllerSwitchStatus (ControllerSwitchStatus w) w).
    change (ControllerSwitchStatus w2) with (ControllerSwitchStatus w).
    apply (buttonRules_provideTheSwitchboxTheNetworkStatus MainTask).
    destruct (status_eqb (ControllerSwitchStatus w) blocked) eqn:Hdown.
    + apply status_eqb_eq in Hdown.
      rewrite (BlockNetwork_block cfg env (delay_main cfg env) true w2 Hrole).
      destruct (status_eqb (NetworkStatus w2) blocked) eqn:Hns.
      * apply status_eqb_eq in Hns.
        split; [exact Hrole|]. split; [reflexivity|]. split; [reflexivity|].
        intros _. exact Hns.
      * split; [exact Hrole|]. split; [reflexivity|]. split; [reflexivity|].
        intros _. reflexivity.
    + apply status_eqb_neq in Hdown.
      apply (buttonRules_BlockNetwork MainTask).
      split; [exact Hrole|]. split; [reflexivity|]. split; [reflexivity|].
      intros Hd. contradiction.
Qed.

Lemma buttonRules_periodicCheck y z w :
  buttonRules y z w ->
  buttonRules y z (periodicCheckToEnsureCommunicationsAreOK env (delay_main cfg env) w).
Proof.
  intros H. unfold periodicCheckToEnsureCommunicationsAreOK.
  destruct (touchBaseIsDue w); [|exact H].
  assert (buttonRules y z (set_nextTouchBaseTimeTarget (uadd (millis w) 2000) w)) as H1
    by exact H.
  destruct H as (Hrole & _).
  replace (thisIsTheController (set_nextTouchBaseTimeTarget (uadd (millis w) 2000) w))
    with true by (symmetry; exact Hrole).
  apply (buttonRules_provideTheSwitchboxTheNetworkStatus MainTask). exact H1.
Qed.

Lemma buttonRules_LEDUpdateAsRequried y z w :
  buttonRules y z w -> buttonRules y z (LEDUpdateAsRequried cfg w).
Proof.
  intros H. unfold LEDUpdateAsRequried, writeTheLEDs.
  repeat match goal with |- context [if ?b then _ else _] => destruct b end; exact H.
Qed.

End ButtonRules.



(** ** The Switchbox never actuates *)

Section RelayIdle.

Variable cfg : Settings.
Variable env : Env.

Lemma relayIdle_stable : Stable relayIdle.
Proof. split; intros; assumption. Qed.

Lemma relayIdle_ControllerSwitchStatus x w :
  thisIsTheController w = true -> relayIdle w -> relayIdle (set_ControllerSwitchStatus x w).
Proof. intros _ H. exact H. Qed.

Lemma relayIdle_OnDataRecv incomingMessage w :
  relayIdle w -> relayIdle (OnDataRecv cfg env delay_radio incomingMessage w).
Proof.
  intros H. unfold OnDataRecv.
  assert (relayIdle (touchBaseWhenAllIsGood (set_FlashRateOfTheLED 0 w))) as H0
    by (apply touchBaseWhenAllIsGood_stable; [apply relayIdle_stable | exact H]).
  set (w0 := touchBaseWhenAllIsGood (set_FlashRateOfTheLED 0 w)) in *. clearbody w0.
  destruct H0 as [Hrole Hrelay]. rewrite Hrole.
  destruct (kind_eqb _ networkStatusReply).
  - destruct (status_eqb _ blocked); split; assumption.
  - destruct (kind_eqb _ requestSwitchboxStatus).
    + apply provideTheControllerTheSwitchboxStatus_stable.
      * apply relayIdle_stable.
      * intros n w1 H1. exact H1.
      * apply relayIdle_ControllerSwitchStatus.
      * split; assumption.
    + apply unknownRequest_stable; [apply relayIdle_stable | split; assumption].
Qed.

Lemma relayIdle_delay task n w : relayIdle w -> relayIdle (delay_of cfg env task n w).
Proof.
  intros H. destruct task; [|exact H]. cbn. unfold delay_main.
  assert (forall events w0, relayIdle w0 ->
            relayIdle (fold_left (runCallback cfg env) events w0)) as Hfold.
  { induction events as [|ev events IH]; intros w0 H0; cbn; [exact H0|].
    apply IH. destruct ev as [success|incomingMessage]; cbn.
    - destruct (send_cb w0); [|exact H0].
      apply OnDataSent_stable; [apply relayIdle_stable | exact H0].
    - destruct (recv_cb w0); [|exact H0]. apply relayIdle_OnDataRecv. exact H0. }
  apply (Hfold _ (advance n w)). exact H.
Qed.

Lemma relayIdle_checkEmergencyStopButton task w :
  relayIdle w -> relayIdle (checkEmergencyStopButton env (delay_of cfg env task) w).
Proof.
  apply checkEmergencyStopButton_stable.
  - apply relayIdle_stable.
  - intros n w0. apply relayIdle_delay.
  - apply relayIdle_ControllerSwitchStatus.
Qed.

Lemma relayIdle_requestANetworkChangeAsNeeded w :
  relayIdle w -> relayIdle (requestANetworkChangeAsNeeded env (delay_main cfg env) w).
Proof.
  apply requestANetworkChangeAsNeeded_stable.
  - apply relayIdle_stable.
  - intros n w0. apply (relayIdle_delay MainTask).
Qed.

Lemma relayIdle_periodicCheck w :
  relayIdle w ->
  relayIdle (periodicCheckToEnsureCommunicationsAreOK env (delay_main cfg env) w).
Proof.
  apply periodicCheckToEnsureCommunicationsAreOK_stable.
  - apply relayIdle_stable.
  - intros n w0. apply (relayIdle_delay MainTask).
  - apply relayIdle_ControllerSwitchStatus.
Qed.

Lemma relayIdle_LEDUpdateAsRequried w : relayIdle w -> relayIdle (LEDUpdateAsRequried cfg w).
Proof.
  apply LEDUpdateAsRequried_stable.
  - apply relayIdle_stable.
  - intros l w0 [Hrole Hrelay]. split.
    + unfold writeTheLEDs. destruct (useOnboardLED cfg), (useExternalLED cfg); exact Hrole.
    + rewrite relay_writeTheLEDs. exact Hrelay.
Qed.

Lemma relayIdle_BlockNetwork delay blockNow rc w :
  relayIdle w -> relayIdle (BlockNetwork cfg env delay blockNow rc w).
Proof.
  intros [Hrole Hrelay]. unfold BlockNetwork. rewrite Hrole. split; assumption.
Qed.

Lemma relayIdle_loop w : relayIdle w -> relayIdle (loop cfg env w).
Proof.
  intros H. unfold loop. apply relayIdle_LEDUpdateAsRequried.
  apply (relayIdle_checkEmergencyStopButton MainTask) in H.
  change (delay_of cfg env MainTask) with (delay_main cfg env) in H.
  set (w1 := checkEmergencyStopButton env (delay_main cfg env) w) in *.
  destruct H as [Hrole1 Hrelay1]. rewrite Hrole1.
  pose proof (relayIdle_requestANetworkChangeAsNeeded w1 (conj Hrole1 Hrelay1)) as H2.
  destruct (_ || _); [apply relayIdle_periodicCheck|]; exact H2.
Qed.

Lemma relayIdle_setup t0 :
  fst (setup cfg env (powerOn t0)) = EntersLoop ->
  thisIsTheController (snd (setup cfg env (powerOn t0))) = false ->
  relayIdle (snd (setup cfg env (powerOn t0))).
Proof.
  unfold setup. fold (negotiation cfg env t0).
  destruct (radioOffAndUnblocked_negotiation cfg env t0) as (_ & _ & _ & _ & Hrelay & _).
  pose proof (negotiation_controllerInvariant cfg env t0) as Hctl.
  destruct (negotiation cfg env t0) as [ok w1]. cbn [snd] in Hrelay, Hctl.
  destruct ok; [|discriminate].
  destruct (thisIsTheController w1) eqn:Hrole1.
  - intros Hend Hrole. exfalso. specialize (Hctl eq_refl).
    assert (forall w2, controllerInvariant w2 ->
              thisIsTheController
                (let w := checkEmergencyStopButton env (delay_main cfg env) w2 in
                 let w := actionANetworkChangeAsNeeded cfg env (delay_main cfg env) w in
                 if useASwitchbox cfg
                 then provideTheSwitchboxTheNetworkStatus env (delay_main cfg env) w
                 else w) = true) as Hrest.
    { intros w2 H2. cbv zeta.
      apply (checkEmergencyStopButton_keeps cfg env MainTask) in H2.
      apply (actionANetworkChangeAsNeeded_keeps cfg env MainTask) in H2.
      destruct (useASwitchbox cfg);
        [apply (provideTheSwitchboxTheNetworkStatus_keeps cfg env MainTask) in H2|];
        apply H2. }
    destruct (useASwitchbox cfg) eqn:Hcfg.
    + pose proof (initializeESPNOW_keeps cfg env w1 Hctl) as Hinit.
      destruct (initializeESPNOW cfg env w1) as [ok w2]. cbn [snd] in Hinit.
      destruct ok; cbn in Hend, Hrole; [|discriminate Hend].
      apply (requestTheSwitchboxStatus_keeps cfg env MainTask) in Hinit.
      specialize (Hrest _ Hinit). cbv zeta iota in Hrest.
      change (delay_of cfg env MainTask) with (delay_main cfg env) in Hrest.
      rewrite Hrest in Hrole. discriminate Hrole.
    + cbn in Hrole. specialize (Hrest _ Hctl). cbv zeta iota in Hrest.
      rewrite Hrest in Hrole. discriminate Hrole.
  - intros Hend _.
    assert (relayIdle (snd (initializeESPNOW cfg env w1))) as Hinit.
    { unfold initializeESPNOW, initializeWiFi, setMACAddresses.
      destruct (useLongRange cfg); cbn; rewrite Hrole1;
        destruct (esp_now_init_ok env), (esp_now_add_peer_ok env); split; assumption. }
    destruct (initializeESPNOW cfg env w1) as [ok w2]. cbn [snd] in Hinit.
    destruct ok; cbn in Hend |- *; [|discriminate Hend].
    apply relayIdle_requestANetworkChangeAsNeeded.
    apply (relayIdle_checkEmergencyStopButton MainTask). exact Hinit.
Qed.

Lemma switchboxRuns_relayIdle w : switchboxRuns cfg env w -> relayIdle w.
Proof.
  induction 1.
  - apply relayIdle_setup; assumption.
  - assumption.
  - apply relayIdle_loop; assumption.
  - apply relayIdle_OnDataRecv; assumption.
  - apply OnDataSent_stable; [apply relayIdle_stable | assumption].
  - apply relayIdle_checkEmergencyStopButton; assumption.
  - apply relayIdle_requestANetworkChangeAsNeeded; assumption.
  - apply relayIdle_periodicCheck; assumption.
  - apply relayIdle_BlockNetwork; assumption.
  - apply relayIdle_LEDUpdateAsRequried; assumption.
Qed.

End RelayIdle.

(** X9 -- The Switchbox never actuates.  On a device whose [setup] returned
    with the role of the Switchbox, in every world it goes through ([loop],
    its procedures, the callbacks, even a call of the Controller's gate) the
    device is not the Controller and the relay output is LOW, as
    [setupTheESP32Pins] left it. *)
Theorem switchbox_never_drives_the_relay (cfg : Settings) (env : Env) (w : World) :
  switchboxRuns cfg env w ->
  thisIsTheController w = false /\ relay w = Some LOW.
Proof. apply switchboxRuns_relayIdle. Qed.

Lemma switchbox_never_drives_the_relay_witness :
  let w := BlockNetwork sampleSettings quietSwitchboxEnv
             (delay_of sampleSettings quietSwitchboxEnv MainTask) true true
             (loop sampleSettings quietSwitchboxEnv
                (advance 50 (snd (setup sampleSettings quietSwitchboxEnv (powerOn 0))))) in
  thisIsTheController w = false /\ relay w = Some LOW.
Proof.
  apply (switchbox_never_drives_the_relay sampleSettings quietSwitchboxEnv).
  apply sruns_BlockNetwork, sruns_loop, sruns_elapse, sruns_setup; vm_compute; reflexivity.
Defined.

(** ** How [setup] ends *)

Lemma initializeESPNOW_outcome cfg env w :
  let r := initializeESPNOW cfg env w in
  fst r = esp_now_init_ok env && esp_now_add_peer_ok env /\
  wifi_sta (snd r) = true /\
  sta_mac (snd r) = Some (if thisIsTheController w then controllerMACAddress
                          else remoteSwitchMACAddress) /\
  send_cb (snd r) = esp_now_init_ok env || send_cb w /\
  recv_cb (snd r) = fst r || recv_cb w /\
  FlashRateOfTheLED (snd r) =
    (if esp_now_init_ok env then FlashRateOfTheLED w
     else FlashRateOfTheLEDWhenTheESPNOWFailedToInitialize) /\
  thisIsTheController (snd r) = thisIsTheController w /\
  NetworkStatus (snd r) = NetworkStatus w /\ LEDIsOn (snd r) = LEDIsOn w /\
  pin_out (snd r) = pin_out w /\ sent (snd r) = sent w.
Proof.
  cbv zeta. unfold initializeESPNOW, initializeWiFi, setMACAddresses.
  destruct (useLongRange cfg); cbn;
    destruct (thisIsTheController w) eqn:Hrole; cbn;
    destruct (esp_now_init_ok env), (esp_now_add_peer_ok env); cbn;
    rewrite ?Hrole; auto 12.
Qed.

(** X10 -- [setup] returns, and [loop] starts, if and only if role
    negotiation succeeds and, when the device needs the radio (it is the
    Switchbox, or the Controller of a build with a Switchbox), both
    [esp_now_init] and [esp_now_add_peer] succeed; in every other case it
    stays in the loop that only updates the LED. *)
Theorem setup_enters_loop_iff (cfg : Settings) (env : Env) (t0 : Z) :
  let r := negotiation cfg env t0 in
  fst (setup cfg env (powerOn t0)) = EntersLoop <->
  fst r = true /\
  (needsTheRadio cfg (snd r) = true ->
   esp_now_init_ok env = true /\ esp_now_add_peer_ok env = true).
Proof.
  cbv zeta. unfold setup, needsTheRadio. fold (negotiation cfg env t0).
  destruct (negotiation cfg env t0) as [ok w1]. cbn [fst snd].
  destruct ok; [|split; [discriminate | intros [H _]; discriminate H]].
  destruct (thisIsTheController w1); cbn [negb orb].
  - destruct (useASwitchbox cfg).
    + destruct (initializeESPNOW_outcome cfg env w1) as [Hok _]. cbv zeta in Hok.
      destruct (initializeESPNOW cfg env w1) as [ok w2]. cbn [fst] in Hok. subst ok.
      destruct (esp_now_init_ok env), (esp_now_add_peer_ok env); cbn;
        split; try discriminate; try (intros _; split; auto; fail);
        intros [_ H]; destruct (H eq_refl); discriminate.
    + cbn. split; [intros _; split; [reflexivity | discriminate] | reflexivity].
  - destruct (initializeESPNOW_outcome cfg env w1) as [Hok _]. cbv zeta in Hok.
    destruct (initializeESPNOW cfg env w1) as [ok w2]. cbn [fst] in Hok. subst ok.
    destruct (esp_now_init_ok env), (esp_now_add_peer_ok env); cbn;
      split; try discriminate; try (intros _; split; auto; fail);
      intros [_ H]; destruct (H eq_refl); discriminate.
Qed.

Lemma setup_enters_loop_iff_witness :
  fst (setup sampleSettings quietControllerEnv (powerOn 0)) = EntersLoop /\
  fst (setup sampleSettings noPeerEnv (powerOn 0)) <> EntersLoop.
Proof.
  split.
  - apply (setup_enters_loop_iff sampleSettings quietControllerEnv 0).
    split; [vm_compute; reflexivity | intros _; split; reflexivity].
  - intros H. apply (setup_enters_loop_iff sampleSettings noPeerEnv 0) in H.
    destruct H as [_ H]. destruct H as [_ H]; [vm_compute; reflexivity | discriminate H].
Defined.

Lemma LEDUpdateAsRequried_dark cfg w :
  FlashRateOfTheLED w = 0 -> NetworkStatus w <> blocked -> LEDIsOn w = false ->
  LEDUpdateAsRequried cfg w = w.
Proof.
  intros Hflash Hns Hled. unfold LEDUpdateAsRequried.
  rewrite Hflash, Hled. apply status_eqb_neq in Hns. rewrite Hns. reflexivity.
Qed.

Lemma flashForever_dark cfg elapsed w :
  FlashRateOfTheLED w = 0 -> NetworkStatus w <> blocked -> LEDIsOn w = false ->
  let w' := flashForever cfg elapsed w in
  FlashRateOfTheLED w' = 0 /\ LEDIsOn w' = false /\ pin_out w' = pin_out w /\
  sent w' = sent w.
Proof.
  revert w. induction elapsed as [|d elapsed IH]; intros w Hflash Hns Hled; [cbn; auto|].
  cbn. rewrite (LEDUpdateAsRequried_dark cfg (advance d w)) by assumption.
  apply (IH (advance d w)); assumption.
Qed.

(** X11 -- When the wiring is right and [esp_now_init] succeeds but
    [esp_now_add_peer] fails on a device that needs the radio,
    [initializeESPNOW] sets no flash rate: [setup] stays in its loop with
    [FlashRateOfTheLED] 0, and however long that loop runs the LED stays off,
    no output pin changes and nothing is sent.  (When [esp_now_init] itself
    fails the flash rate is 3000.) *)
Theorem add_peer_failure_halts_without_flashing
    (cfg : Settings) (env : Env) (t0 : Z) (elapsed : list Z) :
  fst (negotiation cfg env t0) = true ->
  needsTheRadio cfg (snd (negotiation cfg env t0)) = true ->
  esp_now_init_ok env = true ->
  esp_now_add_peer_ok env = false ->
  let r := setup cfg env (powerOn t0) in
  let w := flashForever cfg elapsed (snd r) in
  fst r = FlashesForever /\
  recv_cb (snd r) = false /\
  FlashRateOfTheLED w = 0 /\ LEDIsOn w = false /\
  pin_out w = pin_out (setupTheESP32Pins (powerOn 0)) /\ sent w = [].
Proof.
  intros Hok Hneeds Hinit Hpeer. cbv zeta.
  destruct (untouchedSinceBoot_negotiation cfg env t0) as [Hfresh Hflash].
  specialize (Hflash Hok).
  unfold setup, needsTheRadio in *. fold (negotiation cfg env t0).
  destruct (negotiation cfg env t0) as [ok w1]. cbn [fst snd] in *. subst ok.
  destruct Hfresh as (_ & Hrecv & _ & Hsent & _ & _ & _ & Hns & _ & _ & Hled & _ & Hpins).
  pose proof (initializeESPNOW_outcome cfg env w1) as Hout. cbv zeta in Hout.
  destruct (initializeESPNOW cfg env w1) as [ok w2]. cbn [fst snd] in Hout.
  destruct Hout as (Hres & _ & _ & _ & Hrecv2 & Hflash2 & _ & Hns2 & Hled2 & Hpins2 & Hsent2).
  rewrite Hinit, Hpeer in *. cbn in Hres. subst ok. cbn in Hrecv2.
  destruct (flashForever_dark cfg elapsed w2) as (H1 & H2 & H3 & H4);
    [congruence | rewrite Hns2, Hns; discriminate | congruence |].
  cbv zeta in H1, H2, H3, H4.
  assert (recv_cb w2 = false /\
          FlashRateOfTheLED (flashForever cfg elapsed w2) = 0 /\
          LEDIsOn (flashForever cfg elapsed w2) = false /\
          pin_out (flashForever cfg elapsed w2) = pin_out (setupTheESP32Pins (powerOn 0)) /\
          sent (flashForever cfg elapsed w2) = []) as Hw
    by (rewrite H3, H4; repeat split; congruence).
  destruct (thisIsTheController w1); cbn [negb orb] in Hneeds.
  - rewrite Hneeds. cbn. split; [reflexivity | exact Hw].
  - cbn. split; [reflexivity | exact Hw].
Qed.

Lemma add_peer_failure_halts_without_flashing_witness :
  let w := flashForever sampleSettings [100; 200; 5000]
             (snd (setup sampleSettings noPeerEnv (powerOn 0))) in
  fst (setup sampleSettings noPeerEnv (powerOn 0)) = FlashesForever /\
  FlashRateOfTheLED w = 0 /\ LEDIsOn w = false.
Proof.
  pose proof (add_peer_failure_halts_without_flashing sampleSettings noPeerEnv 0
                [100; 200; 5000]) as H.
  cbv zeta in H.
  destruct H as (Hhalt & _ & Hflash & Hled & _);
    [vm_compute; reflexivity | vm_compute; reflexivity | reflexivity | reflexivity |].
  split; [exact Hhalt|]. split; [exact Hflash | exact Hled].
Defined.

(** ** The LED *)

Lemma ulong_long x : ulong (long x) = ulong x.
Proof.
  unfold ulong, long.
  rewrite <- (Z.mod_add ((x + 2 ^ 31) mod 2 ^ 32 - 2 ^ 31) 1 (2 ^ 32)) by lia.
  replace ((x + 2 ^ 31) mod 2 ^ 32 - 2 ^ 31 + 1 * 2 ^ 32)
    with ((x + 2 ^ 31) mod 2 ^ 32 + 2 ^ 31) by lia.
  rewrite Zplus_mod_idemp_l.
  replace (x + 2 ^ 31 + 2 ^ 31) with (x + 1 * 2 ^ 32) by lia.
  apply Z.mod_add. lia.
Qed.

Lemma ledsAgree_writeTheLEDs cfg l w :
  ledsAgree cfg (set_LEDIsOn l (writeTheLEDs cfg l w)).
Proof.
  unfold ledsAgree, writeTheLEDs, digitalWrite.
  destruct (useOnboardLED cfg), (useExternalLED cfg); cbn; split; intros H;
    try discriminate H.
  - rewrite lookup_insert_ne by discriminate. apply lookup_insert_eq.
  - apply lookup_insert_eq.
  - apply lookup_insert_eq.
  - apply lookup_insert_eq.
Qed.

Lemma writeTheLEDs_frame cfg l w :
  let w' := writeTheLEDs cfg l w in
  relay w' = relay w /\ NetworkStatus w' = NetworkStatus w /\ LEDIsOn w' = LEDIsOn w.
Proof.
  cbv zeta. split; [apply relay_writeTheLEDs|].
  unfold writeTheLEDs. destruct (useOnboardLED cfg), (useExternalLED cfg); split; reflexivity.
Qed.

(** X12 -- [LEDUpdateAsRequried], from a world in which the LED outputs in
    use show [LEDIsOn] (as after [setupTheESP32Pins]): they still do
    afterwards, and the relay is not touched.  With no alarm
    ([FlashRateOfTheLED] not positive) the LED is on exactly when
    [NetworkStatus] is [blocked].  With an alarm the LED toggles if
    [millis()] has passed [nextFlashCycle] and is left alone otherwise; and,
    as long as the millisecond counter does not wrap, a call within
    [FlashRateOfTheLED] ms after a toggle changes nothing. *)
Theorem LEDUpdateAsRequried_shows_network_or_flashes (cfg : Settings) (w : World) :
  ledsAgree cfg w ->
  let w' := LEDUpdateAsRequried cfg w in
  let due := millis w >? ulong (nextFlashCycle w) in
  ledsAgree cfg w' /\ relay w' = relay w /\
  (FlashRateOfTheLED w <= 0 -> LEDIsOn w' = status_eqb (NetworkStatus w) blocked) /\
  (0 < FlashRateOfTheLED w -> LEDIsOn w' = xorb (LEDIsOn w) due) /\
  (0 < FlashRateOfTheLED w -> due = true ->
   0 <= clock w -> clock w + FlashRateOfTheLED w < 2 ^ 32 ->
   forall d, 0 <= d <= FlashRateOfTheLED w ->
             LEDUpdateAsRequried cfg (advance d w') = advance d w').
Proof.
  intros Hleds. cbv zeta.
  set (w' := LEDUpdateAsRequried cfg w).
  assert (w' = LEDUpdateAsRequried cfg w) as Hw' by reflexivity. clearbody w'.
  unfold LEDUpdateAsRequried in Hw'. revert Hw'.
  destruct (FlashRateOfTheLED w >? 0) eqn:Hflash;
    [apply Z.gtb_lt in Hflash | rewrite Z.gtb_ltb in Hflash; apply Z.ltb_ge in Hflash].
  - destruct (millis w >? ulong (nextFlashCycle w)) eqn:Hdue; intros ->.
    + set (w1 := set_nextFlashCycle _ w).
      assert (LEDIsOn w1 = LEDIsOn w) as Hled1 by reflexivity.
      assert (relay w1 = relay w) as Hrelay1 by reflexivity.
      rewrite Hled1.
      assert ((if LEDIsOn w then writeTheLEDs cfg LOW w1
               else writeTheLEDs cfg HIGH w1) = writeTheLEDs cfg (negb (LEDIsOn w)) w1)
        as Hwrite by (destruct (LEDIsOn w); reflexivity).
      rewrite Hwrite.
      destruct (writeTheLEDs_frame cfg (negb (LEDIsOn w)) w1) as (Hrelay2 & _ & Hled2).
      cbv zeta in Hrelay2, Hled2. rewrite Hled2, Hled1.
      split; [apply ledsAgree_writeTheLEDs|].
      split; [unfold relay in *; cbn; rewrite Hrelay2; exact Hrelay1|].
      split; [lia|]. split; [intros _; cbn; destruct (LEDIsOn w); reflexivity|].
      intros _ _ Hclock Hwrap d Hd.
      set (w2 := set_LEDIsOn (negb (LEDIsOn w))
                   (writeTheLEDs cfg (negb (LEDIsOn w)) w1)).
      assert (FlashRateOfTheLED (advance d w2) = FlashRateOfTheLED w) as Hrate.
      { subst w2. cbn. unfold writeTheLEDs.
        destruct (useOnboardLED cfg), (useExternalLED cfg); reflexivity. }
      assert (nextFlashCycle (advance d w2)
              = long (uadd (millis w) (ulong (FlashRateOfTheLED w)))) as Hnext.
      { subst w2. cbn. unfold writeTheLEDs.
        destruct (useOnboardLED cfg), (useExternalLED cfg); reflexivity. }
      assert (clock (advance d w2) = clock w + d) as Hclock2.
      { subst w2. cbn. unfold writeTheLEDs.
        destruct (useOnboardLED cfg), (useExternalLED cfg); reflexivity. }
      unfold LEDUpdateAsRequried. rewrite Hrate, Hnext.
      replace (FlashRateOfTheLED w >? 0) with true by (symmetry; apply Z.gtb_lt; lia).
      replace (millis (advance d w2) >?
               ulong (long (uadd (millis w) (ulong (FlashRateOfTheLED w))))) with false;
        [reflexivity|].
      symmetry. rewrite Z.gtb_ltb. apply Z.ltb_ge.
      rewrite ulong_long. unfold millis. rewrite Hclock2. unfold uadd, ulong.
      rewrite !Z.mod_mod by lia.
      rewrite (Z.mod_small (clock w)), (Z.mod_small (FlashRateOfTheLED w)),
        (Z.mod_small (clock w + FlashRateOfTheLED w)), (Z.mod_small (clock w + d)) by lia.
      lia.
    + split; [exact Hleds|]. split; [reflexivity|]. split; [lia|].
      split; [intros _; destruct (LEDIsOn w); reflexivity | discriminate].
  - destruct (status_eqb (NetworkStatus w) blocked) eqn:Hns; intros ->.
    + destruct (LEDIsOn w) eqn:Hled; cbn [negb].
      * split; [exact Hleds|]. split; [reflexivity|]. split; [intros _; exact Hled|].
        split; intros; lia.
      * destruct (writeTheLEDs_frame cfg HIGH (set_LEDIsOn true w)) as (Hrelay2 & _ & Hled2).
        cbv zeta in Hrelay2, Hled2.
        split.
        { pose proof (ledsAgree_writeTheLEDs cfg true w) as H.
          unfold ledsAgree in *. rewrite Hled2. cbn.
          unfold writeTheLEDs, digitalWrite in *.
          destruct (useOnboardLED cfg), (useExternalLED cfg); exact H. }
        split; [rewrite Hrelay2; reflexivity|]. split; [intros _; exact Hled2|].
        split; intros; lia.
    + destruct (LEDIsOn w) eqn:Hled.
      * destruct (writeTheLEDs_frame cfg LOW (set_LEDIsOn false w)) as (Hrelay2 & _ & Hled2).
        cbv zeta in Hrelay2, Hled2.
        split.
        { pose proof (ledsAgree_writeTheLEDs cfg false w) as H.
          unfold ledsAgree in *. rewrite Hled2. cbn.
          unfold writeTheLEDs, digitalWrite in *.
          destruct (useOnboardLED cfg), (useExternalLED cfg); exact H. }
        split; [rewrite Hrelay2; reflexivity|]. split; [intros _; exact Hled2|].
        split; intros; lia.
      * split; [exact Hleds|]. split; [reflexivity|]. split; [intros _; exact Hled|].
        split; intros; lia.
Qed.

Lemma LEDUpdateAsRequried_shows_network_or_flashes_witness :
  LEDIsOn (LEDUpdateAsRequried sampleSettings alarmedDevice) = true /\
  LEDUpdateAsRequried sampleSettings
    (advance 333 (LEDUpdateAsRequried sampleSettings alarmedDevice)) =
  advance 333 (LEDUpdateAsRequried sampleSettings alarmedDevice).
Proof.
  assert (ledsAgree sampleSettings alarmedDevice) as Hleds
    by (split; intros _; vm_compute; reflexivity).
  pose proof (LEDUpdateAsRequried_shows_network_or_flashes sampleSettings alarmedDevice
                Hleds) as H.
  cbv zeta in H. destruct H as (_ & _ & _ & Hled & Hquiet).
  split.
  - rewrite Hled by (vm_compute; reflexivity). vm_compute. reflexivity.
  - apply Hquiet;
      [ reflexivity | vm_compute; reflexivity | vm_compute; discriminate
      | vm_compute; reflexivity | split; vm_compute; discriminate ].
Defined.

(** ** The periodic touch-base *)

Lemma delay_of_quiet cfg env task n w :
  task = RadioTask \/ radioSilent env ->
  delay_of cfg env task n w = advance n w.
Proof.
  intros [->|Hsilent]; [reflexivity|].
  destruct task; [|reflexivity]. cbn. unfold delay_main. rewrite Hsilent.
  destruct w; reflexivity.
Qed.

(** X13 -- [periodicCheckToEnsureCommunicationsAreOK].  Before the next
    touch-base time it does nothing.  Once [millis()] has passed it, the
    Controller hands a [networkStatusReply] with its [NetworkStatus] to the
    driver as the first packet; and, when no callback runs meanwhile and the
    millisecond counter does not wrap, it returns within 30 ms with the next
    touch-base time 2000 ms after the call, so that it is not due again at
    once. *)
Theorem periodicCheck_probes_once_when_due
    (cfg : Settings) (env : Env) (task : Task) (w : World) :
  let w' := periodicCheckToEnsureCommunicationsAreOK env (delay_of cfg env task) w in
  (touchBaseIsDue w = false -> w' = w) /\
  (touchBaseIsDue w = true -> thisIsTheController w = true ->
   exists rest,
     sent w' = (sent w ++ (remoteSwitchMACAddress,
                           mkTransmission networkStatusReply (NetworkStatus w)) :: rest)%list) /\
  (touchBaseIsDue w = true ->
   task = RadioTask \/ radioSilent env ->
   0 <= clock w -> clock w + 2000 < 2 ^ 32 ->
   nextTouchBaseTimeTarget w' = clock w + 2000 /\
   clock w <= clock w' <= clock w + 30 /\
   touchBaseIsDue w' = false).
Proof.
  cbv zeta. unfold periodicCheckToEnsureCommunicationsAreOK.
  destruct (touchBaseIsDue w) eqn:Hdue;
    [|split; [reflexivity|split; intros H; discriminate H]].
  split; [discriminate|]. split.
  - intros _ Hrole. cbn. rewrite Hrole.
    apply (provideTheSwitchboxTheNetworkStatus_first_packet cfg env task
             (set_nextTouchBaseTimeTarget (uadd (millis w) 2000) w) Hrole).
  - intros _ Hquiet Hclock Hwrap.
    set (w1 := set_nextTouchBaseTimeTarget (uadd (millis w) 2000) w).
    assert (uadd (millis w) 2000 = clock w + 2000) as Htarget.
    { unfold uadd, millis, ulong. rewrite (Z.mod_small (clock w)) by lia.
      apply Z.mod_small. lia. }
    set (w' := if thisIsTheController w1
               then provideTheSwitchboxTheNetworkStatus env (delay_of cfg env task) w1
               else provideTheControllerTheSwitchboxStatus env (delay_of cfg env task) w1).
    assert (nextTouchBaseTimeTarget w' = clock w + 2000 /\
            clock w <= clock w' <= clock w + 30) as [Hnext Hbound].
    { rewrite <- Htarget. subst w'.
      unfold provideTheSwitchboxTheNetworkStatus, provideTheControllerTheSwitchboxStatus,
        checkEmergencyStopButton, readEmergencyStopButton.
      split_ifs; rewrite ?(delay_of_quiet cfg env task) by exact Hquiet; cbn;
        rewrite ?(delay_of_quiet cfg env task) by exact Hquiet; cbn;
        (split; [reflexivity | lia]). }
    split; [exact Hnext|]. split; [exact Hbound|].
    unfold touchBaseIsDue. rewrite Hnext, millis_small by lia.
    rewrite Z.gtb_ltb. apply Z.ltb_ge. lia.
Qed.

Lemma periodicCheck_probes_once_when_due_witness :
  let w := advance 40000 unblockedController in
  let w' := periodicCheckToEnsureCommunicationsAreOK quietControllerEnv
              (delay_of sampleSettings quietControllerEnv MainTask) w in
  nextTouchBaseTimeTarget w' = 42000 /\ touchBaseIsDue w' = false.
Proof.
  pose proof (periodicCheck_probes_once_when_due sampleSettings quietControllerEnv MainTask
                (advance 40000 unblockedController)) as H.
  cbv zeta in H. destruct H as (_ & _ & H).
  destruct H as (Hnext & _ & Hdue);
    [vm_compute; reflexivity | right; intros t n; reflexivity
     | vm_compute; discriminate | vm_compute; reflexivity |].
  split; [exact Hnext | exact Hdue].
Defined.

(** ** The touch-base after a send *)

Lemma readEmergencyStopButton_sentGrows cfg env task nc no w :
  sentGrows w (snd (readEmergencyStopButton env (delay_of cfg env task) nc no w)).
Proof.
  unfold readEmergencyStopButton.
  pose proof (delay_of_sentGrows cfg env task 10 w) as H1.
  pose proof (delay_of_sentGrows cfg env task 10 (delay_of cfg env task 10 w)) as H2.
  pose proof (sentGrows_trans _ _ _ H1 H2) as H3.
  repeat match goal with
         | |- context [if ?b then _ else _] => destruct b; cbn [fst snd]
         end; assumption || apply sentGrows_refl.
Qed.

Lemma checkEmergencyStopButton_sentGrows cfg env task w :
  sentGrows w (checkEmergencyStopButton env (delay_of cfg env task) w).
Proof.
  unfold checkEmergencyStopButton.
  pose proof (readEmergencyStopButton_sentGrows cfg env task
                (if thisIsTheController w then controllerNormallyClosedConnectionPin
                 else swichboxNormallyClosedConnectionPin)
                (if thisIsTheController w then controllerNormallyOpenedConnectionPin
                 else swtichboxNormallyOpenedConnectionPin) w) as Hread.
  destruct (readEmergencyStopButton _ _ _ _ w) as [[opened closed] w1].
  cbn [snd] in Hread. destruct Hread as [rest Hrest].
  exists rest. destruct (thisIsTheController w1), (opened && closed); exact Hrest.
Qed.

Lemma provideTheControllerTheSwitchboxStatus_sends cfg env task w :
  thisIsTheSwitchbox w = true ->
  exists before st after,
    sent (provideTheControllerTheSwitchboxStatus env (delay_of cfg env task) w) =
    (sent w ++ before ++ (controllerMACAddress,
                          mkTransmission switchboxStatusReply st) :: after)%list.
Proof.
  intros Hsb. unfold provideTheControllerTheSwitchboxStatus. rewrite Hsb.
  cbn [negb]. cbv iota zeta.
  destruct (checkEmergencyStopButton_sentGrows cfg env task w) as [before Hbefore].
  set (w1 := checkEmergencyStopButton env (delay_of cfg env task) w) in *.
  clearbody w1. unfold esp_now_send.
  set (w3 := set_sent _ _).
  assert (sent w3 = (sent w ++ before ++
                     [(controllerMACAddress,
                       mkTransmission switchboxStatusReply (SwitchBoxSwitchStatus w1))])%list)
    as Hsent3
    by (subst w3; unfold Serial_println, Serial_print; cbn;
        match goal with |- context [if ?b then _ else _] => destruct b end; cbn;
        rewrite Hbefore, <- app_assoc; reflexivity).
  clearbody w3.
  assert (forall v, sentGrows w3 v ->
            exists before0 st after,
              sent v = (sent w ++ before0 ++
                        (controllerMACAddress,
                         mkTransmission switchboxStatusReply st) :: after)%list) as Hgrow.
  { intros v [after Hafter]. exists before, (SwitchBoxSwitchStatus w1), after.
    rewrite Hafter, Hsent3, <- !app_assoc. reflexivity. }
  destruct (send_accepted env _).
  - cbv zeta. pose proof (delay_of_sentGrows cfg env task 10 w3) as Hdelay.
    destruct (negb (packedSentSuccesfully (delay_of cfg env task 10 w3)));
      apply Hgrow; [|exact Hdelay].
    destruct Hdelay as [rest Hrest]. exists rest. exact Hrest.
  - apply Hgrow, sentGrows_same. reflexivity.
Qed.

(** A touch-base that is due sends the packet of the device's role. *)
Lemma periodicCheck_sends_a_probe cfg env task w :
  thisIsTheController w = negb (thisIsTheSwitchbox w) ->
  touchBaseIsDue w = true ->
  sendsAProbe w (periodicCheckToEnsureCommunicationsAreOK env (delay_of cfg env task) w).
Proof.
  intros Hrole Hdue. unfold periodicCheckToEnsureCommunicationsAreOK. rewrite Hdue.
  cbv zeta.
  set (w1 := set_nextTouchBaseTimeTarget _ w).
  change (thisIsTheController w1) with (thisIsTheController w).
  unfold sendsAProbe. change (sent w) with (sent w1).
  destruct (thisIsTheController w) eqn:Hc.
  - destruct (provideTheSwitchboxTheNetworkStatus_first_packet cfg env task w1 Hc)
      as [after Hafter].
    exists [], (remoteSwitchMACAddress, mkTransmission networkStatusReply (NetworkStatus w1)),
      after.
    split; [exact Hafter | vm_compute; reflexivity].
  - assert (thisIsTheSwitchbox w1 = true) as Hsb
      by (change (thisIsTheSwitchbox w1) with (thisIsTheSwitchbox w);
          destruct (thisIsTheSwitchbox w); [reflexivity | discriminate Hrole]).
    destruct (provideTheControllerTheSwitchboxStatus_sends cfg env task w1 Hsb)
      as (before & st & after & Hsent).
    exists before, (controllerMACAddress, mkTransmission switchboxStatusReply st), after.
    split; [exact Hsent | vm_compute; reflexivity].
Qed.

(** What [OnDataSent] assigns. *)
Lemma OnDataSent_outcome success w :
  let w' := OnDataSent success w in
  let period := (if success then touchBaseTimePeriodWhenAllIsGood
                 else touchBaseTimePeriodWhenThereIsAKnownProblem) + touchbaseOffset w in
  packedSentSuccesfully w' = success /\
  FlashRateOfTheLED w' = (if success then 0 else 333) /\
  nextTouchBaseTimeTarget w' = ulong (millis w + period) /\
  clock w' = clock w /\ sent w' = sent w /\
  thisIsTheController w' = thisIsTheController w /\
  thisIsTheSwitchbox w' = thisIsTheSwitchbox w.
Proof.
  cbv zeta. unfold OnDataSent, touchBaseWhenAllIsGood, touchbaseOffset, commsProblem.
  destruct success; cbn; destruct (thisIsTheController w) eqn:Hc; cbn;
    rewrite ?uadd_uadd; unfold uadd; rewrite ?Z.add_0_r, ?Z.add_assoc;
    repeat split; try reflexivity; exact Hc.
Qed.

(** C9 -- [OnDataSent] sets the flash rate to 0 and the next touch-base time
    to [millis()] + 30 s on success, and the flash rate to 333 and the next
    touch-base time to [millis()] + 5 s on failure, 1.5 s more on the
    Switchbox; the sum is an [unsigned long].  When the callback runs less
    than that period before the millisecond counter wraps, the sum wraps and
    the touch-base time lies in the past: until the counter wraps,
    [periodicCheckToEnsureCommunicationsAreOK] finds the touch-base due and
    sends the packet at once, after a success as after a failure. *)
Theorem OnDataSent_before_the_wrap_probes_at_once
    (cfg : Settings) (env : Env) (task : Task) (success : bool) (w : World) :
  let period := (if success then touchBaseTimePeriodWhenAllIsGood
                 else touchBaseTimePeriodWhenThereIsAKnownProblem) + touchbaseOffset w in
  thisIsTheController w = negb (thisIsTheSwitchbox w) ->
  0 <= clock w < 2 ^ 32 ->
  2 ^ 32 <= clock w + period ->
  let w' := OnDataSent success w in
  FlashRateOfTheLED w' = (if success then 0 else 333) /\
  nextTouchBaseTimeTarget w' = clock w + period - 2 ^ 32 /\
  forall d, 0 <= d -> clock w + d < 2 ^ 32 ->
    touchBaseIsDue (advance d w') = true /\
    sendsAProbe (advance d w')
      (periodicCheckToEnsureCommunicationsAreOK env (delay_of cfg env task) (advance d w')).
Proof.
  intros period Hrole Hclock Hwrap w'.
  destruct (OnDataSent_outcome success w) as (_ & Hflash & Htarget & Hclk & _ & Hc & Hsb).
  cbv zeta in Hflash, Htarget, Hclk, Hc, Hsb. fold period in Htarget. fold w' in Hflash,
    Htarget, Hclk, Hc, Hsb.
  assert (0 <= period <= 31500) as Hperiod
    by (subst period; unfold touchbaseOffset; destruct success, (thisIsTheController w);
        cbv; split; discriminate).
  assert (nextTouchBaseTimeTarget w' = clock w + period - 2 ^ 32) as Hexact.
  { rewrite Htarget, millis_small by exact Hclock. unfold ulong.
    symmetry. apply (Z.mod_unique _ _ 1); lia. }
  split; [exact Hflash|]. split; [exact Hexact|].
  intros d Hd Hbefore.
  assert (touchBaseIsDue (advance d w') = true) as Hdue.
  { unfold touchBaseIsDue.
    change (nextTouchBaseTimeTarget (advance d w')) with (nextTouchBaseTimeTarget w').
    rewrite millis_small by (cbn; lia). cbn. rewrite Hexact, Hclk.
    apply Z.gtb_lt. lia. }
  split; [exact Hdue|].
  apply periodicCheck_sends_a_probe; [|exact Hdue].
  change (thisIsTheController (advance d w')) with (thisIsTheController w').
  change (thisIsTheSwitchbox (advance d w')) with (thisIsTheSwitchbox w').
  congruence.
Qed.

Lemma OnDataSent_before_the_wrap_probes_at_once_witness :
  let w := advance (2 ^ 32 - 1000) unblockedController in
  let w' := OnDataSent true w in
  nextTouchBaseTimeTarget w' = 29000 /\
  touchBaseIsDue w' = true /\
  sendsAProbe (advance 0 w')
    (periodicCheckToEnsureCommunicationsAreOK quietControllerEnv
       (delay_of sampleSettings quietControllerEnv MainTask) (advance 0 w')).
Proof.
  pose proof (OnDataSent_before_the_wrap_probes_at_once sampleSettings quietControllerEnv
                MainTask true (advance (2 ^ 32 - 1000) unblockedController)) as H.
  cbv zeta in H.
  destruct H as (_ & Htarget & Hprobe);
    [reflexivity | split; [vm_compute; discriminate | vm_compute; reflexivity]
     | vm_compute; discriminate |].
  destruct (Hprobe 0) as [_ Hsends];
    [vm_compute; discriminate | vm_compute; reflexivity |].
  split; [exact Htarget|]. split; [vm_compute; reflexivity | exact Hsends].
Defined.

(** X14 -- After [OnDataSent], as long as the millisecond counter does not
    wrap: the next touch-base time is the period after the callback (30 s
    after a success, 5 s after a failure, 1.5 s more on the Switchbox), and a
    [periodicCheckToEnsureCommunicationsAreOK] that runs [d] ms after the
    callback does nothing if [d] is at most the period and sends the
    touch-base packet of the device if [d] is more. *)
Theorem OnDataSent_then_the_probe_fires_after_the_period
    (cfg : Settings) (env : Env) (task : Task) (success : bool) (w : World) :
  let period := (if success then touchBaseTimePeriodWhenAllIsGood
                 else touchBaseTimePeriodWhenThereIsAKnownProblem) + touchbaseOffset w in
  thisIsTheController w = negb (thisIsTheSwitchbox w) ->
  0 <= clock w ->
  clock w + period < 2 ^ 32 ->
  let w' := OnDataSent success w in
  FlashRateOfTheLED w' = (if success then 0 else 333) /\
  nextTouchBaseTimeTarget w' = clock w + period /\
  forall d, 0 <= d -> clock w + d < 2 ^ 32 ->
    let check :=
      periodicCheckToEnsureCommunicationsAreOK env (delay_of cfg env task) (advance d w') in
    (d <= period -> check = advance d w') /\
    (period < d -> sendsAProbe (advance d w') check).
Proof.
  intros period Hrole Hclock Hnowrap w'.
  destruct (OnDataSent_outcome success w) as (_ & Hflash & Htarget & Hclk & _ & Hc & Hsb).
  cbv zeta in Hflash, Htarget, Hclk, Hc, Hsb. fold period in Htarget. fold w' in Hflash,
    Htarget, Hclk, Hc, Hsb.
  assert (0 <= period) as Hperiod
    by (subst period; unfold touchbaseOffset; destruct success, (thisIsTheController w);
        cbv; discriminate).
  assert (nextTouchBaseTimeTarget w' = clock w + period) as Hexact.
  { rewrite Htarget, millis_small by lia. unfold ulong. apply Z.mod_small. lia. }
  split; [exact Hflash|]. split; [exact Hexact|].
  intros d Hd Hbefore check.
  assert (touchBaseIsDue (advance d w') = (d >? period)) as Hdue.
  { unfold touchBaseIsDue.
    change (nextTouchBaseTimeTarget (advance d w')) with (nextTouchBaseTimeTarget w').
    rewrite millis_small by (cbn; lia). cbn. rewrite Hexact, Hclk.
    destruct (d >? period) eqn:Hcmp.
    - apply Z.gtb_lt in Hcmp. apply Z.gtb_lt. lia.
    - rewrite Z.gtb_ltb in *. apply Z.ltb_ge in Hcmp. apply Z.ltb_ge. lia. }
  split.
  - intros Hle. subst check. unfold periodicCheckToEnsureCommunicationsAreOK.
    rewrite Hdue. assert ((d >? period) = false) as -> by (rewrite Z.gtb_ltb; apply Z.ltb_ge; lia).
    reflexivity.
  - intros Hlt. subst check. apply periodicCheck_sends_a_probe.
    + change (thisIsTheController (advance d w')) with (thisIsTheController w').
      change (thisIsTheSwitchbox (advance d w')) with (thisIsTheSwitchbox w').
      congruence.
    + rewrite Hdue. apply Z.gtb_lt. lia.
Qed.

Lemma OnDataSent_then_the_probe_fires_after_the_period_witness :
  let w' := OnDataSent false (advance 1000 unblockedController) in
  nextTouchBaseTimeTarget w' = 6000 /\
  periodicCheckToEnsureCommunicationsAreOK quietControllerEnv
    (delay_of sampleSettings quietControllerEnv MainTask) (advance 5000 w') = advance 5000 w' /\
  sendsAProbe (advance 5001 w')
    (periodicCheckToEnsureCommunicationsAreOK quietControllerEnv
       (delay_of sampleSettings quietControllerEnv MainTask) (advance 5001 w')).
Proof.
  pose proof (OnDataSent_then_the_probe_fires_after_the_period sampleSettings
                quietControllerEnv MainTask false (advance 1000 unblockedController)) as H.
  cbv zeta in H.
  destruct H as (_ & Htarget & Hprobe);
    [reflexivity | vm_compute; discriminate | vm_compute; reflexivity |].
  split; [exact Htarget|]. split.
  - destruct (Hprobe 5000) as [Hquiet _];
      [vm_compute; discriminate | vm_compute; reflexivity |].
    apply Hquiet. vm_compute. discriminate.
  - destruct (Hprobe 5001) as [_ Hsends];
      [vm_compute; discriminate | vm_compute; reflexivity |].
    apply Hsends. vm_compute. reflexivity.
Defined.

(** ** An unblock in flight and the button of the Controller *)

Lemma unblockRequest_by_statements cfg env st w :
  thisIsTheController w = true ->
  OnDataRecv cfg env delay_radio (mkTransmission requestControllerUnblockNetwork st) w =
    let handler := unblockRequest_toTheWrite cfg env w in
    if fst handler
    then unblockRequest_fromTheWrite env (snd handler)
    else provideTheSwitchboxTheNetworkStatus env delay_radio (snd handler).
Proof.
  intros Hrole. unfold OnDataRecv, unblockRequest_toTheWrite, unblockRequest_fromTheWrite,
    touchBaseWhenAllIsGood.
  cbn. rewrite Hrole. cbn. rewrite Hrole. decide_kinds.
  rewrite BlockNetwork_by_statements. cbv zeta.
  destruct (fst (BlockNetwork_tests cfg env delay_radio false false _)); reflexivity.
Qed.

(** A property of the statuses of the Controller, of the status last acted
    upon, of [NetworkStatus] and of the relay is kept by the procedures that
    write none of them. *)
Lemma statuses_kept c y z n r :
  Kept (fun v => thisIsTheController v = c /\ ControllerSwitchStatus v = y /\
                 lastControllerSwitchStatus v = z /\ NetworkStatus v = n /\ relay v = r).
Proof. split; intros; assumption. Qed.

Lemma buttonOverridden_kept : Kept buttonOverridden.
Proof. apply statuses_kept. Qed.

Lemma unblockRequest_toTheWrite_granted cfg env w :
  thisIsTheController w = true ->
  NetworkStatus w = blocked ->
  ControllerSwitchStatus w <> blocked ->
  let handler := unblockRequest_toTheWrite cfg env w in
  fst handler = true /\
  thisIsTheController (snd handler) = true /\
  ControllerSwitchStatus (snd handler) = ControllerSwitchStatus w /\
  lastControllerSwitchStatus (snd handler) = lastControllerSwitchStatus w /\
  NetworkStatus (snd handler) = blocked /\
  pin_out (snd handler) = pin_out w /\
  clock (snd handler) = clock w.
Proof.
  intros Hrole Hns Hup. cbv zeta.
  unfold unblockRequest_toTheWrite, BlockNetwork_tests, BlockNetwork_refresh,
    touchBaseWhenAllIsGood.
  cbn. rewrite Hrole. cbn. rewrite Hrole. cbn. rewrite Hns. cbn.
  apply status_eqb_neq in Hup. rewrite Hup.
  destruct (useASwitchbox cfg); cbn; auto 10.
Qed.

Section QuietRadio.

Variable cfg : Settings.
Variable env : Env.
Hypothesis withSwitchbox : useASwitchbox cfg = true.
Hypothesis quiet : radioSilent env.

Lemma kept_delay_main (P : World -> Prop) n v :
  Kept P -> P v -> P (delay_main cfg env n v).
Proof.
  intros Hkept H.
  change (delay_main cfg env n v) with (delay_of cfg env MainTask n v).
  rewrite delay_of_quiet by (right; exact quiet).
  apply (kept_clock P Hkept), H.
Qed.

(** Sampling the button while the radio is quiet. *)
Lemma checkEmergencyStopButton_quiet v :
  thisIsTheController v = true ->
  let v' := checkEmergencyStopButton env (delay_main cfg env) v in
  thisIsTheController v' = true /\
  ControllerSwitchStatus v' =
    (if controllerButtonDown env (clock v) then blocked else unblocked) /\
  lastControllerSwitchStatus v' = lastControllerSwitchStatus v /\
  NetworkStatus v' = NetworkStatus v /\ relay v' = relay v.
Proof.
  intros Hrole. cbv zeta.
  destruct (checkEmergencyStopButton_own cfg env MainTask v) as [Hown Hrole'].
  cbv zeta in Hown, Hrole'.
  change (delay_of cfg env MainTask) with (delay_main cfg env) in Hown, Hrole'.
  unfold ownSwitchStatus, ownNormallyClosedPin, ownNormallyOpenedPin in Hown.
  rewrite Hrole', Hrole in Hown.
  set (P := fun v0 : World =>
              lastControllerSwitchStatus v0 = lastControllerSwitchStatus v /\
              NetworkStatus v0 = NetworkStatus v /\ relay v0 = relay v).
  assert (Kept P) as Hkept by (split; intros; assumption).
  assert (P (checkEmergencyStopButton env (delay_main cfg env) v)) as (Hlast & Hns & Hrelay).
  { apply (checkEmergencyStopButton_kept env (delay_main cfg env) P Hkept).
    - intros n v0. apply kept_delay_main, Hkept.
    - intros x v0 _ H. exact H.
    - repeat split. }
  split; [congruence|]. split; [exact Hown|]. auto.
Qed.

Lemma buttonOverridden_LEDUpdateAsRequried v :
  buttonOverridden v -> buttonOverridden (LEDUpdateAsRequried cfg v).
Proof.
  intros (Hrole & Hcs & Hlast & Hns & Hrelay).
  assert (forall l v0, buttonOverridden v0 -> buttonOverridden (writeTheLEDs cfg l v0))
    as Hleds.
  { intros l v0 (H1 & H2 & H3 & H4 & H5).
    unfold buttonOverridden. rewrite relay_writeTheLEDs.
    unfold writeTheLEDs. destruct (useOnboardLED cfg), (useExternalLED cfg); auto 10. }
  unfold LEDUpdateAsRequried.
  repeat match goal with
         | |- context [if ?b then _ else _] => destruct b
         end;
    try apply Hleds; repeat split; assumption.
Qed.

(** A turn of [loop] that finds the button down on a Controller whose
    network is blocked. *)
Lemma loop_samples_the_button_down c :
  controllerInvariant c ->
  NetworkStatus c = blocked ->
  controllerButtonDown env (clock c) = true ->
  let turn := loop cfg env c in
  thisIsTheController turn = true /\
  ControllerSwitchStatus turn = blocked /\ lastControllerSwitchStatus turn = blocked /\
  NetworkStatus turn = blocked /\ relay turn = Some HIGH.
Proof.
  intros Hinv Hns Hdown turn.
  pose proof (loop_keeps cfg env c Hinv) as [Hrole' Hagree']. fold turn in Hrole', Hagree'.
  assert (buttonRules blocked blocked turn) as (_ & Hcs & Hlast & Hblocked).
  { subst turn. unfold loop. destruct Hinv as [Hrole _].
    destruct (checkEmergencyStopButton_quiet c Hrole) as (Hrole1 & Hcs1 & _ & Hns1 & _).
    cbv zeta in Hrole1, Hcs1, Hns1. rewrite Hdown in Hcs1.
    set (w1 := checkEmergencyStopButton env (delay_main cfg env) c) in *.
    rewrite Hrole1.
    apply buttonRules_LEDUpdateAsRequried.
    assert (buttonRules blocked blocked
              (actionANetworkChangeAsNeeded cfg env (delay_main cfg env) w1)) as H2.
    { rewrite <- Hcs1.
      apply (buttonRules_actionANetworkChangeAsNeeded cfg env withSwitchbox w1 Hrole1).
      intros _. congruence. }
    destruct (_ || _); [apply (buttonRules_periodicCheck cfg env withSwitchbox)|]; exact H2. }
  specialize (Hblocked eq_refl).
  split; [exact Hrole'|]. split; [exact Hcs|]. split; [exact Hlast|].
  split; [exact Hblocked | apply Hagree', Hblocked].
Qed.

(** Once overridden, a turn of [loop] that finds the button still down
    changes nothing: the status is the one last acted upon. *)
Lemma buttonOverridden_loop v :
  buttonOverridden v ->
  controllerButtonDown env (clock v) = true ->
  buttonOverridden (loop cfg env v).
Proof.
  intros (Hrole & Hcs & Hlast & Hns & Hrelay) Hdown. unfold loop.
  destruct (checkEmergencyStopButton_quiet v Hrole)
    as (Hrole1 & Hcs1 & Hlast1 & Hns1 & Hrelay1).
  cbv zeta in Hrole1, Hcs1, Hlast1, Hns1, Hrelay1. rewrite Hdown in Hcs1.
  set (w1 := checkEmergencyStopButton env (delay_main cfg env) v) in *.
  assert (buttonOverridden w1) as H1 by (repeat split; congruence).
  clearbody w1. rewrite Hrole1.
  assert (actionANetworkChangeAsNeeded cfg env (delay_main cfg env) w1 = w1) as ->.
  { unfold actionANetworkChangeAsNeeded. rewrite Hrole1. cbn [negb]. cbv iota.
    assert (status_eqb (ControllerSwitchStatus w1) (lastControllerSwitchStatus w1) = true)
      as -> by (apply status_eqb_eq; congruence).
    reflexivity. }
  apply buttonOverridden_LEDUpdateAsRequried.
  destruct (_ || _); [|exact H1].
  unfold periodicCheckToEnsureCommunicationsAreOK.
  destruct (touchBaseIsDue w1); [|exact H1]. cbv zeta.
  replace (thisIsTheController (set_nextTouchBaseTimeTarget (uadd (millis w1) 2000) w1))
    with true by (symmetry; exact Hrole1).
  apply (provideTheSwitchboxTheNetworkStatus_kept env (delay_main cfg env) buttonOverridden
           buttonOverridden_kept).
  - intros n v0. apply kept_delay_main, buttonOverridden_kept.
  - exact H1.
Qed.

End QuietRadio.

(** X8 -- An unblock in flight overrides the button of the Controller.  The
    two tasks share the statuses without a lock.  On a Controller built with
    a Switchbox whose network is blocked while its own button is up, the
    handler of a [requestControllerUnblockNetwork] passes the veto tests of
    the gate.  If a turn of [loop] then samples the button down before the
    handler has written the relay, that turn finds the network already
    blocked and only records the press; the handler, resumed, drives the
    relay LOW, sets [NetworkStatus] to [unblocked] and tells the Switchbox
    so.  The Controller's switch is then [blocked] and acted upon while the
    network is unblocked, and every later turn of [loop] that finds the
    button still down leaves it so (no other message arriving). *)
Theorem unblock_in_flight_overrides_the_button
    (cfg : Settings) (env : Env) (st : device_Status) (w : World) :
  useASwitchbox cfg = true ->
  radioSilent env ->
  controllerInvariant w ->
  NetworkStatus w = blocked ->
  ControllerSwitchStatus w <> blocked ->
  controllerButtonDown env (clock w) = true ->
  let handler := unblockRequest_toTheWrite cfg env w in
  let turn := loop cfg env (snd handler) in
  let w' := unblockRequest_fromTheWrite env turn in
  OnDataRecv cfg env delay_radio (mkTransmission requestControllerUnblockNetwork st) w =
    unblockRequest_fromTheWrite env (snd handler) /\
  fst handler = true /\
  (ControllerSwitchStatus turn = blocked /\ lastControllerSwitchStatus turn = blocked /\
   NetworkStatus turn = blocked /\ relay turn = Some HIGH) /\
  buttonOverridden w' /\
  sent w' = (sent turn ++ [(remoteSwitchMACAddress,
                            mkTransmission networkStatusReply unblocked)])%list /\
  (forall v, buttonOverridden v -> controllerButtonDown env (clock v) = true ->
             buttonOverridden (loop cfg env v)).
Proof.
  intros Hcfg Hquiet Hinv Hns Hup Hdown handler turn w'.
  destruct Hinv as [Hrole Hagree].
  destruct (unblockRequest_toTheWrite_granted cfg env w Hrole Hns Hup)
    as (Hgo & Hrole1 & Hcs1 & Hlast1 & Hns1 & Hpins1 & Hclock1).
  cbv zeta in Hgo, Hrole1, Hcs1, Hlast1, Hns1, Hpins1, Hclock1.
  fold handler in Hgo, Hrole1, Hcs1, Hlast1, Hns1, Hpins1, Hclock1.
  assert (controllerInvariant (snd handler)) as Hinv1.
  { split; [exact Hrole1|]. unfold relayAgrees, relay in *. rewrite Hpins1, Hns1.
    rewrite Hns in Hagree. exact Hagree. }
  destruct (loop_samples_the_button_down cfg env Hcfg Hquiet (snd handler) Hinv1 Hns1)
    as (Hrole2 & Hcs2 & Hlast2 & Hns2 & Hrelay2); [rewrite Hclock1; exact Hdown|].
  fold turn in Hrole2, Hcs2, Hlast2, Hns2, Hrelay2.
  split.
  { rewrite (unblockRequest_by_statements cfg env st w Hrole). cbv zeta.
    fold handler. rewrite Hgo. reflexivity. }
  split; [exact Hgo|]. split; [auto|].
  set (written := BlockNetwork_record false (BlockNetwork_write false turn)).
  assert (buttonOverridden written /\ sent written = sent turn) as [Hover Hsent].
  { subst written. unfold buttonOverridden, BlockNetwork_record, BlockNetwork_write, relay,
      digitalWrite.
    cbn. rewrite lookup_insert_eq. auto 10. }
  split; [|split].
  - subst w'. unfold unblockRequest_fromTheWrite. fold written.
    apply (provideTheSwitchboxTheNetworkStatus_kept env delay_radio buttonOverridden
             buttonOverridden_kept); [|exact Hover].
    intros n v0. apply (kept_clock buttonOverridden buttonOverridden_kept).
  - subst w'. unfold unblockRequest_fromTheWrite. fold written.
    destruct Hover as (Hrole3 & _ & _ & Hns3 & _).
    destruct (provideTheSwitchboxTheNetworkStatus_radio env written Hrole3)
      as (_ & _ & _ & _ & Hsent' & _).
    cbv zeta in Hsent'. rewrite Hsent', Hsent, Hns3. reflexivity.
  - intros v. apply (buttonOverridden_loop cfg env Hquiet).
Qed.

Lemma unblock_in_flight_overrides_the_button_witness :
  let handler := unblockRequest_toTheWrite sampleSettings pressedEnv blockedBySwitchbox in
  let w' := unblockRequest_fromTheWrite pressedEnv
              (loop sampleSettings pressedEnv (snd handler)) in
  fst handler = true /\
  ControllerSwitchStatus w' = blocked /\ lastControllerSwitchStatus w' = blocked /\
  NetworkStatus w' = unblocked /\ relay w' = Some LOW.
Proof.
  assert (controllerInvariant blockedBySwitchbox) as Hinv
    by (split; [reflexivity | split; intros _; vm_compute; reflexivity]).
  pose proof (unblock_in_flight_overrides_the_button sampleSettings pressedEnv unknown
                blockedBySwitchbox eq_refl (fun t n => eq_refl) Hinv eq_refl) as H.
  cbv zeta in H.
  destruct H as (_ & Hgo & _ & (_ & Hcs & Hlast & Hns & Hrelay) & _);
    [vm_compute; discriminate | vm_compute; reflexivity |].
  split; [exact Hgo | auto].
Defined.
